(** * vmd(8) virtual machine process core: usr.sbin/vmd/vm.c

    A shallow embedding of the VM process functions of [vm.c] (guest memory
    allocation, VM start-up validation, pause and unpause, the migration
    send and restore paths and the VCPU run loop) together with the
    properties stated about them.

    The C functions act on one VM structure ([current_vm] and the [vm]
    argument always denote the same object in the VM process), on the host
    address space, on the vmm(4) device and on the migration descriptor.
    These are the fields of [world]; every call that leaves the process
    (system call, ioctl, pthread operation, log line) is recorded in the
    world's trace, in program order.  Whether such a call succeeds is not
    decided by the program: it is read from an [environ], indexed by the
    call site. *)

From stdpp Require Import base list gmap strings.
From Stdlib Require Import ZArith Lia.

Open Scope Z_scope.

(** ** Error numbers *)

Inductive errno : Type :=
  | EPERM | ENOENT | EIO | ENOMEM | EACCES | EBUSY | EINVAL | EAGAIN.

Definition errno_val (e : errno) : Z :=
  match e with
  | EPERM => 1 | ENOENT => 2 | EIO => 5 | ENOMEM => 12
  | EACCES => 13 | EBUSY => 16 | EINVAL => 22 | EAGAIN => 35
  end.

#[global] Instance errno_eq_dec : EqDecision errno.
Proof. solve_decision. Defined.

(** ** Data model *)

(** [vmr_type] of [struct vm_mem_range]. *)
Inductive mem_type : Type := VM_MEM_RAM | VM_MEM_RESERVED | VM_MEM_MMIO.

#[global] Instance mem_type_eq_dec : EqDecision mem_type.
Proof. solve_decision. Defined.

(** [struct vm_mem_range]: guest physical base, host virtual address,
    size and type.  [vmr_va = 0] is the unset address. *)
Record vm_mem_range : Type := mk_vmr {
  vmr_gpa : Z;
  vmr_va : Z;
  vmr_size : Z;
  vmr_type : mem_type
}.

Definition vmr_with_va (va : Z) (r : vm_mem_range) : vm_mem_range :=
  mk_vmr (vmr_gpa r) va (vmr_size r) (vmr_type r).

(** [struct vm_create_params], the fields [vm.c] reads or writes.
    [vcp_memranges] is the array [vcp_memranges[VMM_MAX_MEM_RANGES]]. *)
Record vm_create_params : Type := mk_vcp {
  vcp_nmemranges : nat;
  vcp_ncpus : nat;
  vcp_memranges : list vm_mem_range;
  vcp_id : Z
}.

Definition vcp_with_memranges (l : list vm_mem_range) (c : vm_create_params)
  : vm_create_params :=
  mk_vcp (vcp_nmemranges c) (vcp_ncpus c) l (vcp_id c).

Definition vcp_with_id (id : Z) (c : vm_create_params) : vm_create_params :=
  mk_vcp (vcp_nmemranges c) (vcp_ncpus c) (vcp_memranges c) id.

(** [struct vmop_create_params]. *)
Record vmop_create_params : Type := mk_vmc {
  vmc_params : vm_create_params;
  vmc_ndisks : nat;
  vmc_nnics : nat;
  vmc_flags : Z
}.

(** [struct vmd_vm]. *)
Record vmd_vm : Type := mk_vm {
  vm_params : vmop_create_params;
  vm_state : Z
}.

Definition vm_vcp (vm : vmd_vm) : vm_create_params :=
  vmc_params (vm_params vm).

Definition vm_with_vcp (c : vm_create_params) (vm : vmd_vm) : vmd_vm :=
  mk_vm (mk_vmc c (vmc_ndisks (vm_params vm)) (vmc_nnics (vm_params vm))
           (vmc_flags (vm_params vm)))
        (vm_state vm).

Definition vm_with_state (s : Z) (vm : vmd_vm) : vmd_vm :=
  mk_vm (vm_params vm) s.

(** Modelled from the spec: [struct vcpu_reg_state] and the VM parameters
    of a VCPU are declared in the vmm(4) headers, which are not part of the
    sources.  The migration code only copies them, so the register state
    and the VM-parameter state are each a sequence of machine words. *)
Definition vcpu_reg_state : Type := list Z.
Definition vcpu_vm_params : Type := list Z.

(** [struct vm_rwregs_params]. *)
Record vm_rwregs_params : Type := mk_vrwp {
  vrwp_vm_id : Z;
  vrwp_vcpu_id : nat;
  vrwp_mask : Z;
  vrwp_regs : vcpu_reg_state
}.

(** [struct vm_rwvmparams_params]. *)
Record vm_rwvmparams_params : Type := mk_vpp {
  vpp_vm_id : Z;
  vpp_vcpu_id : nat;
  vpp_mask : Z;
  vpp_params : vcpu_vm_params
}.

(** [struct vm_sharemem_params]. *)
Record vm_sharemem_params : Type := mk_vsp {
  vsp_nmemranges : nat;
  vsp_vm_id : Z;
  vsp_memranges : list vm_mem_range
}.

Definition vsp_with_memranges (l : list vm_mem_range) (v : vm_sharemem_params)
  : vm_sharemem_params :=
  mk_vsp (vsp_nmemranges v) (vsp_vm_id v) l.

(** A page of guest memory, as its bytes. *)
Definition page : Type := list Z.

(** The migration stream is a sequence of fixed-size records with no
    framing: what [send_vm] writes with one [atomicio] call is one item. *)
Inductive item : Type :=
  | I_header
  | I_vmc (c : vmop_create_params)
  | I_regs (r : vm_rwregs_params)
  | I_page (p : page)
  | I_devs
  | I_pci
  | I_virtio
  | I_vmparams (p : vm_rwvmparams_params).

(** ** Call sites whose result is decided outside the program *)

(** Mutexes and condition variables named in [vm.c]. *)

Inductive mutex : Type :=
  | threadmutex
  | vm_mtx
  | vcpu_run_mtx (n : nat)
  | vcpu_unpause_mtx (n : nat).

Inductive cond : Type :=
  | threadcond
  | vcpu_run_cond (n : nat)
  | vcpu_unpause_cond (n : nat).

Inductive site : Type :=
  (* the wrappers mutex_lock and mutex_unlock *)
  | s_mutex_lock (m : mutex)
  | s_mutex_unlock (m : mutex)
  (* guest memory *)
  | s_alloc_mmap (i : nat)
  | s_remap_mmap (i : nat)
  | s_remap_munmap (i : nat)
  | s_sharemem
  (* start_vm, run_vm *)
  | s_getrlimit
  | s_fmt_scaled
  | s_create
  | s_sev_init
  | s_fcntl
  | s_write_id
  | s_load_firmware
  | s_sync_init (k : nat)
  | s_vmm_pipe
  | s_pledge
  | s_run_calloc
  | s_malloc (i : nat)
  | s_malloc_exit (i : nat)
  | s_event_thread
  | s_vcpu_reset (i : nat)
  | s_sev_activate (i : nat)
  | s_sev_encrypt_memory (i : nat)
  | s_writeregs (i : nat)
  | s_vcpu_sync_init (i k : nat)
  | s_pthread_create (i : nat)
  (* pause_vm, unpause_vm *)
  | s_barrier_init
  | s_run_broadcast (n : nat)
  | s_barrier_wait
  | s_barrier_destroy
  | s_unpause_broadcast (n : nat)
  (* send_vm *)
  | s_header
  | s_calloc
  | s_write_vmc
  | s_readregs (i : nat)
  | s_write_regs (i : nat)
  | s_read_mem (gpa : Z)
  | s_write_page (gpa : Z)
  | s_dump_devs
  | s_pci_dump
  | s_virtio_dump
  | s_readvmparams (i : nat)
  | s_write_vmparams (i : nat)
  | s_term
  (* restore *)
  | s_write_mem (gpa : Z)
  | s_writevmparams (i : nat)
  (* vcpu_run_loop, keyed by the iteration *)
  | s_lock_run_mtx (k : nat)
  | s_loop_barrier_wait (k : nat)
  | s_lock_unpause_mtx (k : nat)
  | s_wait_unpause (k : nat)
  | s_unlock_unpause_mtx (k : nat)
  | s_wait_run (k : nat)
  | s_unlock_run_mtx (k : nat)
  | s_run (k : nat).

(** ** Trace of calls leaving the process *)

Inductive event : Type :=
  | E_mmap (size : Z) (va : Z)
  | E_mmap_failed (size : Z) (e : errno)
  | E_munmap (va size : Z)
  | E_sharemem (v : vm_sharemem_params)
  | E_create (c : vm_create_params)
  | E_write_id (id : Z)
  | E_log (msg : string)
  | E_lock (m : mutex)
  | E_unlock (m : mutex)
  | E_set_state (s : Z)            (* store to vm_state *)
  | E_set_done (n : nat)           (* vcpu_done[n] = 1 *)
  | E_barrier_init (count : nat)
  | E_barrier_wait
  | E_barrier_destroy
  | E_broadcast (c : cond)
  | E_signal (c : cond)
  | E_wait (c : cond) (m : mutex)
  | E_pause_md
  | E_unpause_md
  | E_write (it : item)            (* a record written to the send descriptor *)
  | E_close
  | E_readregs (i : nat)
  | E_readvmparams (i : nat)
  | E_term (id : Z)
  | E_vcpu_reset (i : nat) (r : vcpu_reg_state)
  | E_writeregs (p : vm_rwregs_params)
  | E_writevmparams (p : vm_rwvmparams_params)
  | E_thread_create (i : nat)
  | E_run (n : nat) (inject : option Z) (pending : bool)
  | E_vcpu_exit (n : nat)
  | E_response (result : Z)        (* IMSG_VMDOP_SEND_VM_RESPONSE *)
  | E_imsg_flush.

(** ** The world of the VM process *)

(** vmm(4) state of the VM: registers and VM parameters of each VCPU. *)
Record kernel : Type := mk_kernel {
  k_regs : gmap nat vcpu_reg_state;
  k_vmparams : gmap nat vcpu_vm_params
}.

Record world : Type := mk_world {
  w_vm : vmd_vm;                 (* the VM structure, [current_vm] *)
  w_maps : list (Z * Z);         (* live mappings of the process: va, size *)
  w_kern : kernel;               (* vmm(4) state of this VM *)
  w_gmem : Z -> Z;               (* guest memory: the byte at each address *)
  w_in : list item;              (* unread part of the receive descriptor *)
  w_hlt : gmap nat bool;         (* vcpu_hlt *)
  w_done : gmap nat bool;        (* vcpu_done *)
  w_trace : list event
}.

Definition w_with_vm (vm : vmd_vm) (w : world) : world :=
  mk_world vm (w_maps w) (w_kern w) (w_gmem w) (w_in w) (w_hlt w) (w_done w)
           (w_trace w).
Definition w_with_maps (m : list (Z * Z)) (w : world) : world :=
  mk_world (w_vm w) m (w_kern w) (w_gmem w) (w_in w) (w_hlt w) (w_done w)
           (w_trace w).
Definition w_with_kern (k : kernel) (w : world) : world :=
  mk_world (w_vm w) (w_maps w) k (w_gmem w) (w_in w) (w_hlt w) (w_done w)
           (w_trace w).
Definition w_with_gmem (g : Z -> Z) (w : world) : world :=
  mk_world (w_vm w) (w_maps w) (w_kern w) g (w_in w) (w_hlt w) (w_done w)
           (w_trace w).
Definition w_with_in (i : list item) (w : world) : world :=
  mk_world (w_vm w) (w_maps w) (w_kern w) (w_gmem w) i (w_hlt w) (w_done w)
           (w_trace w).
Definition w_with_hlt (h : gmap nat bool) (w : world) : world :=
  mk_world (w_vm w) (w_maps w) (w_kern w) (w_gmem w) (w_in w) h (w_done w)
           (w_trace w).
Definition w_with_done (d : gmap nat bool) (w : world) : world :=
  mk_world (w_vm w) (w_maps w) (w_kern w) (w_gmem w) (w_in w) (w_hlt w) d
           (w_trace w).
Definition w_with_trace (t : list event) (w : world) : world :=
  mk_world (w_vm w) (w_maps w) (w_kern w) (w_gmem w) (w_in w) (w_hlt w)
           (w_done w) t.

(** Exit reasons reported by VMM_IOC_RUN that the loop tells apart. *)
Inductive exit_reason : Type :=
  | VM_EXIT_NONE
  | VM_EXIT_TERMINATED
  | VM_EXIT_OTHER.

(** What is decided outside the program. *)
Record environ : Type := mk_environ {
  fails : site -> option errno;   (* [None]: the call at this site succeeds *)
  mmap_addr : site -> positive;   (* address returned by a successful mmap *)
  created_id : Z;                 (* VM id assigned by VMM_IOC_CREATE *)
  memory_map : vm_create_params -> vm_create_params;
                                  (* create_memory_map, machine dependent *)
  boot_regs : vcpu_reg_state;     (* registers set up by load_firmware *)
  reset_regs : vcpu_reg_state -> vcpu_reg_state;
                                  (* registers after VMM_IOC_RESETCPU *)
  (* what a VCPU thread finds in its k-th iteration *)
  seen_paused : nat -> bool;      (* current_vm->vm_state & VM_STATE_PAUSED *)
  seen_halted : nat -> bool;      (* vcpu_hlt[n] *)
  irqready : nat -> bool;         (* vrp->vrp_irqready *)
  intr_pending : nat -> bool;     (* intr_pending() before the injection *)
  intr_pending' : nat -> bool;    (* intr_pending() after it *)
  intr_ack : nat -> Z;            (* vector returned by intr_ack() *)
  run_exit : nat -> exit_reason;  (* vrp_exit_reason after VMM_IOC_RUN *)
  vcpu_exit : nat -> Z;           (* return value of vcpu_exit() *)
  stale_errno : Z                 (* errno when pthread_create has failed *)
}.

(** Constants of headers that are not part of the sources. *)
Record platform : Type := mk_platform {
  VMM_MAX_VCPUS_PER_VM : nat;
  VMM_MAX_MEM_RANGES : nat;
  VM_MAX_DISKS_PER_VM : nat;
  VM_MAX_NICS_PER_VM : nat;
  PAGE_SHIFT : Z;
  VM_STATE_PAUSED : Z;
  VM_STATE_RECEIVED : Z;
  VM_RWREGS_ALL : Z;
  VM_RWVMPARAMS_ALL : Z;
  VMOP_CREATE_MEMORY : Z
}.

Definition PAGE_SIZE (P : platform) : Z := Z.shiftl 1 (PAGE_SHIFT P).

(** ** Outcomes and the monad of the embedding *)

Inductive outcome (A : Type) : Type :=
  | Ret (a : A)        (* the function returns [a] *)
  | Fatal              (* fatal() or fatalx(): the process logs and exits *)
  | Exit (code : Z)    (* _exit(code) *)
  | Fault              (* access outside an array *)
  | Desync             (* a read that is not aligned with the written records *)
  | Hang.              (* the loop is still running when the fuel ends *)

Arguments Ret {A} a.
Arguments Fatal {A}.
Arguments Exit {A} code.
Arguments Fault {A}.
Arguments Desync {A}.
Arguments Hang {A}.

Definition M (A : Type) : Type := world -> outcome A * world.

Definition ret {A} (a : A) : M A := fun w => (Ret a, w).

Definition stop {A B} (o : outcome A) : outcome B :=
  match o with
  | Ret _ => Fault
  | Fatal => Fatal
  | Exit c => Exit c
  | Fault => Fault
  | Desync => Desync
  | Hang => Hang
  end.

Definition bind {A B} (m : M A) (f : A -> M B) : M B :=
  fun w =>
    match m w with
    | (Ret a, w') => f a w'
    | (o, w') => (stop o, w')
    end.

Declare Scope vmd_scope.
Delimit Scope vmd_scope with vmd.
Notation "x <- m ;; k" := (bind m (fun x => k))
  (at level 100, m at next level, right associativity) : vmd_scope.
Notation "m ;;; k" := (bind m (fun _ => k))
  (at level 100, right associativity) : vmd_scope.
Open Scope vmd_scope.

Definition halt_with {A} (o : outcome A) : M A := fun w => (o, w).
Definition get : M world := fun w => (Ret w, w).
Definition modify (f : world -> world) : M unit := fun w => (Ret tt, f w).
Definition emit (e : event) : M unit :=
  modify (fun w => w_with_trace (w_trace w ++ [e]) w).

(** [for (i = from; i < from + count; i++) body], where the body either
    goes on with a new value of the locals ([inl]) or returns from the
    enclosing function ([inr]). *)
Fixpoint for_loop {S R} (count from : nat) (s : S)
  (body : nat -> S -> M (S + R)) : M (S + R) :=
  match count with
  | O => ret (inl s)
  | Datatypes.S c =>
      r <- body from s;;
      match r with
      | inl s' => for_loop c (Datatypes.S from) s' body
      | inr x => ret (inr x)
      end
  end.

Definition get_vcp : M vm_create_params := fun w => (Ret (vm_vcp (w_vm w)), w).

(** [&vcp->vcp_memranges[i]], read. *)
Definition memrange (i : nat) : M vm_mem_range :=
  fun w =>
    match vcp_memranges (vm_vcp (w_vm w)) !! i with
    | Some r => (Ret r, w)
    | None => (Fault, w)
    end.

(** [vcp->vcp_memranges[i].vmr_va = va]. *)
Definition set_memrange_va (i : nat) (va : Z) : M unit :=
  fun w =>
    let c := vm_vcp (w_vm w) in
    match vcp_memranges c !! i with
    | Some r =>
        (Ret tt,
         w_with_vm (vm_with_vcp
           (vcp_with_memranges (<[i := vmr_with_va va r]> (vcp_memranges c)) c)
           (w_vm w)) w)
    | None => (Fault, w)
    end.

(** Removing one mapping from the list of live mappings (munmap of a
    region exactly as it was mapped). *)
Fixpoint unmap (m : Z * Z) (l : list (Z * Z)) : list (Z * Z) :=
  match l with
  | [] => []
  | x :: l' => if decide (x = m) then l' else x :: unmap m l'
  end.

Section Vmd.

Variable P : platform.
Variable E : environ.

(** ** Host address space *)

(** [mmap(NULL, size, ..., MAP_ANON, -1, 0)]: [MAP_FAILED] with an errno
    ([inl]) or the address of a new mapping ([inr]). *)
Definition mmap (s : site) (size : Z) : M (errno + Z) :=
  match fails E s with
  | Some e => emit (E_mmap_failed size e);;; ret (inl e)
  | None =>
      let va := Zpos (mmap_addr E s) in
      modify (fun w => w_with_maps ((va, size) :: w_maps w) w);;;
      emit (E_mmap size va);;;
      ret (inr va)
  end.

(** [munmap(va, size)]. *)
Definition munmap (va size : Z) : M unit :=
  modify (fun w => w_with_maps (unmap (va, size) (w_maps w)) w);;;
  emit (E_munmap va size).

(** ** alloc_guest_mem (vm.c:778) *)

(** [for (j = 0; j < i; j++) munmap(vcp_memranges[j].vmr_va, ...)], the
    loop that both alloc_guest_mem and remap_guest_mem run when mmap has
    failed for range [i]. *)
Definition unmap_body (j : nat) (_ : unit) : M (unit + Empty_set) :=
  vmr <- memrange j;;
  munmap (vmr_va vmr) (vmr_size vmr);;;
  ret (inl tt).

Definition unmap_ranges (i : nat) : M (unit + Empty_set) :=
  for_loop i 0 tt unmap_body.

Definition alloc_body (i : nat) (_ : unit) : M (unit + Z) :=
  vmr <- memrange i;;
  p <- mmap (s_alloc_mmap i) (vmr_size vmr);;
  match p with
  | inl e =>
      (* ret = errno; unmap what this call mapped; return (ret) *)
      unmap_ranges i;;;
      ret (inr (errno_val e))
  | inr va =>
      set_memrange_va i va;;;
      ret (inl tt)
  end.

Definition alloc_guest_mem : M Z :=
  vcp <- get_vcp;;
  r <- for_loop (vcp_nmemranges vcp) 0 tt alloc_body;;
  match r with
  | inr e => ret e
  | inl _ => ret 0
  end.

(** ** remap_guest_mem (vm.c:1390) *)

Definition vsp_set_va (i : nat) (va : Z) (v : vm_sharemem_params)
  : vm_sharemem_params :=
  match vsp_memranges v !! i with
  | Some r => vsp_with_memranges (<[i := vmr_with_va va r]> (vsp_memranges v)) v
  | None => v
  end.

Definition remap_body (i : nat) (vsp : vm_sharemem_params)
  : M (vm_sharemem_params + Z) :=
  if decide (i < vsp_nmemranges vsp)%nat then
    match vsp_memranges vsp !! i with
    | None => halt_with Fault
    | Some vmr =>
        if decide (vmr_type vmr = VM_MEM_MMIO) then
          (* Ignore any MMIO ranges. *)
          set_memrange_va i 0;;;
          ret (inl (vsp_set_va i 0 vsp))
        else
          (* Make initial mappings for the memrange. *)
          p <- mmap (s_remap_mmap i) (vmr_size vmr);;
          match p with
          | inl e =>
              emit (E_log "remap_guest_mem: mmap");;;
              unmap_ranges i;;;
              ret (inr (errno_val e))
          | inr va =>
              set_memrange_va i va;;;
              ret (inl (vsp_set_va i va vsp))
          end
    end
  else ret (inl vsp).

(** The second loop: munmap now that we have the addresses. *)
Definition remap_release_body (vsp : vm_sharemem_params) (i : nat) (_ : unit)
  : M (unit + Empty_set) :=
  match vsp_memranges vsp !! i with
  | None => halt_with Fault
  | Some vmr =>
      if decide (vmr_type vmr = VM_MEM_MMIO) then ret (inl tt)
      else
        match fails E (s_remap_munmap i) with
        | Some _ => emit (E_log "remap_guest_mem: munmap");;; halt_with Fatal
        | None => munmap (vmr_va vmr) (vmr_size vmr);;; ret (inl tt)
        end
  end.

(** [vm_null] tells whether the [vm] argument is [NULL]. *)
Definition remap_guest_mem (vm_null : bool) : M Z :=
  if vm_null then ret 1 else
  vcp <- get_vcp;;
  let vsp0 := mk_vsp (vcp_nmemranges vcp) (vcp_id vcp) (vcp_memranges vcp) in
  r <- for_loop (VMM_MAX_MEM_RANGES P) 0 vsp0 remap_body;;
  match r with
  | inr e => ret e
  | inl vsp =>
      for_loop (vsp_nmemranges vsp) 0 tt (remap_release_body vsp);;;
      (* Ask vmm to enter the shared mappings for us. *)
      emit (E_sharemem vsp);;;
      match fails E s_sharemem with
      | Some e => ret (errno_val e)
      | None => ret 0
      end
  end.

(** ** Flags, locks and small accessors *)

Definition get_vm : M vmd_vm := fun w => (Ret (w_vm w), w).

Definition has_flag (flag : Z) (vm : vmd_vm) : bool :=
  negb (Z.land (vm_state vm) flag =? 0).

(** A store to [vm_state]. *)
Definition set_vm_state (s : Z) : M unit :=
  modify (fun w => w_with_vm (vm_with_state s (w_vm w)) w);;;
  emit (E_set_state s).

(** mutex_lock (vm.c:1275) and mutex_unlock (vm.c:1293): fatal on failure. *)
Definition mutex_lock (m : mutex) : M unit :=
  emit (E_lock m);;;
  match fails E (s_mutex_lock m) with
  | Some _ => emit (E_log "could not acquire mutex");;; halt_with Fatal
  | None => ret tt
  end.

Definition mutex_unlock (m : mutex) : M unit :=
  emit (E_unlock m);;;
  match fails E (s_mutex_unlock m) with
  | Some _ => emit (E_log "could not release mutex");;; halt_with Fatal
  | None => ret tt
  end.

(** ** vmm_create_vm (vm.c:827) *)

Definition EINVAL_val : Z := errno_val EINVAL.

Definition vmm_create_vm : M Z :=
  vm <- get_vm;;
  let vcp := vm_vcp vm in
  (* Sanity check arguments *)
  if decide (VMM_MAX_VCPUS_PER_VM P < vcp_ncpus vcp)%nat then ret EINVAL_val
  else if decide (vcp_nmemranges vcp = 0%nat
                  \/ (VMM_MAX_MEM_RANGES P < vcp_nmemranges vcp)%nat)
  then ret EINVAL_val
  else if decide (VM_MAX_DISKS_PER_VM P < vmc_ndisks (vm_params vm))%nat
  then ret EINVAL_val
  else if decide (VM_MAX_NICS_PER_VM P < vmc_nnics (vm_params vm))%nat
  then ret EINVAL_val
  else
    emit (E_create vcp);;;
    match fails E s_create with
    | Some e => ret (errno_val e)
    | None =>
        (* vmm(4) stores the id of the new VM in the parameters *)
        modify (fun w =>
          w_with_vm (vm_with_vcp (vcp_with_id (created_id E) (vm_vcp (w_vm w)))
                                 (w_vm w)) w);;;
        ret 0
    end.

(** ** pause_vm (vm.c:650) and unpause_vm (vm.c:697) *)

(** [for (n = 0; n < ncpus; n++) pthread_cond_broadcast(&c[n])]; a failed
    broadcast is logged and ends the calling function ([inr]). *)
Definition broadcast_body (c : nat -> cond) (s : nat -> site) (msg : string)
  (n : nat) (_ : unit) : M (unit + unit) :=
  emit (E_broadcast (c n));;;
  match fails E (s n) with
  | Some _ => emit (E_log msg);;; ret (inr tt)
  | None => ret (inl tt)
  end.

Definition pause_vm : M unit :=
  mutex_lock vm_mtx;;;
  vm <- get_vm;;
  if has_flag (VM_STATE_PAUSED P) vm then mutex_unlock vm_mtx
  else
    set_vm_state (Z.lor (vm_state vm) (VM_STATE_PAUSED P));;;
    mutex_unlock vm_mtx;;;
    let ncpus := vcp_ncpus (vm_vcp vm) in
    emit (E_barrier_init (ncpus + 1));;;
    match fails E s_barrier_init with
    | Some _ => emit (E_log "cannot initialize pause barrier")
    | None =>
        r <- for_loop ncpus 0 tt
               (broadcast_body vcpu_run_cond s_run_broadcast
                  "pause_vm: can't broadcast vcpu run cond");;
        match r with
        | inr _ => ret tt
        | inl _ =>
            emit E_barrier_wait;;;
            match fails E s_barrier_wait with
            | Some _ => emit (E_log "pause_vm: could not wait on pause barrier")
            | None =>
                emit E_barrier_destroy;;;
                match fails E s_barrier_destroy with
                | Some _ => emit (E_log "could not destroy pause barrier")
                | None => emit E_pause_md
                end
            end
        end
    end.

Definition unpause_vm : M unit :=
  mutex_lock vm_mtx;;;
  vm <- get_vm;;
  if negb (has_flag (VM_STATE_PAUSED P) vm) then mutex_unlock vm_mtx
  else
    set_vm_state (Z.land (vm_state vm) (Z.lnot (VM_STATE_PAUSED P)));;;
    mutex_unlock vm_mtx;;;
    r <- for_loop (vcp_ncpus (vm_vcp vm)) 0 tt
           (broadcast_body vcpu_unpause_cond s_unpause_broadcast
              "unpause_vm: can't broadcast vcpu unpause cond");;
    match r with
    | inr _ => ret tt
    | inl _ => emit E_unpause_md
    end.

(** ** Guest memory contents and the descriptors *)

Definition wrap64 (z : Z) : Z := z mod 2 ^ 64.

(** Modelled from the spec: read_mem and write_mem belong to the machine
    dependent part of vmd, which is not part of the sources.  They copy
    [len] bytes of guest physical memory starting at [gpa], and report
    an error when the span is not guest memory. *)
Definition read_mem (gpa len : Z) : M (option page) :=
  match fails E (s_read_mem gpa) with
  | Some _ => ret None
  | None => fun w => (Ret (Some ((fun k => w_gmem w (gpa + k)) <$> seqZ 0 len)), w)
  end.

Definition store_bytes (gpa : Z) (buf : page) (g : Z -> Z) : Z -> Z :=
  fun a =>
    if decide (gpa <= a < gpa + Z.of_nat (length buf))
    then default 0 (buf !! Z.to_nat (a - gpa))
    else g a.

Definition write_mem (gpa : Z) (buf : page) : M bool :=
  match fails E (s_write_mem gpa) with
  | Some _ => ret false
  | None =>
      modify (fun w => w_with_gmem (store_bytes gpa buf (w_gmem w)) w);;;
      ret true
  end.

(** [atomicio(vwrite, fd, rec, sizeof(rec))] on the send descriptor:
    [true] when the whole record was written. *)
Definition write_fd (s : site) (it : item) : M bool :=
  match fails E s with
  | Some _ => ret false
  | None => emit (E_write it);;; ret true
  end.

(** [atomicio(read, fd, buf, size)] on the receive descriptor: the next
    record, or [None] on a short read. *)
Definition read_fd : M (option item) :=
  fun w =>
    match w_in w with
    | [] => (Ret None, w)
    | it :: rest => (Ret (Some it), w_with_in rest w)
    end.

Definition read_regs : M (option vm_rwregs_params) :=
  it <- read_fd;;
  match it with
  | None => ret None
  | Some (I_regs r) => ret (Some r)
  | Some _ => halt_with Desync
  end.

Definition read_page : M (option page) :=
  it <- read_fd;;
  match it with
  | None => ret None
  | Some (I_page p) => ret (Some p)
  | Some _ => halt_with Desync
  end.

Definition read_vmparams : M (option vm_rwvmparams_params) :=
  it <- read_fd;;
  match it with
  | None => ret None
  | Some (I_vmparams p) => ret (Some p)
  | Some _ => halt_with Desync
  end.

(** ** vmm(4) requests on VCPU state *)

Definition ioctl_readregs (i : nat) : M (option vcpu_reg_state) :=
  emit (E_readregs i);;;
  fun w =>
    match fails E (s_readregs i), k_regs (w_kern w) !! i with
    | None, Some r => (Ret (Some r), w)
    | _, _ => (Ret None, w)
    end.

Definition ioctl_readvmparams (i : nat) : M (option vcpu_vm_params) :=
  emit (E_readvmparams i);;;
  fun w =>
    match fails E (s_readvmparams i), k_vmparams (w_kern w) !! i with
    | None, Some r => (Ret (Some r), w)
    | _, _ => (Ret None, w)
    end.

Definition set_regs (i : nat) (r : vcpu_reg_state) : M unit :=
  modify (fun w =>
    w_with_kern (mk_kernel (<[i := r]> (k_regs (w_kern w)))
                           (k_vmparams (w_kern w))) w).

Definition ioctl_writeregs (p : vm_rwregs_params) : M bool :=
  emit (E_writeregs p);;;
  match fails E (s_writeregs (vrwp_vcpu_id p)) with
  | Some _ => ret false
  | None => set_regs (vrwp_vcpu_id p) (vrwp_regs p);;; ret true
  end.

Definition ioctl_writevmparams (p : vm_rwvmparams_params) : M bool :=
  emit (E_writevmparams p);;;
  match fails E (s_writevmparams (vpp_vcpu_id p)) with
  | Some _ => ret false
  | None =>
      modify (fun w =>
        w_with_kern (mk_kernel (k_regs (w_kern w))
                       (<[vpp_vcpu_id p := vpp_params p]>
                          (k_vmparams (w_kern w)))) w);;;
      ret true
  end.

(** ** dump_vmr (vm.c:613) and dump_mem (vm.c:565) *)

(** The loop [while (rem > 0)] of dump_vmr; [rem] and [read] are
    [size_t]. *)
Fixpoint dump_vmr_loop (fuel : nat) (vmr : vm_mem_range) (rem read : Z)
  : M Z :=
  if decide (rem = 0) then ret 0
  else
    match fuel with
    | O => halt_with Hang
    | S fuel' =>
        b <- read_mem (wrap64 (vmr_gpa vmr + read)) (PAGE_SIZE P);;
        match b with
        | None => emit (E_log "failed to read vmr");;; ret (-1)
        | Some buf =>
            ok <- write_fd (s_write_page (wrap64 (vmr_gpa vmr + read)))
                           (I_page buf);;
            if ok : bool then
              dump_vmr_loop fuel' vmr (wrap64 (rem - PAGE_SIZE P))
                            (wrap64 (read + PAGE_SIZE P))
            else emit (E_log "failed to dump vmr");;; ret (-1)
        end
    end.

Definition dump_vmr (fuel : nat) (vmr : vm_mem_range) : M Z :=
  dump_vmr_loop fuel vmr (wrap64 (vmr_size vmr)) 0.

Definition dump_mem_body (fuel : nat) (i : nat) (_ : unit) : M (unit + Z) :=
  vmr <- memrange i;;
  r <- dump_vmr fuel vmr;;
  if decide (r = 0) then ret (inl tt) else ret (inr r).

Definition dump_mem (fuel : nat) : M Z :=
  vcp <- get_vcp;;
  r <- for_loop (vcp_nmemranges vcp) 0 tt (dump_mem_body fuel);;
  match r with
  | inr e => ret e
  | inl _ => ret 0
  end.

(** ** send_vm (vm.c:470) *)

(** Modelled from the spec: dump_send_header, dump_devs, pci_dump and
    virtio_dump are defined in files that are not part of the sources.
    Each writes its record to the descriptor and returns 0, or returns
    -1 when the write fails. *)
Definition dump_record (s : site) (it : item) : M Z :=
  ok <- write_fd s it;;
  ret (if ok : bool then 0 else -1).

Definition dump_send_header : M Z := dump_record s_header I_header.
Definition dump_devs : M Z := dump_record s_dump_devs I_devs.
Definition pci_dump : M Z := dump_record s_pci_dump I_pci.
Definition virtio_dump : M Z := dump_record s_virtio_dump I_virtio.

(** The code after the label [err:]. *)
Definition send_vm_err (r : Z) : M Z :=
  emit E_close;;;
  (if decide (r = 0) then ret tt else unpause_vm);;;
  ret r.

(** The two per-VCPU loops of send_vm. *)
Definition send_regs_body (id : Z) (i : nat) (_ : unit) : M (unit + Z) :=
  regs <- ioctl_readregs i;;
  match regs with
  | None => emit (E_log "send_vm: readregs failed");;; ret (inr (-1))
  | Some regs =>
      ok <- write_fd (s_write_regs i)
              (I_regs (mk_vrwp id i (VM_RWREGS_ALL P) regs));;
      if ok : bool then ret (inl tt)
      else emit (E_log "send_vm: dumping registers failed");;; ret (inr (-1))
  end.

Definition send_vmparams_body (id : Z) (i : nat) (_ : unit) : M (unit + Z) :=
  prm <- ioctl_readvmparams i;;
  match prm with
  | None => emit (E_log "send_vm: readvmparams failed");;; ret (inr (-1))
  | Some prm =>
      ok <- write_fd (s_write_vmparams i)
              (I_vmparams (mk_vpp id i (VM_RWVMPARAMS_ALL P) prm));;
      if ok : bool then ret (inl tt)
      else emit (E_log "send_vm: dumping vm params failed");;; ret (inr (-1))
  end.

Definition send_vm (fuel : nat) : M Z :=
  (* int ret = 0; *)
  h <- dump_send_header;;
  if decide (h <> 0) then
    emit (E_log "send_vm: failed to send vm dump header");;;
    send_vm_err 0
  else
  pause_vm;;;
  match fails E s_calloc with
  | Some _ => emit (E_log "send_vm: calloc error getting vmc");;; send_vm_err (-1)
  | None =>
  vm <- get_vm;;
  let vcp := vm_vcp vm in
  let vmc := mk_vmc (vmc_params (vm_params vm)) (vmc_ndisks (vm_params vm))
                    (vmc_nnics (vm_params vm)) (VMOP_CREATE_MEMORY P) in
  ok <- write_fd s_write_vmc (I_vmc vmc);;
  if negb ok then send_vm_err (-1)
  else
  r <- for_loop (vcp_ncpus vcp) 0 tt (send_regs_body (vcp_id vcp));;
  match r with
  | inr e => send_vm_err e
  | inl _ =>
  (* Dump memory before devices to aid in restoration. *)
  r <- dump_mem fuel;;
  if decide (r <> 0) then send_vm_err r else
  r <- dump_devs;;
  if decide (r <> 0) then send_vm_err r else
  r <- pci_dump;;
  if decide (r <> 0) then send_vm_err r else
  r <- virtio_dump;;
  if decide (r <> 0) then send_vm_err r else
  r <- for_loop (vcp_ncpus vcp) 0 tt (send_vmparams_body (vcp_id vcp));;
  match r with
  | inr e => send_vm_err e
  | inl _ =>
      emit (E_term (vcp_id vcp));;;
      (match fails E s_term with
       | Some _ => emit (E_log "send_vm: term IOC error")
       | None => ret tt
       end);;;
      send_vm_err 0
  end
  end
  end.

(** The case IMSG_VMDOP_SEND_VM_REQUEST of vm_dispatch_vmm (vm.c:409). *)
Definition dispatch_send_vm_request (fuel : nat) : M unit :=
  r <- send_vm fuel;;
  emit (E_response r);;;
  if decide (r = 0) then emit E_imsg_flush;;; halt_with (Exit 0)
  else ret tt.

(** ** restore_vmr (vm.c:634), restore_mem (vm.c:601),
       restore_vm_params (vm.c:581) *)

Fixpoint restore_vmr_loop (fuel : nat) (vmr : vm_mem_range) (rem wrote : Z)
  : M unit :=
  if decide (rem = 0) then ret tt
  else
    match fuel with
    | O => halt_with Hang
    | S fuel' =>
        b <- read_page;;
        match b with
        | None => emit (E_log "failed to restore vmr");;; halt_with Fatal
        | Some buf =>
            ok <- write_mem (wrap64 (vmr_gpa vmr + wrote)) buf;;
            if ok : bool then
              restore_vmr_loop fuel' vmr (wrap64 (rem - PAGE_SIZE P))
                               (wrap64 (wrote + PAGE_SIZE P))
            else emit (E_log "failed to write vmr");;; halt_with Fatal
        end
    end.

Definition restore_vmr (fuel : nat) (vmr : vm_mem_range) : M unit :=
  restore_vmr_loop fuel vmr (wrap64 (vmr_size vmr)) 0.

Definition restore_mem_body (fuel : nat) (i : nat) (_ : unit)
  : M (unit + Empty_set) :=
  vmr <- memrange i;;
  restore_vmr fuel vmr;;;
  ret (inl tt).

Definition restore_mem (fuel : nat) : M unit :=
  vcp <- get_vcp;;
  for_loop (vcp_nmemranges vcp) 0 tt (restore_mem_body fuel);;;
  ret tt.

Definition restore_vm_params_body (id : Z) (i : nat) (_ : unit)
  : M (unit + Z) :=
  p <- read_vmparams;;
  match p with
  | None =>
      emit (E_log "restore_vm_params: error restoring vm params");;;
      ret (inr (-1))
  | Some vpp =>
      (* vpp.vpp_vm_id = vcp->vcp_id; vpp.vpp_vcpu_id = i; *)
      ok <- ioctl_writevmparams (mk_vpp id i (vpp_mask vpp) (vpp_params vpp));;
      if ok : bool then ret (inl tt)
      else emit (E_log "restore_vm_params: writing vm params failed");;;
           ret (inr (-1))
  end.

Definition restore_vm_params : M Z :=
  vcp <- get_vcp;;
  r <- for_loop (vcp_ncpus vcp) 0 tt (restore_vm_params_body (vcp_id vcp));;
  match r with
  | inr e => ret e
  | inl _ => ret 0
  end.

(** Modelled from the spec: restore_emulated_hw is defined in the machine
    dependent part of vmd, which is not part of the sources.  It reads the
    opaque device and bus state in the order in which send_vm wrote it; a
    short read is fatal. *)
Definition restore_emulated_hw : M unit :=
  for_loop (R := Empty_set) 3 0 tt (fun k _ =>
    it <- read_fd;;
    match k, it with
    | _, None => halt_with Fatal
    | 0%nat, Some I_devs | 1%nat, Some I_pci | 2%nat, Some I_virtio =>
        ret (inl tt)
    | _, Some _ => halt_with Desync
    end);;;
  ret tt.

(** ** run_vm (vm.c:874) *)

(** A step that fails returns [code] from the enclosing function. *)
Definition check {S} (s : site) (msg : string) (code : errno -> Z)
  (k : M (S + Z)) : M (S + Z) :=
  match fails E s with
  | Some e => emit (E_log msg);;; ret (inr (code e))
  | None => k
  end.

(** run_vm up to the point where every thread has been created.  The
    result [Some r] is the value returned by an early [return]; [None]
    means that the function has entered its loop on [threadcond], in which
    it waits for the threads it has started. *)
Definition run_vm (vrs : vcpu_reg_state) : M (option Z) :=
  vm <- get_vm;;
  let vcp := vm_vcp vm in
  if decide (vcp_nmemranges vcp = 0%nat
             \/ (VMM_MAX_MEM_RANGES P < vcp_nmemranges vcp)%nat)
  then ret (Some EINVAL_val)
  else
  match fails E s_run_calloc with
  | Some _ => emit (E_log "memory allocation error - exiting.");;;
              ret (Some (errno_val ENOMEM))
  | None =>
  r <- for_loop (R := Z) (vcp_ncpus vcp) 0 tt (fun i _ =>
    check (s_malloc i) "memory allocation error - exiting."
          (fun _ => errno_val ENOMEM) (
    check (s_malloc_exit i) "memory allocation error - exiting."
          (fun _ => errno_val ENOMEM) (
    (* vcpu_reset (vm.c:739) *)
    emit (E_vcpu_reset i vrs);;;
    check (s_vcpu_reset i) "cannot reset VCPU - exiting."
          (fun _ => errno_val EIO) (
    set_regs i (reset_regs E vrs);;;
    check (s_sev_activate i) "SEV activatation failed" (fun _ => errno_val EIO) (
    check (s_sev_encrypt_memory i) "memory encryption failed"
          (fun _ => errno_val EIO) (
    (* once more because reset_cpu changes regs *)
    c <- (if has_flag (VM_STATE_RECEIVED P) vm then
            ok <- ioctl_writeregs (mk_vrwp (vcp_id vcp) i (VM_RWREGS_ALL P) vrs);;
            if ok : bool then ret (inl tt)
            else emit (E_log "run_vm: writeregs failed");;; ret (inr (-1))
          else ret (inl tt));;
    match c with
    | inr e => ret (inr e)
    | inl _ =>
    check (s_vcpu_sync_init i 0) "cannot initialize cond var" errno_val (
    check (s_vcpu_sync_init i 1) "cannot initialize mtx" errno_val (
    check (s_vcpu_sync_init i 2) "cannot initialize unpause var" errno_val (
    check (s_vcpu_sync_init i 3) "cannot initialize unpause mtx" errno_val (
    modify (fun w => w_with_hlt (<[i := false]> (w_hlt w)) w);;;
    (* Start each VCPU run thread at vcpu_run_loop *)
    check (s_pthread_create i) "run_vm: could not create vcpu thread"
          (fun _ => stale_errno E) (
    emit (E_thread_create i);;;
    ret (inl tt))))))
    end))))));;
  match r with
  | inr e => ret (Some e)
  | inl _ =>
      match fails E s_event_thread with
      | Some e => emit (E_log "run_vm: could not create event thread");;;
                  ret (Some (errno_val e))
      | None => ret None
      end
  end
  end.

(** ** start_vm (vm.c:186) *)

Definition start_vm (fuel : nat) : M (option Z) :=
  vm <- get_vm;;
  (if has_flag (VM_STATE_RECEIVED P) vm then ret tt
   else modify (fun w =>
          w_with_vm (vm_with_vcp (memory_map E (vm_vcp (w_vm w))) (w_vm w)) w));;;
  r <- alloc_guest_mem;;
  if decide (r <> 0) then
    (if decide (r = errno_val ENOMEM) then
       match fails E s_getrlimit, fails E s_fmt_scaled with
       | None, None =>
           emit (E_log "could not allocate guest memory (data limit is %s)");;;
           halt_with Fatal
       | _, _ => ret tt
       end
     else ret tt);;;
    emit (E_log "could not allocate guest memory");;;
    ret (Some r)
  else
  (* We've allocated guest memory, so now create the vm in vmm(4). *)
  r <- vmm_create_vm;;
  if decide (r <> 0) then
    (* Let the vmm process know we failed by sending a 0 vm id. *)
    modify (fun w =>
      w_with_vm (vm_with_vcp (vcp_with_id 0 (vm_vcp (w_vm w))) (w_vm w)) w);;;
    emit (E_write_id 0);;;
    ret (Some r)
  else
  match fails E s_sev_init with
  | Some e => emit (E_log "could not initialize SEV");;; ret (Some (errno_val e))
  | None =>
  match fails E s_fcntl with
  | Some _ => emit (E_log "failed to set nonblocking mode on console");;;
              ret (Some 1)
  | None =>
  vcp <- get_vcp;;
  match fails E s_write_id with
  | Some _ => emit (E_log "failed to send created vm id to vmm process");;;
              ret (Some 1)
  | None =>
  emit (E_write_id (vcp_id vcp));;;
  (* Prepare either our boot image or receive an existing vm to launch. *)
  vrs <- (if has_flag (VM_STATE_RECEIVED P) vm then
            r <- read_regs;;
            match r with
            | None => emit (E_log "received incomplete vrp - exiting");;;
                      halt_with Fatal
            | Some vrp => ret (vrwp_regs vrp)
            end
          else
            match fails E s_load_firmware with
            | Some _ =>
                emit (E_log "failed to load kernel or firmware image");;;
                halt_with Fatal
            | None => ret (boot_regs E)
            end);;
  (* Initialize our mutexes. *)
  r <- check (S := unit) (s_sync_init 0)
         "start_vm: could not initialize thread state mutex" errno_val (
       check (s_sync_init 1)
         "start_vm: could not initialize thread state condition variable"
         errno_val (
       check (s_sync_init 2)
         "start_vm: could not initialize vm state mutex" errno_val (
       ret (inl tt))));;
  match r with
  | inr e => ret (Some e)
  | inl _ =>
  mutex_lock threadmutex;;;
  match fails E s_vmm_pipe with
  | Some _ => emit (E_log "setup vm pipe");;; halt_with Fatal
  | None =>
  (* Initialize or restore our emulated hardware. *)
  (if has_flag (VM_STATE_RECEIVED P) vm then
     restore_mem fuel;;;
     restore_emulated_hw;;;
     r <- restore_vm_params;;
     if decide (r <> 0) then
       emit (E_log "restore vm params failed");;; halt_with Fatal
     else unpause_vm
   else ret tt);;;
  match fails E s_pledge with
  | Some _ => emit (E_log "pledge");;; halt_with Fatal
  | None =>
  (* Execute the vcpu run loop(s) for this VM. *)
  run_vm vrs
  end
  end
  end
  end
  end
  end.

(** ** vcpu_run_loop (vm.c:1099) *)

(** How one iteration of the [for (;;)] loop ends. *)
Inductive flow : Type :=
  | Continue
  | Break (r : Z)        (* [break] with [ret = r] *)
  | Return (r : Z).      (* [return ((void * )ret)] inside the loop *)

(** A direct pthread call of the loop, at iteration site [s]: on failure
    the loop is left the way [leave] says. *)
Definition pthread_step (ev : event) (s : site) (msg : string)
  (leave : Z -> flow) (k : M flow) : M flow :=
  emit ev;;;
  match fails E s with
  | Some e => emit (E_log msg);;; ret (leave (errno_val e))
  | None => k
  end.

(** Iteration [k] of the loop of VCPU [n]. *)
Definition vcpu_run_body (n k : nat) : M flow :=
  pthread_step (E_lock (vcpu_run_mtx n)) (s_lock_run_mtx k)
    "vcpu_run_loop: can't lock vcpu run mtx" Return (
  mutex_lock vm_mtx;;;
  let paused := seen_paused E k in
  let halted := seen_halted E k in
  mutex_unlock vm_mtx;;;
  (* If we are halted and need to pause, pause *)
  c <- (if halted && paused then
          pthread_step E_barrier_wait (s_loop_barrier_wait k)
            "vcpu_run_loop: could not wait on pause barrier" Return (
          pthread_step (E_lock (vcpu_unpause_mtx n)) (s_lock_unpause_mtx k)
            "vcpu_run_loop: can't lock vcpu unpause mtx" Return (
          (* Interrupt may be firing, release run mtx. *)
          mutex_unlock (vcpu_run_mtx n);;;
          pthread_step (E_wait (vcpu_unpause_cond n) (vcpu_unpause_mtx n))
            (s_wait_unpause k)
            "vcpu_run_loop: can't wait on unpause cond" Break (
          mutex_lock (vcpu_run_mtx n);;;
          pthread_step (E_unlock (vcpu_unpause_mtx n)) (s_unlock_unpause_mtx k)
            "vcpu_run_loop: can't unlock unpause mtx" Break (
          ret Continue))))
        else ret Continue);;
  match c with
  | Break r => ret (Break r)
  | Return r => ret (Return r)
  | Continue =>
  (* If we are halted and not paused, wait *)
  c <- (if halted then
          emit (E_wait (vcpu_run_cond n) (vcpu_run_mtx n));;;
          match fails E (s_wait_run k) with
          | Some e =>
              emit (E_log "vcpu_run_loop: can't wait on cond");;;
              emit (E_unlock (vcpu_run_mtx n));;;
              ret (Break (errno_val e))
          | None => ret Continue
          end
        else ret Continue);;
  match c with
  | Break r => ret (Break r)
  | Return r => ret (Return r)
  | Continue =>
  pthread_step (E_unlock (vcpu_run_mtx n)) (s_unlock_run_mtx k)
    "vcpu_run_loop: can't unlock mutex on cond" Break (
  let inject :=
    if irqready E k && intr_pending E k then Some (intr_ack E k) else None in
  (* Still more interrupts pending? *)
  emit (E_run n inject (intr_pending' E k));;;
  match fails E (s_run k) with
  | Some e =>
      (* If run ioctl failed, exit *)
      emit (E_log "vcpu_run_loop: run ioctl failed");;;
      ret (Break (errno_val e))
  | None =>
      match run_exit E k with
      | VM_EXIT_TERMINATED => ret (Break 0)
      | VM_EXIT_NONE => ret Continue
      | VM_EXIT_OTHER =>
          emit (E_vcpu_exit n);;;
          if decide (vcpu_exit E k <> 0) then ret (Break (vcpu_exit E k))
          else ret Continue
      end
  end)
  end
  end).

(** The code after the loop. *)
Definition vcpu_run_done (n : nat) (r : Z) : M Z :=
  mutex_lock vm_mtx;;;
  modify (fun w => w_with_done (<[n := true]> (w_done w)) w);;;
  emit (E_set_done n);;;
  mutex_unlock vm_mtx;;;
  mutex_lock threadmutex;;;
  emit (E_signal threadcond);;;
  mutex_unlock threadmutex;;;
  ret r.

Fixpoint vcpu_run_from (fuel : nat) (n k : nat) : M Z :=
  match fuel with
  | O => halt_with Hang
  | S fuel' =>
      c <- vcpu_run_body n k;;
      match c with
      | Continue => vcpu_run_from fuel' n (Datatypes.S k)
      | Break r => vcpu_run_done n r
      | Return r => ret r
      end
  end.

Definition vcpu_run_loop (fuel : nat) (n : nat) : M Z :=
  vcpu_run_from fuel n 0.

End Vmd.

(** * Vocabulary of the statements *)

(** The world after the events [evs] have been recorded. *)
Definition emits (evs : list event) (w : world) : world :=
  w_with_trace (w_trace w ++ evs) w.

(** [I] is an invariant of the computation [m]. *)
Definition keeps {A} (I : world -> Prop) (m : M A) : Prop :=
  forall w, I w -> I (m w).2.

(** The array [vcp_memranges] of the VM. *)
Definition ranges (w : world) : list vm_mem_range :=
  vcp_memranges (vm_vcp (w_vm w)).

(** The region that a range occupies in the host address space. *)
Definition mapping_of (r : vm_mem_range) : Z * Z := (vmr_va r, vmr_size r).

(** What the allocator leaves alone: the flags and counts of the VM, and
    the base, size and type of every range. *)
Definition config_of (vm : vmd_vm) : Z * nat * nat * nat * nat * Z :=
  (vm_state vm, vcp_ncpus (vm_vcp vm), vcp_nmemranges (vm_vcp vm),
   vmc_ndisks (vm_params vm), vmc_nnics (vm_params vm), vcp_id (vm_vcp vm)).

Definition layout_of (r : vm_mem_range) : Z * Z * mem_type :=
  (vmr_gpa r, vmr_size r, vmr_type r).

Definition same_vm (w0 w : world) : Prop :=
  config_of (w_vm w) = config_of (w_vm w0)
  /\ layout_of <$> ranges w = layout_of <$> ranges w0.

(** Unmapping the regions [l], in this order. *)
Definition unmap_all (l : list (Z * Z)) (maps : list (Z * Z)) : list (Z * Z) :=
  foldl (fun m x => unmap x m) maps l.

(** The state of the mappings while the allocation loop runs: the
    regions of the ranges handled so far have been put in front of the
    mappings [maps0] that existed before the call. *)
Definition alloc_inv (E : environ) (w0 : world) (k : nat) (w : world) : Prop :=
  w_maps w = reverse (mapping_of <$> take k (ranges w)) ++ w_maps w0
  /\ same_vm w0 w
  /\ (forall j r, (j < k)%nat -> ranges w !! j = Some r ->
        vmr_va r = Z.pos (mmap_addr E (s_alloc_mmap j))).

(** No VMM_IOC_CREATE request among the events. *)
Definition no_create (tr : list event) : Prop := forall c, E_create c ∉ tr.

(** The event of a VMM_IOC_CREATE request. *)
Definition is_create (e : event) : bool :=
  match e with E_create _ => true | _ => false end.

(** The configurations that vmm_create_vm refuses. *)
Definition invalid_config (P : platform) (vm : vmd_vm) : Prop :=
  (VMM_MAX_VCPUS_PER_VM P < vcp_ncpus (vm_vcp vm))%nat
  \/ vcp_nmemranges (vm_vcp vm) = 0%nat
  \/ (VMM_MAX_MEM_RANGES P < vcp_nmemranges (vm_vcp vm))%nat
  \/ (VM_MAX_DISKS_PER_VM P < vmc_ndisks (vm_params vm))%nat
  \/ (VM_MAX_NICS_PER_VM P < vmc_nnics (vm_params vm))%nat.

(** The world in which start_vm allocates: a VM that is not received
    first gets its memory map. *)
Definition start_world (P : platform) (E : environ) (w : world) : world :=
  if has_flag (VM_STATE_RECEIVED P) (w_vm w) then w
  else w_with_vm (vm_with_vcp (memory_map E (vm_vcp (w_vm w))) (w_vm w)) w.

(** Steps that issue no VMM_IOC_CREATE and leave the configuration alone. *)
Definition quiet (w0 w : world) : Prop :=
  same_vm w0 w /\ (no_create (w_trace w0) -> no_create (w_trace w)).

(** Steps that leave the receive descriptor, guest memory and the
    vmm(4) state alone. *)
Definition frame_io (w0 w : world) : Prop :=
  w_in w = w_in w0 /\ w_gmem w = w_gmem w0 /\ w_kern w = w_kern w0.

(** MMIO ranges below index [k] have no address. *)
Definition mmio_unset (n k : nat) (w : world) : Prop :=
  forall j r, (j < k)%nat -> (j < n)%nat -> ranges w !! j = Some r ->
              vmr_type r = VM_MEM_MMIO -> vmr_va r = 0.

(** The state of the first loop of remap_guest_mem before iteration [k]. *)
Definition remap_inv (w0 : world) (k : nat) (vsp : vm_sharemem_params)
  (w : world) : Prop :=
  same_vm w0 w
  /\ vsp_nmemranges vsp = vcp_nmemranges (vm_vcp (w_vm w0))
  /\ layout_of <$> vsp_memranges vsp = layout_of <$> ranges w0
  /\ mmio_unset (vcp_nmemranges (vm_vcp (w_vm w0))) k w.

(** What one iteration of the first loop gives. *)
Definition remap_result (E : environ) (w0 : world) (from : nat)
  (o : outcome (vm_sharemem_params + Z)) (k : nat) (w : world) : Prop :=
  let n := vcp_nmemranges (vm_vcp (w_vm w0)) in
  same_vm w0 w /\
  match o with
  | Ret (inl vsp) => remap_inv w0 k vsp w
  | Ret (inr _) =>
      exists f r0, (from <= f)%nat /\ mmio_unset n f w
                   /\ ranges w0 !! f = Some r0 /\ vmr_type r0 <> VM_MEM_MMIO
                   /\ fails E (s_remap_mmap f) <> None
  | Fault => exists f, (from <= f)%nat /\ mmio_unset n f w
                       /\ ranges w0 !! f = None
  | _ => False
  end.

(** The world after a store to [vm_state]. *)
Definition with_state (s : Z) (w : world) : world :=
  w_with_vm (vm_with_state s (w_vm w)) w.

(** The page of guest memory [g] at address [a]. *)
Definition page_at (P : platform) (g : Z -> Z) (a : Z) : page :=
  (fun k => g (a + k)) <$> seqZ 0 (PAGE_SIZE P).

(** The pages that [k] iterations of dump_vmr write for a range at
    [gpa], starting at offset [read]. *)
Fixpoint dump_pages (P : platform) (k : nat) (gpa read : Z) (g : Z -> Z)
  : list page :=
  match k with
  | O => []
  | S k' =>
      page_at P g (wrap64 (gpa + read))
      :: dump_pages P k' gpa (wrap64 (read + PAGE_SIZE P)) g
  end.

(** Guest memory after restore_vmr has stored [pages] for a range at
    [gpa], starting at offset [wrote]. *)
Fixpoint restore_pages (P : platform) (pages : list page) (gpa wrote : Z)
  (g : Z -> Z) : Z -> Z :=
  match pages with
  | [] => g
  | p :: pages' =>
      restore_pages P pages' gpa (wrap64 (wrote + PAGE_SIZE P))
        (store_bytes (wrap64 (gpa + wrote)) p g)
  end.

(** The base and size of a range, and its number of pages. *)
Definition span_of (r : vm_mem_range) : Z * Z := (vmr_gpa r, vmr_size r).

Definition span_pages (P : platform) (s : Z * Z) : nat :=
  Z.to_nat (s.2 / PAGE_SIZE P).

(** The pages that dump_mem writes for the ranges [spans] of the guest
    memory [g], and guest memory after restore_mem has stored them. *)
Definition mem_pages (P : platform) (g : Z -> Z) (spans : list (Z * Z))
  : list page :=
  concat ((fun s => dump_pages P (span_pages P s) s.1 0 g) <$> spans).

Definition restore_all (P : platform) (src : Z -> Z) (spans : list (Z * Z))
  (dst : Z -> Z) : Z -> Z :=
  foldl (fun g s => restore_pages P (dump_pages P (span_pages P s) s.1 0 src)
                                  s.1 0 g)
        dst spans.

(** The spans of the ranges that a VM uses. *)
Definition vm_spans (w : world) : list (Z * Z) :=
  span_of <$> take (vcp_nmemranges (vm_vcp (w_vm w))) (ranges w).

(** A range that the page loops handle: a whole number of pages inside
    the 64-bit address space. *)
Definition page_span (P : platform) (s : Z * Z) : Prop :=
  0 <= s.1 /\ 0 <= s.2 /\ s.1 + s.2 <= 2 ^ 64 /\ s.2 < 2 ^ 64
  /\ s.2 mod PAGE_SIZE P = 0.

(** [g] has the contents of [src] at the addresses in [C]. *)
Definition agree_on (C : Z -> Prop) (g src : Z -> Z) : Prop :=
  forall a, C a -> g a = src a.

(** The records that have been written to the send descriptor. *)
Definition sent (tr : list event) : list item :=
  omap (fun e => match e with E_write it => Some it | _ => None end) tr.

(** Modelled from the spec: the receiving VM process reads the stream from
    the register records on.  The dump header and the creation parameters
    in front of them are read by the parent vmd process, whose code is not
    part of the sources, before it passes the descriptor on. *)
Definition restore_input (tr : list event) : list item := drop 2 (sent tr).

(** * Example platform, environments and worlds *)

#[global] Instance mutex_eq_dec : EqDecision mutex.
Proof. solve_decision. Defined.

#[global] Instance site_eq_dec : EqDecision site.
Proof. solve_decision. Defined.

(** The constants of OpenBSD/amd64. *)
Definition amd64 : platform :=
  {| VMM_MAX_VCPUS_PER_VM := 64;
     VMM_MAX_MEM_RANGES := 16;
     VM_MAX_DISKS_PER_VM := 4;
     VM_MAX_NICS_PER_VM := 4;
     PAGE_SHIFT := 12;
     VM_STATE_PAUSED := 8;
     VM_STATE_RECEIVED := 16;
     VM_RWREGS_ALL := 31;
     VM_RWVMPARAMS_ALL := 3;
     VMOP_CREATE_MEMORY := 4 |}.

(** An environment in which the calls at the sites [bad] fail with [e]
    and every other call succeeds; mmap returns a fresh page-aligned
    address for each range. *)
Definition env_failing (bad : list site) (e : errno) : environ :=
  {| fails := fun s => if decide (s ∈ bad) then Some e else None;
     mmap_addr := fun s =>
       match s with
       | s_alloc_mmap i | s_remap_mmap i => (Pos.of_succ_nat i * 1048576)%positive
       | _ => 4096%positive
       end;
     created_id := 7;
     memory_map := fun c => c;
     boot_regs := [];
     reset_regs := fun r => r;
     seen_paused := fun _ => false;
     seen_halted := fun _ => false;
     irqready := fun _ => false;
     intr_pending := fun _ => false;
     intr_pending' := fun _ => false;
     intr_ack := fun _ => 0;
     run_exit := fun _ => VM_EXIT_TERMINATED;
     vcpu_exit := fun _ => 0;
     stale_errno := 0 |}.

(** Every call succeeds. *)
Definition env_ok : environ := env_failing [] EIO.

(** A VM with the given state flags, VCPU count and ranges; a world
    around it with no mapping and an empty trace. *)
Definition ex_vm (state : Z) (ncpus : nat) (rs : list vm_mem_range) : vmd_vm :=
  mk_vm (mk_vmc (mk_vcp (length rs) ncpus rs 3) 1 1 0) state.

Definition ex_world (vm : vmd_vm) (k : kernel) (g : Z -> Z) (input : list item)
  : world :=
  mk_world vm [] k g input ∅ ∅ [].

(** vmm(4) state without any VCPU state. *)
Definition no_kernel : kernel := mk_kernel ∅ ∅.

(** Three RAM ranges of one page each. *)
Definition three_ranges : list vm_mem_range :=
  [mk_vmr 0 0 4096 VM_MEM_RAM; mk_vmr 4096 0 4096 VM_MEM_RAM;
   mk_vmr 8192 0 4096 VM_MEM_RAM].

(** A RAM range followed by an MMIO range. *)
Definition ram_and_mmio : list vm_mem_range :=
  [mk_vmr 0 0 4096 VM_MEM_RAM; mk_vmr 4096 0 4096 VM_MEM_MMIO].

(** Received VMs with these ranges. *)
Definition w_three : world :=
  ex_world (ex_vm 16 1 three_ranges) no_kernel (fun _ => 0) [].

Definition w_mmio : world :=
  ex_world (ex_vm 16 1 ram_and_mmio) no_kernel (fun _ => 0) [].

(** A received VM with 65 VCPUs, one more than the platform allows. *)
Definition w_too_many_cpus : world :=
  ex_world (ex_vm 16 65 [mk_vmr 0 0 4096 VM_MEM_RAM]) no_kernel (fun _ => 0) [].

(** A running VM with two VCPUs whose registers and VM parameters differ,
    and one page of guest memory. *)
Definition two_vcpu_kernel : kernel :=
  mk_kernel {[ 0%nat := [11; 12]; 1%nat := [21; 22] ]}
            {[ 0%nat := [100]; 1%nat := [200] ]}.

Definition w_sender2 : world :=
  ex_world (ex_vm 0 2 [mk_vmr 0 0 4096 VM_MEM_RAM]) two_vcpu_kernel
           (fun a => a mod 251) [].

(** The VM process that receives it: same VCPU count and memory layout. *)
Definition w_receiver2 (input : list item) : world :=
  ex_world (ex_vm 24 2 [mk_vmr 0 0 4096 VM_MEM_RAM]) no_kernel (fun _ => 0)
           input.

(** A running VM with one VCPU and two pages of guest memory in two
    ranges, and the VM process that receives it. *)
Definition two_pages : list vm_mem_range :=
  [mk_vmr 0 0 4096 VM_MEM_RAM; mk_vmr 1048576 0 4096 VM_MEM_RAM].

Definition w_sender1 : world :=
  ex_world (ex_vm 0 1 two_pages) two_vcpu_kernel (fun a => a mod 251) [].

Definition w_receiver1 : world :=
  ex_world (ex_vm 24 1 two_pages) no_kernel (fun _ => 0) [].

(** A paused VM with two VCPUs. *)
Definition w_paused : world :=
  ex_world (ex_vm 8 2 [mk_vmr 0 0 4096 VM_MEM_RAM]) two_vcpu_kernel
           (fun _ => 0) [].

(** * Vocabulary of the further statements *)



(** The VM-parameter and register requests that have been written to
    vmm(4), the VCPUs that have been reset and the VCPU threads that have
    been created, each in the order of the trace. *)
Definition vmparams_written (tr : list event) : list vm_rwvmparams_params :=
  omap (fun e => match e with E_writevmparams p => Some p | _ => None end) tr.

Definition regs_written (tr : list event) : list vm_rwregs_params :=
  omap (fun e => match e with E_writeregs p => Some p | _ => None end) tr.

Definition vcpus_reset (tr : list event) : list (nat * vcpu_reg_state) :=
  omap (fun e => match e with E_vcpu_reset i r => Some (i, r) | _ => None end) tr.

Definition threads_created (tr : list event) : list nat :=
  omap (fun e => match e with E_thread_create i => Some i | _ => None end) tr.

(** The events of mmap and munmap. *)
Definition is_mem_event (e : event) : bool :=
  match e with
  | E_mmap _ _ | E_mmap_failed _ _ | E_munmap _ _ => true
  | _ => false
  end.

(** The VMM_IOC_RUN requests of the trace, by VCPU. *)
Definition vcpu_runs (tr : list event) : list nat :=
  omap (fun e => match e with E_run n _ _ => Some n | _ => None end) tr.

(** An environment in which every call succeeds and vmm(4) reports
    VM_EXIT_TERMINATED in iteration [k] of a VCPU thread, and no exit
    before. *)
Definition env_terminated_at (k : nat) : environ :=
  {| fails := fails env_ok;
     mmap_addr := mmap_addr env_ok;
     created_id := created_id env_ok;
     memory_map := memory_map env_ok;
     boot_regs := boot_regs env_ok;
     reset_regs := reset_regs env_ok;
     seen_paused := seen_paused env_ok;
     seen_halted := seen_halted env_ok;
     irqready := irqready env_ok;
     intr_pending := intr_pending env_ok;
     intr_pending' := intr_pending' env_ok;
     intr_ack := intr_ack env_ok;
     run_exit := fun j => if decide (j = k) then VM_EXIT_TERMINATED
                          else VM_EXIT_NONE;
     vcpu_exit := vcpu_exit env_ok;
     stale_errno := stale_errno env_ok |}.

(** A received VM whose count of ranges, 3, is larger than the array of
    two ranges that it has. *)
Definition w_count_beyond_array : world :=
  ex_world (mk_vm (mk_vmc (mk_vcp 3 1 ram_and_mmio 3) 1 1 0) 16) no_kernel
           (fun _ => 0) [].



(** * Properties *)

(** ** Reasoning about the monad *)

Lemma emits_nil w : emits [] w = w.
Proof. destruct w. unfold emits, w_with_trace. cbn. by rewrite (right_id_L [] (++)). Qed.

Lemma emits_emits a b w : emits b (emits a w) = emits (a ++ b) w.
Proof. unfold emits, w_with_trace. cbn. by rewrite (assoc_L (++)). Qed.

Lemma with_vm_emits vm evs w :
  w_with_vm vm (emits evs w) = emits evs (w_with_vm vm w).
Proof. reflexivity. Qed.

Lemma trace_emits evs w : w_trace (emits evs w) = w_trace w ++ evs.
Proof. reflexivity. Qed.

Lemma with_done_emits d evs w :
  w_with_done d (emits evs w) = emits evs (w_with_done d w).
Proof. reflexivity. Qed.

Lemma emit_eq e w : emit e w = (Ret tt, emits [e] w).
Proof. reflexivity. Qed.

Lemma bind_eq {A B} (m : M A) (f : A -> M B) w a w' :
  m w = (Ret a, w') -> bind m f w = f a w'.
Proof. unfold bind. by intros ->. Qed.

Lemma bind_emit {B} e (k : M B) w : (emit e;;; k) w = k (emits [e] w).
Proof. reflexivity. Qed.

Lemma bind_assoc {A B C} (m : M A) (f : A -> M B) (g : B -> M C) w :
  bind (bind m f) g w = bind m (fun a => bind (f a) g) w.
Proof. unfold bind. by destruct (m w) as [[a| | | | |] w1]. Qed.

Lemma bind_ext {A B} (m : M A) (f g : A -> M B) w :
  (forall a w', f a w' = g a w') -> bind m f w = bind m g w.
Proof. intros H. unfold bind. destruct (m w) as [[a| | | | |] w1]; auto. Qed.

Lemma bind_get_vm {B} (k : vmd_vm -> M B) w : bind get_vm k w = k (w_vm w) w.
Proof. reflexivity. Qed.

Lemma bind_get_vcp {B} (k : vm_create_params -> M B) w :
  bind get_vcp k w = k (vm_vcp (w_vm w)) w.
Proof. reflexivity. Qed.

Lemma bind_modify {B} f (k : M B) w : (modify f;;; k) w = k (f w).
Proof. reflexivity. Qed.

Lemma bind_ret {A B} (a : A) (k : A -> M B) w : bind (ret a) k w = k a w.
Proof. reflexivity. Qed.

Lemma bind_memrange {B} i r (k : vm_mem_range -> M B) w :
  ranges w !! i = Some r -> bind (memrange i) k w = k r w.
Proof. intros H. unfold bind, memrange. fold (ranges w). by rewrite H. Qed.

(** Running the leading steps of a computation. *)
Ltac mstep :=
  repeat (first [ rewrite bind_assoc | rewrite bind_emit | rewrite bind_ret
                | rewrite bind_modify | rewrite bind_get_vm
                | rewrite bind_get_vcp ]; cbn beta).

(** [for_loop] over [a + b] iterations runs [a] of them, then [b]. *)
Lemma for_loop_add {S R} (body : nat -> S -> M (S + R)) a b from s w :
  for_loop (a + b) from s body w =
  (r <- for_loop a from s body;;
   match r with
   | inl s' => for_loop b (from + a) s' body
   | inr x => ret (inr x)
   end) w.
Proof.
  revert from s w. induction a as [|a IH]; intros from s w.
  - cbn. by rewrite Nat.add_0_r.
  - cbn [for_loop Nat.add]. rewrite bind_assoc. apply bind_ext.
    intros [s'|x] w'; [|done].
    rewrite IH. by replace (from + Datatypes.S a)%nat with (Datatypes.S from + a)%nat by lia.
Qed.

(** An invariant that every iteration keeps is kept by the loop. *)
Lemma keeps_ret {A} I (a : A) : keeps I (ret a).
Proof. by intros w. Qed.

Lemma keeps_halt {A} I (o : outcome A) : keeps I (halt_with o).
Proof. by intros w. Qed.

Lemma keeps_bind {A B} I (m : M A) (f : A -> M B) :
  keeps I m -> (forall a, keeps I (f a)) -> keeps I (bind m f).
Proof.
  intros Hm Hf w Hw. unfold bind. specialize (Hm w Hw).
  destruct (m w) as [[a| | | | |] w1]; cbn in *; try done. by apply Hf.
Qed.

Lemma keeps_for_loop {S R} I (body : nat -> S -> M (S + R)) :
  (forall i s, keeps I (body i s)) ->
  forall count from s, keeps I (for_loop count from s body).
Proof.
  intros Hb count. induction count as [|c IH]; intros from s; cbn.
  - apply keeps_ret.
  - apply keeps_bind; [apply Hb|]. intros [s'|x]; [apply IH|apply keeps_ret].
Qed.

Lemma keeps_modify I (f : world -> world) :
  (forall w, I w -> I (f w)) -> keeps I (modify f).
Proof. intros H w Hw. by apply H. Qed.

(** ** Guest memory allocation *)

Lemma same_vm_refl w : same_vm w w.
Proof. done. Qed.

Lemma same_vm_length w0 w : same_vm w0 w -> length (ranges w) = length (ranges w0).
Proof. intros [_ H]. apply (f_equal length) in H. by rewrite !length_fmap in H. Qed.

Lemma same_vm_set_va w0 w i va r :
  same_vm w0 w -> ranges w !! i = Some r ->
  same_vm w0 (w_with_vm (vm_with_vcp
     (vcp_with_memranges (<[i := vmr_with_va va r]> (ranges w)) (vm_vcp (w_vm w)))
     (w_vm w)) w).
Proof.
  intros [Hc Hl] Hr. split; [done|].
  unfold ranges at 1. cbn. rewrite list_fmap_insert. rewrite <- Hl.
  apply list_insert_id. rewrite list_lookup_fmap, Hr. done.
Qed.

Lemma unmap_app x l1 l2 : x ∈ l1 -> unmap x (l1 ++ l2) = unmap x l1 ++ l2.
Proof.
  induction l1 as [|y l1 IH]; intros Hin; [by apply elem_of_nil in Hin|].
  cbn. case_decide; [done|]. cbn. f_equal. apply IH.
  apply elem_of_cons in Hin as [->|]; done.
Qed.

Lemma unmap_perm x l : x ∈ l -> l ≡ₚ x :: unmap x l.
Proof.
  induction l as [|y l IH]; intros Hin; [by apply elem_of_nil in Hin|].
  cbn. case_decide as Hd; [by subst|].
  apply elem_of_cons in Hin as [->|Hin]; [done|].
  rewrite (IH Hin) at 1. apply Permutation_swap.
Qed.

(** Unmapping, in any order, exactly the regions that were added in
    front of [old] gives [old] back. *)
Lemma unmap_all_perm l : forall pre old,
  pre ≡ₚ l -> unmap_all l (pre ++ old) = old.
Proof.
  induction l as [|x l IH]; intros pre old Hp.
  - apply Permutation_nil_r in Hp. by subst.
  - cbn. assert (Hin : x ∈ pre) by (rewrite Hp; apply elem_of_cons; by left).
    rewrite unmap_app by done. apply IH.
    apply (Permutation_cons_inv (a := x)). by rewrite <- unmap_perm.
Qed.

Lemma unmap_all_reverse l old : unmap_all l (reverse l ++ old) = old.
Proof. apply unmap_all_perm. apply reverse_Permutation. Qed.

Lemma unmap_all_snoc l x maps :
  unmap_all (l ++ [x]) maps = unmap x (unmap_all l maps).
Proof. unfold unmap_all. by rewrite foldl_app. Qed.

Section Alloc.

Variable E : environ.

(** The undo loop unmaps the regions recorded in the first [c] ranges. *)
Lemma unmap_ranges_eq c : forall w,
  (c <= length (ranges w))%nat ->
  exists w',
    unmap_ranges c w = (Ret (inl tt), w')
    /\ w_maps w' = unmap_all (mapping_of <$> take c (ranges w)) (w_maps w)
    /\ w_vm w' = w_vm w.
Proof.
  unfold unmap_ranges.
  induction c as [|c IH]; intros w Hlen.
  - exists w. by cbn.
  - replace (Datatypes.S c) with (c + 1)%nat by lia.
    rewrite for_loop_add.
    destruct (IH w) as (w1 & H1 & Hm1 & Hv1); [lia|].
    rewrite (bind_eq _ _ _ _ _ H1). cbn [for_loop Nat.add].
    destruct (lookup_lt_is_Some_2 (ranges w) c) as [r Hr]; [lia|].
    unfold unmap_body, memrange, bind. fold (ranges w1).
    assert (Hrw : ranges w1 = ranges w) by (unfold ranges; by rewrite Hv1).
    rewrite Hrw, Hr. cbn. eexists. split; [reflexivity|]. cbn.
    split; [|done].
    rewrite Hm1. replace (c + 1)%nat with (Datatypes.S c) by lia.
    rewrite (take_S_r _ _ _ Hr), fmap_app.
    change (mapping_of <$> [r]) with [mapping_of r]. by rewrite unmap_all_snoc.
Qed.

Lemma alloc_body_ok w0 i w :
  alloc_inv E w0 i w -> (i < length (ranges w0))%nat ->
  fails E (s_alloc_mmap i) = None ->
  exists w', alloc_body E i tt w = (Ret (inl tt), w')
             /\ alloc_inv E w0 (Datatypes.S i) w'.
Proof.
  intros (Hm & Hs & Hva) Hi Hok. pose proof (same_vm_length _ _ Hs) as Hl.
  destruct (lookup_lt_is_Some_2 (ranges w) i) as [r Hr]; [lia|].
  unfold alloc_body, memrange, mmap, set_memrange_va, bind.
  fold (ranges w). rewrite Hr, Hok. cbn. fold (ranges w). rewrite Hr.
  eexists. split; [reflexivity|].
  split; [|split; [by apply (same_vm_set_va w0 w)|]].
  2:{ unfold ranges at 1. cbn. fold (ranges w). intros j r' Hj Hr'.
      destruct (decide (j = i)) as [->|Hne].
      - rewrite list_lookup_insert_eq in Hr' by lia. by inversion Hr'.
      - rewrite list_lookup_insert_ne in Hr' by done. apply Hva; [lia|done]. }
  unfold ranges at 1. cbn -[reverse]. fold (ranges w).
  rewrite (take_S_r _ i (vmr_with_va (Z.pos (mmap_addr E (s_alloc_mmap i))) r)).
  2:{ apply list_lookup_insert_eq. lia. }
  rewrite take_insert_ge by lia.
  rewrite fmap_app, reverse_app. cbn -[reverse]. by rewrite Hm.
Qed.

Lemma alloc_loop_ok w0 c : forall from w,
  alloc_inv E w0 from w -> (from + c <= length (ranges w0))%nat ->
  (forall j, (from <= j < from + c)%nat -> fails E (s_alloc_mmap j) = None) ->
  exists w', for_loop c from tt (alloc_body E) w = (Ret (inl tt), w')
             /\ alloc_inv E w0 (from + c) w'.
Proof.
  induction c as [|c IH]; intros from w Hinv Hlen Hok.
  - exists w. cbn. by rewrite Nat.add_0_r.
  - cbn [for_loop].
    destruct (alloc_body_ok w0 from w) as (w1 & H1 & Hinv1);
      [done|lia|apply Hok; lia|].
    rewrite (bind_eq _ _ _ _ _ H1).
    destruct (IH (Datatypes.S from) w1) as (w2 & H2 & Hinv2);
      [done|lia|intros; apply Hok; lia|].
    exists w2. split; [done|].
    by replace (from + Datatypes.S c)%nat with (Datatypes.S from + c)%nat by lia.
Qed.

Lemma alloc_body_fail w0 i w e :
  alloc_inv E w0 i w -> (i < length (ranges w0))%nat ->
  fails E (s_alloc_mmap i) = Some e ->
  exists w', alloc_body E i tt w = (Ret (inr (errno_val e)), w')
             /\ w_maps w' = w_maps w0 /\ same_vm w0 w'.
Proof.
  intros (Hm & Hs & _) Hi Hfail. pose proof (same_vm_length _ _ Hs) as Hl.
  destruct (lookup_lt_is_Some_2 (ranges w) i) as [r Hr]; [lia|].
  unfold alloc_body, memrange, mmap, bind.
  fold (ranges w). rewrite Hr, Hfail. cbn.
  set (w1 := w_with_trace _ w).
  destruct (unmap_ranges_eq i w1) as (w2 & H2 & Hm2 & Hv2).
  { unfold w1, ranges. cbn. fold (ranges w). lia. }
  rewrite H2. eexists. split; [reflexivity|].
  split; [|unfold same_vm, ranges in *; by rewrite Hv2].
  rewrite Hm2. unfold w1, ranges. cbn. fold (ranges w).
  rewrite Hm. apply unmap_all_reverse.
Qed.

(** The allocator when the mapping of range [i] is the first to fail. *)
Lemma alloc_guest_mem_fail w i e :
  (i < vcp_nmemranges (vm_vcp (w_vm w)))%nat ->
  (i < length (ranges w))%nat ->
  (forall j, (j < i)%nat -> fails E (s_alloc_mmap j) = None) ->
  fails E (s_alloc_mmap i) = Some e ->
  exists w', alloc_guest_mem E w = (Ret (errno_val e), w')
             /\ w_maps w' = w_maps w /\ same_vm w w'.
Proof.
  intros Hi Hlen Hok Hfail.
  unfold alloc_guest_mem. rewrite (bind_eq get_vcp _ w (vm_vcp (w_vm w)) w eq_refl).
  set (n := vcp_nmemranges (vm_vcp (w_vm w))) in *.
  replace n with (i + (1 + (n - i - 1)))%nat by lia.
  assert (Hinv0 : alloc_inv E w 0 w).
  { split; [done|]. split; [apply same_vm_refl|]. intros; lia. }
  destruct (alloc_loop_ok w i 0 w)
    as (w1 & H1 & Hinv1); [done|lia|intros; apply Hok; lia|].
  cbn [Nat.add] in Hinv1.
  destruct (alloc_body_fail w i w1 e Hinv1 Hlen Hfail) as (w2 & H2 & Hm2 & Hv2).
  assert (Hl : for_loop (i + (1 + (n - i - 1))) 0 tt (alloc_body E) w
               = (Ret (inr (errno_val e)), w2)).
  { rewrite for_loop_add. rewrite (bind_eq _ _ _ _ _ H1).
    cbn [Nat.add for_loop]. unfold bind at 1. by rewrite H2. }
  rewrite (bind_eq _ _ _ _ _ Hl). by exists w2.
Qed.

(** The allocator when no mapping fails: every range, of whatever
    type, holds the address that mmap returned for it. *)
Lemma alloc_guest_mem_ok w :
  (vcp_nmemranges (vm_vcp (w_vm w)) <= length (ranges w))%nat ->
  (forall j, (j < vcp_nmemranges (vm_vcp (w_vm w)))%nat ->
             fails E (s_alloc_mmap j) = None) ->
  exists w', alloc_guest_mem E w = (Ret 0, w')
             /\ alloc_inv E w (vcp_nmemranges (vm_vcp (w_vm w))) w'.
Proof.
  intros Hlen Hok.
  unfold alloc_guest_mem. rewrite (bind_eq get_vcp _ w (vm_vcp (w_vm w)) w eq_refl).
  assert (Hinv0 : alloc_inv E w 0 w).
  { split; [done|]. split; [apply same_vm_refl|]. intros; lia. }
  destruct (alloc_loop_ok w (vcp_nmemranges (vm_vcp (w_vm w))) 0 w)
    as (w1 & H1 & Hinv1); [done|lia|intros; apply Hok; lia|].
  rewrite (bind_eq _ _ _ _ _ H1). by exists w1.
Qed.

End Alloc.

(** ** VM start-up *)

Section Start.

Variable P : platform.
Variable E : environ.

(** An invariant that is kept by stores to the list of mappings, by
    events other than VMM_IOC_CREATE and by stores to the address of a
    range is kept by the allocator, whatever happens in it. *)
Section AllocKeeps.

Variable I : world -> Prop.
Hypothesis I_maps : forall w m, I w -> I (w_with_maps m w).
Hypothesis I_emit : forall w e, is_create e = false -> I w -> I (emits [e] w).
Hypothesis I_va : forall w i va r,
  I w -> ranges w !! i = Some r ->
  I (w_with_vm (vm_with_vcp
       (vcp_with_memranges (<[i := vmr_with_va va r]> (ranges w)) (vm_vcp (w_vm w)))
       (w_vm w)) w).

Lemma keeps_emit e : is_create e = false -> keeps I (emit e).
Proof. intros He w Hw. by apply I_emit. Qed.

Lemma keeps_memrange i : keeps I (memrange i).
Proof. intros w H. unfold memrange. by destruct (_ !! i). Qed.

Lemma keeps_set_va i va : keeps I (set_memrange_va i va).
Proof.
  intros w Hw. unfold set_memrange_va. fold (ranges w).
  destruct (ranges w !! i) as [r|] eqn:Hr; [|done]. by apply I_va.
Qed.

Lemma keeps_mmap s size : keeps I (mmap E s size).
Proof.
  unfold mmap. destruct (fails E s).
  - apply keeps_bind; [by apply keeps_emit|intros; apply keeps_ret].
  - apply keeps_bind; [by intros w Hw; apply I_maps|intros].
    apply keeps_bind; [by apply keeps_emit|intros; apply keeps_ret].
Qed.

Lemma keeps_munmap va size : keeps I (munmap va size).
Proof.
  unfold munmap. apply keeps_bind; [by intros w Hw; apply I_maps|intros].
  by apply keeps_emit.
Qed.

Lemma keeps_unmap_ranges i : keeps I (unmap_ranges i).
Proof.
  apply keeps_for_loop. intros j s. unfold unmap_body.
  apply keeps_bind; [apply keeps_memrange|intros].
  apply keeps_bind; [apply keeps_munmap|intros; apply keeps_ret].
Qed.

Lemma keeps_alloc_guest_mem : keeps I (alloc_guest_mem E).
Proof.
  unfold alloc_guest_mem.
  apply keeps_bind; [by intros w|intros vcp].
  apply keeps_bind.
  - apply keeps_for_loop. intros i s. unfold alloc_body.
    apply keeps_bind; [apply keeps_memrange|intros vmr].
    apply keeps_bind; [apply keeps_mmap|intros [e|va]].
    + apply keeps_bind; [apply keeps_unmap_ranges|intros; apply keeps_ret].
    + apply keeps_bind; [apply keeps_set_va|intros; apply keeps_ret].
  - intros [?|?]; apply keeps_ret.
Qed.

End AllocKeeps.

Lemma quiet_refl w : quiet w w.
Proof. split; [apply same_vm_refl|done]. Qed.

(** Whatever happens in it, the allocator issues no VMM_IOC_CREATE and
    changes nothing of the VM but the addresses of its ranges. *)
Lemma quiet_alloc_guest_mem w0 : keeps (quiet w0) (alloc_guest_mem E).
Proof.
  apply keeps_alloc_guest_mem.
  - by intros w m [Hs Hn].
  - intros w e He [Hs Hn]. split; [done|]. intros H0 c. cbn.
    rewrite elem_of_app, list_elem_of_singleton.
    intros [Hin|Heq]; [by apply (Hn H0 c)|]. by subst e.
  - intros w i va r [Hs Hn] Hr. split; [by apply same_vm_set_va|done].
Qed.

(** It does not touch the receive descriptor, guest memory or vmm(4). *)
Lemma frame_alloc_guest_mem w0 : keeps (frame_io w0) (alloc_guest_mem E).
Proof. apply keeps_alloc_guest_mem; by intros. Qed.

(** vmm_create_vm on a configuration it refuses. *)
Lemma vmm_create_vm_invalid w :
  invalid_config P (w_vm w) -> vmm_create_vm P E w = (Ret EINVAL_val, w).
Proof.
  intros H. unfold vmm_create_vm, get_vm, bind.
  repeat (case_decide; [done|]).
  unfold invalid_config in H. exfalso. tauto.
Qed.

Lemma invalid_config_same_vm w0 w :
  same_vm w0 w -> invalid_config P (w_vm w0) -> invalid_config P (w_vm w).
Proof.
  intros [Hc _]. unfold config_of in Hc. unfold invalid_config.
  inversion Hc as [[H1 H2 H3 H4 H5 H6]]. by rewrite H2, H3, H4, H5.
Qed.

(** start_vm up to the allocation of guest memory. *)
Lemma start_vm_pre fuel w :
  exists k, start_vm P E fuel w = bind (alloc_guest_mem E) k (start_world P E w)
    /\ (forall r w1, r <> 0 ->
          k r w1 =
          if decide (r = errno_val ENOMEM /\ fails E s_getrlimit = None
                     /\ fails E s_fmt_scaled = None)
          then (Fatal,
                emits [E_log "could not allocate guest memory (data limit is %s)"] w1)
          else (Ret (Some r), emits [E_log "could not allocate guest memory"] w1))
    /\ (forall w1, invalid_config P (w_vm w1) ->
          k 0 w1 =
          (Ret (Some EINVAL_val),
           emits [E_write_id 0]
             (w_with_vm (vm_with_vcp (vcp_with_id 0 (vm_vcp (w_vm w1))) (w_vm w1))
                        w1))).
Proof.
  eexists. split.
  - unfold start_vm. rewrite (bind_eq get_vm _ w (w_vm w) w eq_refl).
    assert (Hpre : forall A (k : unit -> M A),
      bind (if has_flag (VM_STATE_RECEIVED P) (w_vm w) then ret tt
            else modify (fun w => w_with_vm
                   (vm_with_vcp (memory_map E (vm_vcp (w_vm w))) (w_vm w)) w)) k w
      = k tt (start_world P E w)).
    { intros A k. unfold start_world. by destruct (has_flag _ _). }
    rewrite Hpre. reflexivity.
  - split.
    + intros r w1 Hr. cbn beta. case_decide; [|done].
      destruct (decide (r = errno_val ENOMEM)) as [Hr'|Hr'];
        [destruct (fails E s_getrlimit) eqn:Hg;
         [|destruct (fails E s_fmt_scaled) eqn:Hf]|].
      all: try (rewrite decide_False by (intros (? & ? & ?); congruence);
                reflexivity).
      rewrite decide_True by done. reflexivity.
    + intros w1 Hinv. cbn beta. case_decide; [done|].
      rewrite (bind_eq _ _ _ _ _ (vmm_create_vm_invalid w1 Hinv)).
      case_decide; [|done]. reflexivity.
Qed.

End Start.

(** ** Allocation failure and start-up checks *)

Lemma errno_val_nonzero e : errno_val e <> 0.
Proof. by destruct e. Qed.

Lemma start_world_trace P E w : w_trace (start_world P E w) = w_trace w.
Proof. unfold start_world. by destruct (has_flag _ _). Qed.

Lemma start_world_maps P E w : w_maps (start_world P E w) = w_maps w.
Proof. unfold start_world. by destruct (has_flag _ _). Qed.

Lemma no_create_emits_log tr msg : no_create tr -> no_create (tr ++ [E_log msg]).
Proof.
  intros H c. rewrite elem_of_app, list_elem_of_singleton.
  intros [Hin|Heq]; [by apply (H c)|done].
Qed.

(** C3.  When the mapping of some range fails, alloc_guest_mem unmaps
    every region it mapped earlier in the call and returns the errno of the
    failed mmap, which is not zero: the live mappings are those from before
    the call.  start_vm then reports the data limit (and exits through
    fatalx) when the error is ENOMEM and the limit can be read and
    formatted, and returns the error otherwise; in both cases no mapping is
    left and no VM has been created. *)
Theorem alloc_guest_mem_failure_leaves_no_mapping P E fuel w i e :
  (i < vcp_nmemranges (vm_vcp (w_vm (start_world P E w))))%nat ->
  (i < length (ranges (start_world P E w)))%nat ->
  (forall j, (j < i)%nat -> fails E (s_alloc_mmap j) = None) ->
  fails E (s_alloc_mmap i) = Some e ->
  (exists w1,
      alloc_guest_mem E (start_world P E w) = (Ret (errno_val e), w1)
      /\ errno_val e <> 0
      /\ w_maps w1 = w_maps (start_world P E w))
  /\ (exists w',
      start_vm P E fuel w =
        (if decide (errno_val e = errno_val ENOMEM
                    /\ fails E s_getrlimit = None
                    /\ fails E s_fmt_scaled = None)
         then Fatal else Ret (Some (errno_val e)), w')
      /\ w_maps w' = w_maps w
      /\ (no_create (w_trace w) -> no_create (w_trace w'))).
Proof.
  intros Hi Hlen Hok Hfail.
  destruct (alloc_guest_mem_fail E _ i e Hi Hlen Hok Hfail) as (w1 & Ha & Hm & Hs).
  split.
  - exists w1. split; [done|]. split; [apply errno_val_nonzero|done].
  - destruct (start_vm_pre P E fuel w) as (k & Hk & Hfailk & _).
    rewrite Hk, (bind_eq _ _ _ _ _ Ha).
    rewrite (Hfailk _ w1 (errno_val_nonzero e)).
    pose proof (quiet_alloc_guest_mem E (start_world P E w) _
                  (quiet_refl (start_world P E w))) as [_ Hq].
    rewrite Ha in Hq. cbn in Hq. rewrite start_world_trace in Hq.
    case_decide; eexists; (split; [reflexivity|]); cbn;
      (split; [by rewrite Hm, start_world_maps|]);
      intros H0; apply no_create_emits_log; auto.
Qed.

(** C7, as the code has it.  A configuration that vmm_create_vm refuses
    never reaches VMM_IOC_CREATE and start_vm does not start the VM; once
    guest memory has been allocated the result is EINVAL.  The check is
    made by vmm_create_vm, which start_vm calls after alloc_guest_mem, so
    guest memory has been mapped by then. *)
Theorem start_vm_invalid_config_creates_no_vm P E fuel w :
  invalid_config P (w_vm (start_world P E w)) ->
  no_create (w_trace w) ->
  no_create (w_trace (start_vm P E fuel w).2)
  /\ (start_vm P E fuel w).1 <> Ret None
  /\ (start_vm P E fuel w).1 <> Ret (Some 0)
  /\ (forall w1, alloc_guest_mem E (start_world P E w) = (Ret 0, w1) ->
        (start_vm P E fuel w).1 = Ret (Some EINVAL_val)).
Proof.
  intros Hinv H0.
  destruct (start_vm_pre P E fuel w) as (k & Hk & Hfailk & Hinvk).
  rewrite Hk.
  pose proof (quiet_alloc_guest_mem E (start_world P E w) _
                (quiet_refl (start_world P E w))) as [Hs Hq].
  rewrite start_world_trace in Hq. specialize (Hq H0).
  unfold bind.
  destruct (alloc_guest_mem E (start_world P E w)) as [[r| | | | |] w1] eqn:Ha;
    cbn in Hs, Hq; try (by repeat split).
  destruct (decide (r = 0)) as [->|Hr].
  - rewrite Hinvk by (by apply (invalid_config_same_vm P (start_world P E w))).
    cbn. repeat split; try done.
    intros c. rewrite elem_of_app, list_elem_of_singleton.
    intros [Hin|Heq]; [by apply (Hq c)|done].
  - rewrite (Hfailk r w1 Hr).
    case_decide; cbn; (split; [by apply no_create_emits_log|]);
      repeat split; try done; try congruence.
    all: intros w2 Heq; congruence.
Qed.

(** ** remap_guest_mem *)

Section Remap.

Variable P : platform.
Variable E : environ.

Lemma same_vm_lookup w0 w j r :
  same_vm w0 w -> ranges w !! j = Some r ->
  exists r0, ranges w0 !! j = Some r0 /\ layout_of r0 = layout_of r.
Proof.
  intros [_ Hl] Hr.
  assert (H : (layout_of <$> ranges w0) !! j = Some (layout_of r))
    by (by rewrite <- Hl, list_lookup_fmap, Hr).
  rewrite list_lookup_fmap in H.
  destruct (ranges w0 !! j) as [r0|]; [|done]. exists r0. split; [done|].
  cbn in H. congruence.
Qed.

Lemma vsp_set_va_layout i va vsp :
  layout_of <$> vsp_memranges (vsp_set_va i va vsp)
  = layout_of <$> vsp_memranges vsp.
Proof.
  unfold vsp_set_va. destruct (vsp_memranges vsp !! i) as [r|] eqn:Hr; [|done].
  cbn. rewrite list_fmap_insert. apply list_insert_id.
  by rewrite list_lookup_fmap, Hr.
Qed.

Lemma vsp_set_va_n i va vsp :
  vsp_nmemranges (vsp_set_va i va vsp) = vsp_nmemranges vsp.
Proof. unfold vsp_set_va. by destruct (_ !! i). Qed.

Lemma mmio_unset_mono n k k' w : (k' <= k)%nat -> mmio_unset n k w -> mmio_unset n k' w.
Proof. intros Hk H j r Hj. apply H. lia. Qed.

(** Setting the address of range [i] keeps the MMIO ranges below [i]
    unset, and range [i] too when the address is 0 or the range is not
    MMIO. *)
Lemma mmio_unset_set_va n i va r w :
  mmio_unset n i w -> ranges w !! i = Some r ->
  (va = 0 \/ vmr_type r <> VM_MEM_MMIO) ->
  mmio_unset n (Datatypes.S i)
    (w_with_vm (vm_with_vcp
       (vcp_with_memranges (<[i := vmr_with_va va r]> (ranges w)) (vm_vcp (w_vm w)))
       (w_vm w)) w).
Proof.
  intros Hz Hr Hva j r' Hj Hn. unfold ranges at 1. cbn.
  destruct (decide (j = i)) as [->|Hne].
  - rewrite list_lookup_insert_eq by (by eapply lookup_lt_Some).
    intros [= <-]. cbn. destruct Hva; [done|]. intros; contradiction.
  - rewrite list_lookup_insert_ne by done. apply Hz; [lia|done].
Qed.

Lemma unmap_ranges_vm i w :
  (i <= length (ranges w))%nat ->
  exists w', unmap_ranges i w = (Ret (inl tt), w') /\ w_vm w' = w_vm w.
Proof.
  intros H. destruct (unmap_ranges_eq i w H) as (w' & H1 & _ & H2). by exists w'.
Qed.

Lemma remap_body_spec w0 i vsp w :
  remap_inv w0 i vsp w ->
  remap_result E w0 i (remap_body E i vsp w).1 (Datatypes.S i) (remap_body E i vsp w).2.
Proof.
  intros (Hs & Hn & Hl & Hz). unfold remap_body, remap_result.
  pose proof (same_vm_length _ _ Hs) as Hlen.
  assert (Hlv : length (vsp_memranges vsp) = length (ranges w0)).
  { apply (f_equal length) in Hl. by rewrite !length_fmap in Hl. }
  case_decide as Hi.
  2:{ cbn. split; [done|]. split; [done|]. split; [done|]. split; [done|].
      intros j r Hj Hjn. destruct (decide (j = i)) as [->|]; [lia|].
      apply Hz; [lia|lia]. }
  destruct (vsp_memranges vsp !! i) as [vmr|] eqn:Hvmr.
  2:{ cbn. split; [done|]. exists i. split; [lia|]. split; [done|].
      apply lookup_ge_None. apply lookup_ge_None in Hvmr. lia. }
  assert (Hi' : (i < length (ranges w))%nat).
  { apply lookup_lt_Some in Hvmr. lia. }
  destruct (lookup_lt_is_Some_2 (ranges w) i Hi') as [r Hr].
  destruct (same_vm_lookup _ _ _ _ Hs Hr) as (r0 & Hr0 & Hlay0).
  assert (Hty : vmr_type vmr = vmr_type r).
  { assert (H : (layout_of <$> vsp_memranges vsp) !! i = Some (layout_of r0))
      by (by rewrite Hl, list_lookup_fmap, Hr0).
    rewrite list_lookup_fmap, Hvmr in H. cbn in H.
    unfold layout_of in *. congruence. }
  case_decide as Hmmio.
  - (* MMIO *)
    unfold set_memrange_va, bind. fold (ranges w). rewrite Hr. cbn.
    split; [by apply same_vm_set_va|]. split; [by apply same_vm_set_va|].
    split; [by rewrite vsp_set_va_n|]. split; [by rewrite vsp_set_va_layout|].
    apply mmio_unset_set_va; auto.
  - unfold mmap, bind. destruct (fails E (s_remap_mmap i)) as [e|] eqn:Hf.
    + cbn. set (w1 := w_with_trace _ _).
      destruct (unmap_ranges_vm i w1) as (w2 & H2 & Hv2).
      { unfold w1, ranges. cbn. fold (ranges w). lia. }
      rewrite H2. cbn.
      assert (Hs2 : same_vm w0 w2).
      { unfold same_vm, ranges in *. by rewrite Hv2. }
      split; [done|]. exists i, r0. split; [lia|]. split.
      * unfold mmio_unset, ranges in *. by rewrite Hv2.
      * split; [done|]. split; [unfold layout_of in Hlay0; congruence|].
        by rewrite Hf.
    + cbn. set (w1 := w_with_trace _ _).
      assert (Hr1 : ranges w1 !! i = Some r) by done.
      assert (Hs1 : same_vm w0 w1) by done.
      assert (Hz1 : mmio_unset (vcp_nmemranges (vm_vcp (w_vm w0))) i w1) by done.
      unfold set_memrange_va. fold (ranges w1). rewrite Hr1. cbn.
      pose proof (same_vm_set_va w0 w1 i
                    (Z.pos (mmap_addr E (s_remap_mmap i))) r Hs1 Hr1) as Hs2.
      split; [exact Hs2|]. split; [exact Hs2|].
      split; [by rewrite vsp_set_va_n|]. split; [by rewrite vsp_set_va_layout|].
      apply (mmio_unset_set_va _ i _ r w1); auto. right. congruence.
Qed.

Lemma remap_loop_spec w0 c : forall from vsp w,
  remap_inv w0 from vsp w ->
  remap_result E w0 from (for_loop c from vsp (remap_body E) w).1 (from + c)
               (for_loop c from vsp (remap_body E) w).2.
Proof.
  induction c as [|c IH]; intros from vsp w Hinv.
  - cbn. rewrite Nat.add_0_r. split; [apply Hinv|done].
  - cbn [for_loop]. unfold bind.
    pose proof (remap_body_spec w0 from vsp w Hinv) as Hb.
    destruct (remap_body E from vsp w) as [[[vsp'|e]| | | | |] w1];
      cbn in Hb |- *.
    + destruct Hb as [_ Hb]. specialize (IH _ _ _ Hb).
      replace (from + Datatypes.S c)%nat with (Datatypes.S from + c)%nat by lia.
      destruct (for_loop c (Datatypes.S from) vsp' (remap_body E) w1)
        as [[[vsp''|e]| | | | |] w2]; cbn in IH |- *; try done.
      * destruct IH as (Hs & f & r0 & Hf & H). split; [done|].
        exists f, r0. split; [lia|done].
      * destruct IH as (Hs & f & Hf & H). split; [done|].
        exists f. split; [lia|done].
    + done.
    + by destruct Hb.
    + by destruct Hb.
    + done.
    + by destruct Hb.
    + by destruct Hb.
Qed.

Lemma remap_release_vm vsp c : forall from w,
  w_vm (for_loop c from tt (remap_release_body E vsp) w).2 = w_vm w.
Proof.
  intros from w.
  apply (keeps_for_loop (fun w' => w_vm w' = w_vm w)); [|done].
  intros i s w1 H1. unfold remap_release_body.
  destruct (_ !! i); [|done]. case_decide; [done|].
  destruct (fails E _); cbn; done.
Qed.

(** The MMIO range [i] of a VM ends up without an address, whatever
    else happens in the call, if the call gets as far as range [i]: no
    mmap for an earlier range fails. *)
Lemma same_vm_lookup_r w0 w j r0 :
  same_vm w0 w -> ranges w0 !! j = Some r0 ->
  exists r, ranges w !! j = Some r /\ layout_of r = layout_of r0.
Proof.
  intros [_ Hl] Hr.
  assert (H : (layout_of <$> ranges w) !! j = Some (layout_of r0))
    by (by rewrite Hl, list_lookup_fmap, Hr).
  rewrite list_lookup_fmap in H.
  destruct (ranges w !! j) as [r|]; [|done]. exists r. split; [done|].
  cbn in H. congruence.
Qed.

Lemma remap_guest_mem_mmio w i r :
  (i < VMM_MAX_MEM_RANGES P)%nat ->
  (i < vcp_nmemranges (vm_vcp (w_vm w)))%nat ->
  ranges w !! i = Some r -> vmr_type r = VM_MEM_MMIO ->
  (forall j, (j < i)%nat -> fails E (s_remap_mmap j) = None) ->
  exists r', ranges (remap_guest_mem P E false w).2 !! i = Some r'
             /\ vmr_va r' = 0 /\ layout_of r' = layout_of r.
Proof.
  intros Hmax Hn Hr Hty Hok.
  assert (Hfin : forall w1 f, same_vm w w1 ->
            mmio_unset (vcp_nmemranges (vm_vcp (w_vm w))) f w1 -> (i < f)%nat ->
            exists r', ranges w1 !! i = Some r'
                       /\ vmr_va r' = 0 /\ layout_of r' = layout_of r).
  { intros w1 f Hs Hz Hf.
    destruct (same_vm_lookup_r _ _ _ _ Hs Hr) as (r' & Hr' & Hl').
    exists r'. split; [done|]. split; [|done].
    apply (Hz i r'); try done. unfold layout_of in Hl'. congruence. }
  unfold remap_guest_mem.
  rewrite (bind_eq get_vcp _ w (vm_vcp (w_vm w)) w eq_refl).
  set (vsp0 := mk_vsp _ _ _).
  assert (Hinv0 : remap_inv w 0 vsp0 w).
  { split; [apply same_vm_refl|]. split; [done|]. split; [done|].
    intros j r1 Hj. lia. }
  pose proof (remap_loop_spec w (VMM_MAX_MEM_RANGES P) 0 vsp0 w Hinv0) as Hres.
  unfold bind at 1.
  destruct (for_loop (VMM_MAX_MEM_RANGES P) 0 vsp0 (remap_body E) w)
    as [[[vsp|e]| | | | |] w1]; cbn in Hres |- *;
    try (by destruct Hres as [_ []]).
  - destruct Hres as (Hs & _ & _ & _ & Hz).
    set (tail := bind _ _).
    assert (Hvm : w_vm (tail w1).2 = w_vm w1).
    { apply (keeps_bind (fun w' => w_vm w' = w_vm w1)); [| |done].
      - intros w2 H2. by rewrite remap_release_vm.
      - intros _. apply keeps_bind; [by intros w2|].
        intros _. destruct (fails E s_sharemem); apply keeps_ret. }
    destruct (Hfin w1 (VMM_MAX_MEM_RANGES P) Hs Hz Hmax) as (r' & Hr' & H').
    exists r'. split; [|done]. unfold ranges in *. by rewrite Hvm.
  - destruct Hres as (Hs & f & r0 & _ & Hz & Hr0 & Hty0 & Hf).
    apply (Hfin w1 f Hs Hz).
    destruct (decide (f < i)%nat) as [Hlt|Hge]; [by specialize (Hok f Hlt)|].
    destruct (decide (f = i)) as [->|]; [congruence|lia].
  - destruct Hres as (Hs & f & _ & Hz & Hnone).
    apply (Hfin w1 f Hs Hz).
    apply lookup_ge_None in Hnone. apply lookup_lt_Some in Hr. lia.
Qed.

End Remap.

(** ** Pause and unpause *)

Section Pause.

Variable P : platform.
Variable E : environ.

Lemma broadcast_loop_ok c s msg n : forall from w,
  (forall i, (from <= i < from + n)%nat -> fails E (s i) = None) ->
  for_loop n from tt (broadcast_body E c s msg) w
  = (Ret (inl tt), emits ((fun i => E_broadcast (c i)) <$> seq from n) w).
Proof.
  induction n as [|n IH]; intros from w Hok.
  - cbn. by rewrite emits_nil.
  - cbn [for_loop]. unfold broadcast_body at 1.
    rewrite bind_assoc, bind_emit, (Hok from) by lia.
    unfold bind at 1. cbn [ret]. rewrite IH by (intros; apply Hok; lia).
    by rewrite emits_emits.
Qed.

Lemma mutex_lock_ok m w :
  fails E (s_mutex_lock m) = None -> mutex_lock E m w = (Ret tt, emits [E_lock m] w).
Proof. intros H. unfold mutex_lock. by rewrite bind_emit, H. Qed.

Lemma mutex_unlock_ok m w :
  fails E (s_mutex_unlock m) = None ->
  mutex_unlock E m w = (Ret tt, emits [E_unlock m] w).
Proof. intros H. unfold mutex_unlock. by rewrite bind_emit, H. Qed.

Lemma has_flag_set flag s vm :
  flag <> 0 -> has_flag flag (vm_with_state (Z.lor s flag) vm) = true.
Proof.
  intros H. unfold has_flag. cbn.
  rewrite Z.land_lor_distr_l, Z.land_diag.
  destruct (Z.eqb_spec (Z.lor (Z.land s flag) flag) 0) as [Heq|]; [|done].
  apply Z.lor_eq_0_iff in Heq. tauto.
Qed.

Lemma has_flag_clear flag s vm :
  has_flag flag (vm_with_state (Z.land s (Z.lnot flag)) vm) = false.
Proof.
  unfold has_flag. cbn.
  rewrite <- Z.land_assoc, (Z.land_comm (Z.lnot flag)), Z.land_lnot_diag, Z.land_0_r.
  done.
Qed.

(** pause_vm on a VM that is already paused. *)
Lemma pause_vm_paused w :
  fails E (s_mutex_lock vm_mtx) = None ->
  fails E (s_mutex_unlock vm_mtx) = None ->
  has_flag (VM_STATE_PAUSED P) (w_vm w) = true ->
  pause_vm P E w = (Ret tt, emits [E_lock vm_mtx; E_unlock vm_mtx] w).
Proof.
  intros Hl Hu Hp. unfold pause_vm.
  rewrite (bind_eq _ _ _ _ _ (mutex_lock_ok _ w Hl)), bind_get_vm.
  change (w_vm (emits [E_lock vm_mtx] w)) with (w_vm w).
  rewrite Hp, mutex_unlock_ok by done. by rewrite emits_emits.
Qed.

(** pause_vm on a VM that is not paused, when no call fails. *)
Lemma pause_vm_running w :
  fails E (s_mutex_lock vm_mtx) = None ->
  fails E (s_mutex_unlock vm_mtx) = None ->
  fails E s_barrier_init = None ->
  (forall n, (n < vcp_ncpus (vm_vcp (w_vm w)))%nat ->
             fails E (s_run_broadcast n) = None) ->
  fails E s_barrier_wait = None ->
  fails E s_barrier_destroy = None ->
  has_flag (VM_STATE_PAUSED P) (w_vm w) = false ->
  let n := vcp_ncpus (vm_vcp (w_vm w)) in
  let s := Z.lor (vm_state (w_vm w)) (VM_STATE_PAUSED P) in
  pause_vm P E w =
  (Ret tt,
   emits ([E_lock vm_mtx; E_set_state s; E_unlock vm_mtx;
           E_barrier_init (n + 1)]
          ++ ((fun i => E_broadcast (vcpu_run_cond i)) <$> seq 0 n)
          ++ [E_barrier_wait; E_barrier_destroy; E_pause_md])
         (with_state s w)).
Proof.
  intros Hl Hu Hi Hb Hw Hd Hp n s. unfold pause_vm.
  rewrite (bind_eq _ _ _ _ _ (mutex_lock_ok _ w Hl)), bind_get_vm.
  change (w_vm (emits [E_lock vm_mtx] w)) with (w_vm w).
  rewrite Hp. unfold set_vm_state.
  rewrite bind_assoc, bind_modify, bind_emit.
  rewrite (bind_eq _ _ _ _ _ (mutex_unlock_ok _ _ Hu)).
  rewrite bind_emit, Hi.
  assert (Hb' : forall i, (0 <= i < 0 + n)%nat ->
                         fails E (s_run_broadcast i) = None)
    by (intros; apply Hb; lia).
  rewrite (bind_eq _ _ _ _ _ (broadcast_loop_ok _ _ _ _ 0 _ Hb')).
  rewrite bind_emit, Hw, bind_emit, Hd, emit_eq.
  rewrite !emits_emits, with_vm_emits, emits_emits. reflexivity.
Qed.

(** pause_vm when the barrier cannot be initialised: the call is logged
    and pause_vm returns with the paused flag set, before any broadcast. *)
Lemma pause_vm_barrier_init_fails w e :
  fails E (s_mutex_lock vm_mtx) = None ->
  fails E (s_mutex_unlock vm_mtx) = None ->
  fails E s_barrier_init = Some e ->
  has_flag (VM_STATE_PAUSED P) (w_vm w) = false ->
  let n := vcp_ncpus (vm_vcp (w_vm w)) in
  let s := Z.lor (vm_state (w_vm w)) (VM_STATE_PAUSED P) in
  pause_vm P E w =
  (Ret tt,
   emits [E_lock vm_mtx; E_set_state s; E_unlock vm_mtx; E_barrier_init (n + 1);
          E_log "cannot initialize pause barrier"]
         (with_state s w)).
Proof.
  intros Hl Hu Hi Hp n s. unfold pause_vm.
  rewrite (bind_eq _ _ _ _ _ (mutex_lock_ok _ w Hl)), bind_get_vm.
  change (w_vm (emits [E_lock vm_mtx] w)) with (w_vm w).
  rewrite Hp. unfold set_vm_state.
  rewrite bind_assoc, bind_modify, bind_emit.
  rewrite (bind_eq _ _ _ _ _ (mutex_unlock_ok _ _ Hu)).
  rewrite bind_emit, Hi, emit_eq.
  rewrite !emits_emits, with_vm_emits, emits_emits. reflexivity.
Qed.

(** unpause_vm on a paused VM, when no call fails. *)
Lemma unpause_vm_paused w :
  fails E (s_mutex_lock vm_mtx) = None ->
  fails E (s_mutex_unlock vm_mtx) = None ->
  (forall n, (n < vcp_ncpus (vm_vcp (w_vm w)))%nat ->
             fails E (s_unpause_broadcast n) = None) ->
  has_flag (VM_STATE_PAUSED P) (w_vm w) = true ->
  let n := vcp_ncpus (vm_vcp (w_vm w)) in
  let s := Z.land (vm_state (w_vm w)) (Z.lnot (VM_STATE_PAUSED P)) in
  unpause_vm P E w =
  (Ret tt,
   emits ([E_lock vm_mtx; E_set_state s; E_unlock vm_mtx]
          ++ ((fun i => E_broadcast (vcpu_unpause_cond i)) <$> seq 0 n)
          ++ [E_unpause_md])
         (with_state s w)).
Proof.
  intros Hl Hu Hb Hp n s. unfold unpause_vm.
  rewrite (bind_eq _ _ _ _ _ (mutex_lock_ok _ w Hl)), bind_get_vm.
  change (w_vm (emits [E_lock vm_mtx] w)) with (w_vm w).
  rewrite Hp. cbn [negb]. unfold set_vm_state.
  rewrite bind_assoc, bind_modify, bind_emit.
  rewrite (bind_eq _ _ _ _ _ (mutex_unlock_ok _ _ Hu)).
  assert (Hb' : forall i, (0 <= i < 0 + n)%nat ->
                         fails E (s_unpause_broadcast i) = None)
    by (intros; apply Hb; lia).
  rewrite (bind_eq _ _ _ _ _ (broadcast_loop_ok _ _ _ _ 0 _ Hb')).
  rewrite emit_eq.
  rewrite !emits_emits, with_vm_emits, emits_emits. reflexivity.
Qed.

End Pause.

(** ** The page loops of dump_vmr and restore_vmr *)

Section Vmr.

Variable P : platform.
Variable E : environ.
Hypothesis page_shift : 0 <= PAGE_SHIFT P <= 64.

Lemma PAGE_SIZE_pow : PAGE_SIZE P = 2 ^ PAGE_SHIFT P.
Proof. unfold PAGE_SIZE. rewrite Z.shiftl_1_l. done. Qed.

Lemma PAGE_SIZE_pos : 0 < PAGE_SIZE P.
Proof. rewrite PAGE_SIZE_pow. apply Z.pow_pos_nonneg; lia. Qed.







Lemma wrap64_small z : 0 <= z < 2 ^ 64 -> wrap64 z = z.
Proof. intros H. unfold wrap64. by apply Z.mod_small. Qed.

(** With a counter of [k] pages, [k] iterations end the loop of dump_vmr. *)
Lemma dump_vmr_loop_done vmr k : forall fuel rem read w,
  rem = Z.of_nat k * PAGE_SIZE P -> rem < 2 ^ 64 -> (k <= fuel)%nat ->
  (forall a, fails E (s_read_mem a) = None /\ fails E (s_write_page a) = None) ->
  dump_vmr_loop P E fuel vmr rem read w
  = (Ret 0, emits ((fun p => E_write (I_page p))
                     <$> dump_pages P k (vmr_gpa vmr) read (w_gmem w)) w).
Proof.
  pose proof PAGE_SIZE_pos as Hpos.
  induction k as [|k IH]; intros fuel rem read w Hrem Hlt Hfuel Hok.
  - destruct fuel; cbn [dump_vmr_loop]; rewrite decide_True by lia;
      cbn; by rewrite emits_nil.
  - destruct fuel as [|fuel]; [lia|]. cbn [dump_vmr_loop].
    assert (Hk : 0 <= Z.of_nat k * PAGE_SIZE P) by nia.
    rewrite Nat2Z.inj_succ in Hrem.
    rewrite decide_False by lia.
    destruct (Hok (wrap64 (vmr_gpa vmr + read))) as [Hr Hw].
    unfold read_mem, write_fd. rewrite Hr, Hw.
    unfold bind at 1. rewrite bind_assoc, bind_emit, bind_ret.
    rewrite (IH fuel); [| | |lia|done].
    2:{ rewrite wrap64_small by lia. lia. }
    2:{ unfold wrap64. pose proof (Z.mod_pos_bound (rem - PAGE_SIZE P) (2 ^ 64)). lia. }
    rewrite emits_emits. reflexivity.
Qed.

(** With a counter of [k] pages and [k] pages to read, [k] iterations
    end the loop of restore_vmr. *)
Lemma restore_vmr_loop_done vmr pages : forall fuel rem wrote w rest,
  rem = Z.of_nat (length pages) * PAGE_SIZE P -> rem < 2 ^ 64 ->
  (length pages <= fuel)%nat ->
  (forall a, fails E (s_write_mem a) = None) ->
  w_in w = (I_page <$> pages) ++ rest ->
  restore_vmr_loop P E fuel vmr rem wrote w
  = (Ret tt, w_with_gmem (restore_pages P pages (vmr_gpa vmr) wrote (w_gmem w))
               (w_with_in rest w)).
Proof.
  pose proof PAGE_SIZE_pos as Hpos.
  induction pages as [|p pages IH]; intros fuel rem wrote w rest Hrem Hlt Hfuel Hok Hin.
  - cbn in Hin, Hrem. destruct fuel; cbn [restore_vmr_loop];
      rewrite decide_True by lia; cbn; rewrite <- Hin; by destruct w.
  - destruct fuel as [|fuel]; [cbn in Hfuel; lia|]. cbn [restore_vmr_loop].
    cbn [length] in Hrem.
    assert (Hk : 0 <= Z.of_nat (length pages) * PAGE_SIZE P) by nia.
    rewrite Nat2Z.inj_succ in Hrem.
    rewrite decide_False by lia.
    unfold read_page, read_fd, write_mem, bind. rewrite Hin, Hok. cbn - [restore_vmr_loop].
    rewrite (IH fuel _ _ _ rest); [done| | | |done|done].
    + rewrite wrap64_small by lia. lia.
    + unfold wrap64. pose proof (Z.mod_pos_bound (rem - PAGE_SIZE P) (2 ^ 64)). lia.
    + cbn in Hfuel. lia.
Qed.

End Vmr.

(** ** Pause, send failures, the run loop and the page loops *)

(** C5.  When no pthread call fails: pause_vm on a VM that is already
    paused only takes and releases the lock (no store to the flag, no
    barrier); otherwise it stores the paused flag between lock and unlock,
    initialises the barrier for ncpus + 1 parties, broadcasts the run
    condition of every VCPU in index order, waits on the barrier, destroys
    it and then calls pause_vm_md, in this order.  Every such call
    initialises its own barrier and destroys it before it returns, so no
    barrier is carried over to a later pause. *)
Theorem pause_vm_sequence P E w :
  fails E (s_mutex_lock vm_mtx) = None ->
  fails E (s_mutex_unlock vm_mtx) = None ->
  fails E s_barrier_init = None ->
  (forall n, (n < vcp_ncpus (vm_vcp (w_vm w)))%nat ->
             fails E (s_run_broadcast n) = None) ->
  fails E s_barrier_wait = None ->
  fails E s_barrier_destroy = None ->
  let n := vcp_ncpus (vm_vcp (w_vm w)) in
  let s := Z.lor (vm_state (w_vm w)) (VM_STATE_PAUSED P) in
  (has_flag (VM_STATE_PAUSED P) (w_vm w) = true ->
     pause_vm P E w = (Ret tt, emits [E_lock vm_mtx; E_unlock vm_mtx] w))
  /\ (has_flag (VM_STATE_PAUSED P) (w_vm w) = false ->
     pause_vm P E w =
       (Ret tt,
        emits ([E_lock vm_mtx; E_set_state s; E_unlock vm_mtx;
                E_barrier_init (n + 1)]
               ++ ((fun i => E_broadcast (vcpu_run_cond i)) <$> seq 0 n)
               ++ [E_barrier_wait; E_barrier_destroy; E_pause_md])
              (with_state s w))
     /\ (VM_STATE_PAUSED P <> 0 ->
         has_flag (VM_STATE_PAUSED P) (w_vm (with_state s w)) = true)).
Proof.
  intros Hl Hu Hi Hb Hw Hd n s. split.
  - intros Hp. by apply pause_vm_paused.
  - intros Hp. split; [by apply pause_vm_running|].
    intros Hne. by apply has_flag_set.
Qed.

Section Send.

Variable P : platform.
Variable E : environ.

(** send_vm when the dump header cannot be written. *)
Lemma send_vm_header_fails fuel w e :
  fails E s_header = Some e ->
  send_vm P E fuel w =
    (Ret 0, emits [E_log "send_vm: failed to send vm dump header"; E_close] w).
Proof.
  intros H. unfold send_vm, dump_send_header, dump_record, write_fd.
  rewrite H. mstep. rewrite decide_True by done. mstep.
  unfold send_vm_err. mstep. rewrite decide_True by done.
  mstep. cbn [ret]. by rewrite emits_emits.
Qed.

Lemma dispatch_header_fails fuel w e :
  fails E s_header = Some e ->
  dispatch_send_vm_request P E fuel w =
    (Exit 0, emits [E_log "send_vm: failed to send vm dump header"; E_close;
                    E_response 0; E_imsg_flush] w).
Proof.
  intros H. unfold dispatch_send_vm_request.
  rewrite (bind_eq _ _ _ _ _ (send_vm_header_fails fuel w e H)).
  rewrite bind_emit, decide_True by done. rewrite bind_emit.
  cbn [halt_with]. by rewrite !emits_emits.
Qed.

(** send_vm when the header is written, the VM gets paused and the
    allocation of the parameter block then fails. *)
Lemma send_vm_calloc_fails fuel w e :
  fails E s_header = None ->
  fails E (s_mutex_lock vm_mtx) = None ->
  fails E (s_mutex_unlock vm_mtx) = None ->
  fails E s_barrier_init = None ->
  (forall n, fails E (s_run_broadcast n) = None) ->
  fails E s_barrier_wait = None ->
  fails E s_barrier_destroy = None ->
  (forall n, fails E (s_unpause_broadcast n) = None) ->
  fails E s_calloc = Some e ->
  VM_STATE_PAUSED P <> 0 ->
  has_flag (VM_STATE_PAUSED P) (w_vm w) = false ->
  exists w', send_vm P E fuel w = (Ret (-1), w')
    /\ has_flag (VM_STATE_PAUSED P) (w_vm w') = false
    /\ E_unpause_md ∈ w_trace w'.
Proof.
  intros Hh Hl Hu Hi Hb Hw Hd Hub Hc Hne Hp.
  set (w1 := emits [E_write I_header] w).
  assert (Hp1 : has_flag (VM_STATE_PAUSED P) (w_vm w1) = false) by done.
  pose proof (pause_vm_running P E w1 Hl Hu Hi (fun n _ => Hb n) Hw Hd Hp1)
    as Hpause. cbv zeta in Hpause.
  set (w2 := emits _ (with_state _ w1)) in Hpause.
  set (w3 := emits [E_log "send_vm: calloc error getting vmc"; E_close] w2).
  assert (Hp3 : has_flag (VM_STATE_PAUSED P) (w_vm w3) = true)
    by (by apply has_flag_set).
  pose proof (unpause_vm_paused P E w3 Hl Hu (fun n _ => Hub n) Hp3)
    as Hunpause. cbv zeta in Hunpause.
  eexists. split; [|split].
  - unfold send_vm, dump_send_header, dump_record, write_fd.
    rewrite Hh. mstep. rewrite decide_False by (intros ?; done).
    fold w1. rewrite (bind_eq _ _ _ _ _ Hpause).
    rewrite Hc, bind_emit. unfold send_vm_err.
    rewrite bind_emit, decide_False by done. rewrite emits_emits.
    change (emits ([E_log "send_vm: calloc error getting vmc"] ++ [E_close]) w2)
      with w3.
    rewrite (bind_eq _ _ _ _ _ Hunpause). reflexivity.
  - apply has_flag_clear.
  - rewrite trace_emits. rewrite !elem_of_app. right. right. right.
    by apply list_elem_of_singleton.
Qed.

End Send.

(** C9.  If the dump header cannot be written, send_vm leaves through
    [err] while [ret] is still 0: it returns 0, the response reports
    result 0 to the parent and the VM process exits with status 0, although
    nothing but the close of the descriptor has happened. *)
Theorem send_vm_header_failure_reports_success P E fuel w e :
  fails E s_header = Some e ->
  send_vm P E fuel w =
    (Ret 0, emits [E_log "send_vm: failed to send vm dump header"; E_close] w)
  /\ dispatch_send_vm_request P E fuel w =
    (Exit 0, emits [E_log "send_vm: failed to send vm dump header"; E_close;
                    E_response 0; E_imsg_flush] w).
Proof.
  intros H. split; [by apply (send_vm_header_fails P E fuel w e)|
                    by apply (dispatch_header_fails P E fuel w e)].
Qed.

(** C6, at the failing step.  A failed write of the dump header ends
    send_vm with result 0 and without unpause_vm: the VM structure is
    left as it was, so a VM that was paused stays paused, and the
    dispatcher takes the result for success and exits the process.  (A
    later failure returns -1 and runs unpause_vm, see
    [send_vm_calloc_fails].) *)
Theorem send_vm_header_failure_skips_unpause P E fuel w e :
  fails E s_header = Some e ->
  (exists w', send_vm P E fuel w = (Ret 0, w')
     /\ w_vm w' = w_vm w
     /\ w_trace w' = w_trace w
          ++ [E_log "send_vm: failed to send vm dump header"; E_close])
  /\ (dispatch_send_vm_request P E fuel w).1 = Exit 0.
Proof.
  intros H. split.
  - eexists. split; [by apply (send_vm_header_fails P E fuel w e)|]. done.
  - by rewrite (dispatch_header_fails P E fuel w e H).
Qed.

Section Vcpu.

Variable E : environ.

(** The first iteration of the run loop when the run mutex cannot be
    locked. *)
Lemma vcpu_run_body_lock_fails n k w e :
  fails E (s_lock_run_mtx k) = Some e ->
  vcpu_run_body E n k w
  = (Ret (Return (errno_val e)),
     emits [E_lock (vcpu_run_mtx n);
            E_log "vcpu_run_loop: can't lock vcpu run mtx"] w).
Proof.
  intros H. unfold vcpu_run_body, pthread_step.
  rewrite bind_emit, H, bind_emit. cbn [ret]. by rewrite emits_emits.
Qed.

(** The code after the loop, when the lock wrappers succeed: the done
    flag is set under [vm_mtx], then [threadcond] is signalled. *)
Lemma vcpu_run_done_ok n r w :
  (forall m, fails E (s_mutex_lock m) = None) ->
  (forall m, fails E (s_mutex_unlock m) = None) ->
  vcpu_run_done E n r w
  = (Ret r,
     emits [E_lock vm_mtx; E_set_done n; E_unlock vm_mtx;
            E_lock threadmutex; E_signal threadcond; E_unlock threadmutex]
           (w_with_done (<[n := true]> (w_done w)) w)).
Proof.
  intros Hl Hu. unfold vcpu_run_done, mutex_lock, mutex_unlock.
  rewrite !Hl, !Hu. mstep. cbn [ret].
  change (w_done (emits [E_lock vm_mtx] w)) with (w_done w).
  rewrite with_done_emits, !emits_emits. reflexivity.
Qed.

(** A failing run ioctl leaves the loop with [break]: the thread marks
    itself done and signals before it returns the error. *)
Lemma vcpu_run_loop_run_ioctl_fails fuel n w e :
  (forall m, fails E (s_mutex_lock m) = None) ->
  (forall m, fails E (s_mutex_unlock m) = None) ->
  fails E (s_lock_run_mtx 0) = None ->
  fails E (s_unlock_run_mtx 0) = None ->
  seen_halted E 0 = false ->
  fails E (s_run 0) = Some e ->
  vcpu_run_loop E (S fuel) n w
  = (Ret (errno_val e),
     emits [E_lock (vcpu_run_mtx n); E_lock vm_mtx; E_unlock vm_mtx;
            E_unlock (vcpu_run_mtx n);
            E_run n (if irqready E 0 && intr_pending E 0
                     then Some (intr_ack E 0) else None)
                  (intr_pending' E 0);
            E_log "vcpu_run_loop: run ioctl failed";
            E_lock vm_mtx; E_set_done n; E_unlock vm_mtx;
            E_lock threadmutex; E_signal threadcond; E_unlock threadmutex]
           (w_with_done (<[n := true]> (w_done w)) w)).
Proof.
  intros Hl Hu Hlr Hur Hh Hrun.
  unfold vcpu_run_loop. cbn [vcpu_run_from].
  unfold vcpu_run_body, pthread_step, mutex_lock, mutex_unlock.
  rewrite Hh, Hl, Hu, Hlr, Hur, Hrun. cbn [andb]. mstep.
  rewrite (vcpu_run_done_ok _ _ _ Hl Hu).
  rewrite !emits_emits.
  match goal with
  | |- context [w_done (emits ?l w)] =>
      change (w_done (emits l w)) with (w_done w)
  end.
  rewrite with_done_emits, emits_emits. reflexivity.
Qed.

End Vcpu.

(** C8, at the failing path.  When pthread_mutex_lock on the run mutex
    fails the thread returns the error from inside the loop: vcpu_done is
    not written and threadcond is not signalled. *)
Theorem vcpu_run_loop_lock_failure_skips_done E fuel n w e :
  fails E (s_lock_run_mtx 0) = Some e ->
  vcpu_run_loop E (S fuel) n w
  = (Ret (errno_val e),
     emits [E_lock (vcpu_run_mtx n);
            E_log "vcpu_run_loop: can't lock vcpu run mtx"] w)
  /\ w_done (vcpu_run_loop E (S fuel) n w).2 = w_done w.
Proof.
  intros H.
  assert (Heq : vcpu_run_loop E (S fuel) n w
    = (Ret (errno_val e),
       emits [E_lock (vcpu_run_mtx n);
              E_log "vcpu_run_loop: can't lock vcpu run mtx"] w)).
  { unfold vcpu_run_loop. cbn [vcpu_run_from].
    by rewrite (bind_eq _ _ _ _ _ (vcpu_run_body_lock_fails E n 0 w e H)). }
  split; [done|]. by rewrite Heq.
Qed.


(** C4, as the code has it.  alloc_guest_mem does not look at the type
    of a range: after a successful call every range it was given, RAM or
    MMIO, holds the non-null address of a live mapping.  remap_guest_mem
    sets the address of every MMIO range it reaches to 0, that is of every
    MMIO range when no mmap fails before it. *)
Theorem alloc_maps_every_range_remap_unsets_mmio P E w :
  ((vcp_nmemranges (vm_vcp (w_vm w)) <= length (ranges w))%nat ->
   (forall j, (j < vcp_nmemranges (vm_vcp (w_vm w)))%nat ->
              fails E (s_alloc_mmap j) = None) ->
   exists w', alloc_guest_mem E w = (Ret 0, w')
     /\ forall j r, (j < vcp_nmemranges (vm_vcp (w_vm w)))%nat ->
          ranges w' !! j = Some r ->
          vmr_va r <> 0 /\ (vmr_va r, vmr_size r) ∈ w_maps w')
  /\ (forall i r,
        (i < VMM_MAX_MEM_RANGES P)%nat ->
        (i < vcp_nmemranges (vm_vcp (w_vm w)))%nat ->
        ranges w !! i = Some r -> vmr_type r = VM_MEM_MMIO ->
        (forall j, (j < i)%nat -> fails E (s_remap_mmap j) = None) ->
        exists r', ranges (remap_guest_mem P E false w).2 !! i = Some r'
                   /\ vmr_va r' = 0).
Proof.
  split.
  - intros Hlen Hok.
    destruct (alloc_guest_mem_ok E w Hlen Hok) as (w' & Ha & Hm & Hs & Hva).
    exists w'. split; [done|]. intros j r Hj Hr. split.
    + by rewrite (Hva j r Hj Hr).
    + rewrite Hm. apply elem_of_app. left. apply elem_of_reverse.
      apply (list_elem_of_fmap_2 mapping_of). apply list_elem_of_lookup.
      exists j. rewrite lookup_take_lt by done. done.
  - intros i r Hmax Hn Hr Hty Hok.
    destruct (remap_guest_mem_mmio P E w i r Hmax Hn Hr Hty Hok)
      as (r' & Hr' & Hva & _).
    by exists r'.
Qed.

(** ** Send followed by restore, one VCPU *)

Section Memory.

Variable P : platform.
Hypothesis page_shift : 0 <= PAGE_SHIFT P <= 64.

Lemma length_page_at g a : length (page_at P g a) = Z.to_nat (PAGE_SIZE P).
Proof. unfold page_at. by rewrite length_fmap, length_seqZ. Qed.

(** Storing the page of [src] at [a] gives the contents of [src] there
    and keeps them where they were. *)
Lemma store_page_agree C g src a :
  agree_on C g src ->
  agree_on (fun x => C x \/ a <= x < a + PAGE_SIZE P)
           (store_bytes a (page_at P src a) g) src.
Proof.
  pose proof (PAGE_SIZE_pos P page_shift) as Hpos.
  intros Hg x Hx. unfold store_bytes. rewrite length_page_at.
  rewrite Z2Nat.id by lia.
  case_decide as Hin.
  - unfold page_at.
    rewrite (list_lookup_fmap (fun k => src (a + k)) (seqZ 0 (PAGE_SIZE P))).
    rewrite lookup_seqZ_lt by lia. cbn. f_equal. lia.
  - destruct Hx as [Hx|Hx]; [by apply Hg|lia].
Qed.

Lemma agree_on_weaken (C C' : Z -> Prop) g src :
  (forall a, C' a -> C a) -> agree_on C g src -> agree_on C' g src.
Proof. intros H Hg a Ha. by apply Hg, H. Qed.

(** Restoring the pages dumped from [src] gives the contents of [src] on
    the whole span. *)
Lemma restore_pages_agree src k : forall gpa read g C,
  0 <= gpa -> 0 <= read ->
  gpa + read + Z.of_nat k * PAGE_SIZE P <= 2 ^ 64 ->
  agree_on C g src ->
  agree_on (fun x => C x \/ gpa + read <= x < gpa + read + Z.of_nat k * PAGE_SIZE P)
           (restore_pages P (dump_pages P k gpa read src) gpa read g) src.
Proof.
  pose proof (PAGE_SIZE_pos P page_shift) as Hpos.
  induction k as [|k IH]; intros gpa read g C Hgpa Hread Hfit Hg.
  - cbn. eapply agree_on_weaken; [|exact Hg]. intros a [Ha|Ha]; [done|lia].
  - cbn [dump_pages restore_pages].
    rewrite Nat2Z.inj_succ in Hfit |- *.
    assert (Hk : 0 <= Z.of_nat k * PAGE_SIZE P) by nia.
    rewrite (wrap64_small (gpa + read)) by lia.
    pose proof (store_page_agree C g src (gpa + read) Hg) as Hg1.
    destruct k as [|k'].
    + cbn. eapply agree_on_weaken; [|exact Hg1]. intros a [Ha|Ha]; [by left|].
      right. lia.
    + assert (Hk' : PAGE_SIZE P <= Z.of_nat (S k') * PAGE_SIZE P) by nia.
      rewrite (wrap64_small (read + PAGE_SIZE P)) by lia.
      eapply agree_on_weaken; [|apply IH; [lia|lia|lia|exact Hg1]].
      intros a [Ha|Ha]; [by left; left|]. cbn beta. lia.
Qed.

Lemma restore_all_agree src spans : forall g C,
  Forall (page_span P) spans ->
  agree_on C g src ->
  agree_on (fun x => C x \/ exists s, s ∈ spans /\ s.1 <= x < s.1 + s.2)
           (restore_all P src spans g) src.
Proof.
  pose proof (PAGE_SIZE_pos P page_shift) as Hpos.
  induction spans as [|s spans IH]; intros g C Hall Hg.
  - cbn. eapply agree_on_weaken; [|exact Hg].
    intros a [Ha|(s & Hs & _)]; [done|by apply elem_of_nil in Hs].
  - apply Forall_cons in Hall as [(H1 & H2 & H3 & H4 & H5) Hall].
    unfold restore_all. cbn [foldl]. fold (restore_all P src spans).
    assert (Hsz : Z.of_nat (span_pages P s) * PAGE_SIZE P = s.2).
    { unfold span_pages. rewrite Z2Nat.id by (apply Z.div_pos; lia).
      rewrite Z.mul_comm. symmetry. apply Z.div_exact; [lia|done]. }
    eapply agree_on_weaken;
      [|apply IH; [done|apply (restore_pages_agree src _ s.1 0 g C); try lia; done]].
    intros a [Ha|(s' & Hs' & Ha)]; [by left; left|].
    apply elem_of_cons in Hs' as [->|Hs'].
    + left. right. lia.
    + right. by exists s'.
Qed.

End Memory.

Section MemoryLoops.

Variable P : platform.
Variable E : environ.
Hypothesis page_shift : 0 <= PAGE_SHIFT P <= 64.
Hypothesis all_ok : forall s, fails E s = None.

Lemma length_dump_pages k : forall gpa read g,
  length (dump_pages P k gpa read g) = k.
Proof. induction k as [|k IH]; intros; cbn; [done|by rewrite IH]. Qed.

Lemma span_size s :
  page_span P s -> s.2 = Z.of_nat (span_pages P s) * PAGE_SIZE P.
Proof.
  pose proof (PAGE_SIZE_pos P page_shift) as Hpos.
  intros (H1 & H2 & H3 & H4 & H5). unfold span_pages.
  rewrite Z2Nat.id by (apply Z.div_pos; lia).
  rewrite Z.mul_comm. apply Z.div_exact; [lia|done].
Qed.

(** dump_vmr on a range of whole pages. *)
Lemma dump_vmr_ok fuel vmr w :
  page_span P (span_of vmr) -> (span_pages P (span_of vmr) <= fuel)%nat ->
  dump_vmr P E fuel vmr w
  = (Ret 0, emits ((fun p => E_write (I_page p))
                     <$> dump_pages P (span_pages P (span_of vmr)) (vmr_gpa vmr) 0
                           (w_gmem w)) w).
Proof.
  intros Hs Hfuel. pose proof (span_size _ Hs) as Hsz.
  destruct Hs as (H1 & H2 & H3 & H4 & H5). cbn in *.
  unfold dump_vmr. rewrite wrap64_small by lia.
  apply (dump_vmr_loop_done P E page_shift); try done.
Qed.

Lemma dump_mem_loop_ok fuel c : forall from w,
  (from + c <= length (ranges w))%nat ->
  Forall (fun s => page_span P s /\ (span_pages P s <= fuel)%nat)
         (span_of <$> take c (drop from (ranges w))) ->
  for_loop c from tt (dump_mem_body P E fuel) w
  = (Ret (inl tt),
     emits ((fun p => E_write (I_page p))
              <$> mem_pages P (w_gmem w) (span_of <$> take c (drop from (ranges w))))
           w).
Proof.
  induction c as [|c IH]; intros from w Hlen Hall.
  - cbn. by rewrite emits_nil.
  - destruct (lookup_lt_is_Some_2 (ranges w) from) as [r Hr]; [lia|].
    rewrite (drop_S _ _ _ Hr) in Hall |- *. cbn [take fmap list_fmap] in Hall |- *.
    apply Forall_cons in Hall as [[Hs Hf] Hall].
    cbn [for_loop]. unfold dump_mem_body at 1.
    rewrite bind_assoc, (bind_memrange _ _ _ _ Hr).
    rewrite bind_assoc, (bind_eq _ _ _ _ _ (dump_vmr_ok fuel r _ Hs Hf)).
    rewrite decide_True by done. rewrite bind_ret.
    rewrite IH; [|by (unfold ranges in *; cbn; lia)|done].
    rewrite emits_emits. unfold mem_pages. cbn [fmap list_fmap concat].
    by rewrite fmap_app.
Qed.

(** dump_mem writes the pages of every range, in range order. *)
Lemma dump_mem_ok fuel w :
  (vcp_nmemranges (vm_vcp (w_vm w)) <= length (ranges w))%nat ->
  Forall (fun s => page_span P s /\ (span_pages P s <= fuel)%nat)
         (span_of <$> take (vcp_nmemranges (vm_vcp (w_vm w))) (ranges w)) ->
  dump_mem P E fuel w
  = (Ret 0,
     emits ((fun p => E_write (I_page p))
              <$> mem_pages P (w_gmem w)
                    (span_of <$> take (vcp_nmemranges (vm_vcp (w_vm w))) (ranges w)))
           w).
Proof.
  intros Hlen Hall. unfold dump_mem. rewrite bind_get_vcp.
  by rewrite (bind_eq _ _ _ _ _ (dump_mem_loop_ok fuel _ 0 w Hlen Hall)).
Qed.

Lemma restore_vmr_ok fuel vmr src w rest :
  page_span P (span_of vmr) -> (span_pages P (span_of vmr) <= fuel)%nat ->
  w_in w = (I_page <$> dump_pages P (span_pages P (span_of vmr)) (vmr_gpa vmr) 0 src)
           ++ rest ->
  restore_vmr P E fuel vmr w
  = (Ret tt,
     w_with_gmem
       (restore_pages P (dump_pages P (span_pages P (span_of vmr)) (vmr_gpa vmr) 0 src)
                      (vmr_gpa vmr) 0 (w_gmem w))
       (w_with_in rest w)).
Proof.
  intros Hs Hfuel Hin. pose proof (span_size _ Hs) as Hsz.
  destruct Hs as (H1 & H2 & H3 & H4 & H5). cbn in *.
  unfold restore_vmr. rewrite wrap64_small by lia.
  apply (restore_vmr_loop_done P E page_shift); try done;
    by rewrite length_dump_pages.
Qed.

Lemma restore_mem_loop_ok fuel src c : forall from w rest,
  (from + c <= length (ranges w))%nat ->
  Forall (fun s => page_span P s /\ (span_pages P s <= fuel)%nat)
         (span_of <$> take c (drop from (ranges w))) ->
  w_in w = (I_page <$> mem_pages P src (span_of <$> take c (drop from (ranges w))))
           ++ rest ->
  for_loop c from tt (restore_mem_body P E fuel) w
  = (Ret (inl tt),
     w_with_gmem
       (restore_all P src (span_of <$> take c (drop from (ranges w))) (w_gmem w))
       (w_with_in rest w)).
Proof.
  induction c as [|c IH]; intros from w rest Hlen Hall Hin.
  - rewrite take_0 in Hin |- *. change (w_in w = rest) in Hin.
    cbn. rewrite <- Hin. by destruct w.
  - destruct (lookup_lt_is_Some_2 (ranges w) from) as [r Hr]; [lia|].
    rewrite (drop_S _ _ _ Hr) in Hall, Hin |- *.
    cbn [take fmap list_fmap] in Hall, Hin |- *.
    apply Forall_cons in Hall as [[Hs Hf] Hall].
    unfold mem_pages in Hin. cbn [fmap list_fmap concat] in Hin.
    rewrite fmap_app, <- (assoc_L (++)) in Hin.
    cbn [for_loop]. unfold restore_mem_body at 1.
    rewrite bind_assoc, (bind_memrange _ _ _ _ Hr).
    rewrite bind_assoc, (bind_eq _ _ _ _ _ (restore_vmr_ok fuel r src w _ Hs Hf Hin)).
    rewrite bind_ret.
    rewrite (IH _ _ rest); [done| |done|done].
    unfold ranges in *. cbn. lia.
Qed.

(** restore_mem stores the pages of every range, in range order. *)
Lemma restore_mem_ok fuel src w rest :
  (vcp_nmemranges (vm_vcp (w_vm w)) <= length (ranges w))%nat ->
  Forall (fun s => page_span P s /\ (span_pages P s <= fuel)%nat)
         (span_of <$> take (vcp_nmemranges (vm_vcp (w_vm w))) (ranges w)) ->
  w_in w = (I_page <$> mem_pages P src
              (span_of <$> take (vcp_nmemranges (vm_vcp (w_vm w))) (ranges w)))
           ++ rest ->
  restore_mem P E fuel w
  = (Ret tt,
     w_with_gmem
       (restore_all P src
          (span_of <$> take (vcp_nmemranges (vm_vcp (w_vm w))) (ranges w)) (w_gmem w))
       (w_with_in rest w)).
Proof.
  intros Hlen Hall Hin. unfold restore_mem. rewrite bind_get_vcp.
  by rewrite (bind_eq _ _ _ _ _ (restore_mem_loop_ok fuel src _ 0 w rest Hlen Hall Hin)).
Qed.

End MemoryLoops.

Section Steps.

Variable P : platform.
Variable E : environ.
Hypothesis all_ok : forall s, fails E s = None.

Lemma sent_app a b : sent (a ++ b) = sent a ++ sent b.
Proof. apply omap_app. Qed.

Lemma sent_broadcasts (c : nat -> cond) l :
  sent ((fun i => E_broadcast (c i)) <$> l) = [].
Proof. induction l as [|i l IH]; [done|by cbn]. Qed.

Lemma sent_pages (pages : list page) :
  sent ((fun p => E_write (I_page p)) <$> pages) = I_page <$> pages.
Proof. induction pages as [|p l IH]; [done|]. cbn. by f_equal. Qed.

Lemma with_state_same w : with_state (vm_state (w_vm w)) w = w.
Proof. by destruct w as [[[] ?] ? ? ? ? ? ? ?]. Qed.

(** pause_vm and unpause_vm, when no call fails, record events that are
    no writes to the descriptor and change nothing but [vm_state]. *)
Lemma pause_vm_frame w :
  exists evs s, pause_vm P E w = (Ret tt, emits evs (with_state s w))
                /\ sent evs = [].
Proof.
  destruct (has_flag (VM_STATE_PAUSED P) (w_vm w)) eqn:Hp.
  - exists [E_lock vm_mtx; E_unlock vm_mtx], (vm_state (w_vm w)).
    rewrite with_state_same. split; [by apply pause_vm_paused|done].
  - eexists _, _. split; [by apply pause_vm_running|].
    rewrite sent_app, sent_app, sent_broadcasts. done.
Qed.

Lemma unpause_vm_frame w :
  exists evs s, unpause_vm P E w = (Ret tt, emits evs (with_state s w))
                /\ (s = vm_state (w_vm w)
                    \/ s = Z.land (vm_state (w_vm w)) (Z.lnot (VM_STATE_PAUSED P))).
Proof.
  destruct (has_flag (VM_STATE_PAUSED P) (w_vm w)) eqn:Hp.
  - eexists _, _. split; [by apply unpause_vm_paused|by right].
  - exists [E_lock vm_mtx; E_unlock vm_mtx], (vm_state (w_vm w)).
    rewrite with_state_same. split; [|by left].
    unfold unpause_vm.
    rewrite (bind_eq _ _ _ _ _ (mutex_lock_ok E _ w (all_ok _))), bind_get_vm.
    change (w_vm (emits [E_lock vm_mtx] w)) with (w_vm w).
    rewrite Hp. cbn [negb]. rewrite mutex_unlock_ok by done.
    by rewrite emits_emits.
Qed.

(** The received flag survives the stores of unpause_vm. *)
Lemma has_flag_received_kept s vm :
  Z.land (VM_STATE_RECEIVED P) (VM_STATE_PAUSED P) = 0 ->
  has_flag (VM_STATE_RECEIVED P) (vm_with_state s vm) = true ->
  has_flag (VM_STATE_RECEIVED P)
           (vm_with_state (Z.land s (Z.lnot (VM_STATE_PAUSED P))) vm) = true.
Proof.
  intros Hd. unfold has_flag. cbn.
  assert (Heq : Z.land (Z.land s (Z.lnot (VM_STATE_PAUSED P))) (VM_STATE_RECEIVED P)
                = Z.land s (VM_STATE_RECEIVED P)); [|by rewrite Heq].
  apply Z.bits_inj'. intros n Hn.
  rewrite !Z.land_spec, Z.lnot_spec by done.
  apply (f_equal (fun z => Z.testbit z n)) in Hd.
  rewrite Z.land_spec, Z.bits_0 in Hd.
  destruct (Z.testbit s n), (Z.testbit (VM_STATE_PAUSED P) n),
    (Z.testbit (VM_STATE_RECEIVED P) n); done.
Qed.

End Steps.

Section SendOne.

Variable P : platform.
Variable E : environ.
Hypothesis page_shift : 0 <= PAGE_SHIFT P <= 64.
Hypothesis all_ok : forall s, fails E s = None.

Lemma write_fd_ok s it w : write_fd E s it w = (Ret true, emits [E_write it] w).
Proof. unfold write_fd. by rewrite all_ok. Qed.

Lemma dump_record_ok s it w :
  dump_record E s it w = (Ret 0, emits [E_write it] w).
Proof. unfold dump_record. by rewrite (bind_eq _ _ _ _ _ (write_fd_ok s it w)). Qed.

Lemma send_regs_body_ok id i regs w :
  k_regs (w_kern w) !! i = Some regs ->
  send_regs_body P E id i tt w
  = (Ret (inl tt),
     emits [E_readregs i; E_write (I_regs (mk_vrwp id i (VM_RWREGS_ALL P) regs))] w).
Proof.
  intros H. unfold send_regs_body, ioctl_readregs. mstep.
  unfold bind at 1. rewrite all_ok.
  change (k_regs (w_kern (emits [E_readregs i] w))) with (k_regs (w_kern w)).
  rewrite H. rewrite (bind_eq _ _ _ _ _ (write_fd_ok _ _ _)).
  cbn [ret]. by rewrite emits_emits.
Qed.

Lemma send_vmparams_body_ok id i prm w :
  k_vmparams (w_kern w) !! i = Some prm ->
  send_vmparams_body P E id i tt w
  = (Ret (inl tt),
     emits [E_readvmparams i;
            E_write (I_vmparams (mk_vpp id i (VM_RWVMPARAMS_ALL P) prm))] w).
Proof.
  intros H. unfold send_vmparams_body, ioctl_readvmparams. mstep.
  unfold bind at 1. rewrite all_ok.
  change (k_vmparams (w_kern (emits [E_readvmparams i] w)))
    with (k_vmparams (w_kern w)).
  rewrite H. rewrite (bind_eq _ _ _ _ _ (write_fd_ok _ _ _)).
  cbn [ret]. by rewrite emits_emits.
Qed.

(** send_vm for a VM with one VCPU, when no call fails: the records
    written, in order. *)
Lemma send_vm_one_vcpu fuel w regs prm :
  vcp_ncpus (vm_vcp (w_vm w)) = 1%nat ->
  k_regs (w_kern w) !! 0%nat = Some regs ->
  k_vmparams (w_kern w) !! 0%nat = Some prm ->
  (vcp_nmemranges (vm_vcp (w_vm w)) <= length (ranges w))%nat ->
  Forall (fun s => page_span P s /\ (span_pages P s <= fuel)%nat) (vm_spans w) ->
  exists w' vmc,
    send_vm P E fuel w = (Ret 0, w')
    /\ sent (w_trace w')
       = sent (w_trace w)
         ++ [I_header; I_vmc vmc;
             I_regs (mk_vrwp (vcp_id (vm_vcp (w_vm w))) 0 (VM_RWREGS_ALL P) regs)]
         ++ (I_page <$> mem_pages P (w_gmem w) (vm_spans w))
         ++ [I_devs; I_pci; I_virtio;
             I_vmparams (mk_vpp (vcp_id (vm_vcp (w_vm w))) 0
                                (VM_RWVMPARAMS_ALL P) prm)].
Proof.
  intros Hn Hregs Hprm Hlen Hall.
  set (w1 := emits [E_write I_header] w).
  destruct (pause_vm_frame P E all_ok w1) as (evs & s & Hpause & Hsent).
  set (w2 := emits evs (with_state s w1)) in Hpause.
  set (vmc := mk_vmc (vmc_params (vm_params (w_vm w2)))
                     (vmc_ndisks (vm_params (w_vm w2)))
                     (vmc_nnics (vm_params (w_vm w2))) (VMOP_CREATE_MEMORY P)).
  set (id := vcp_id (vm_vcp (w_vm w))).
  set (w3 := emits [E_write (I_vmc vmc)] w2).
  set (w4 := emits [E_readregs 0;
                    E_write (I_regs (mk_vrwp id 0 (VM_RWREGS_ALL P) regs))] w3).
  assert (Hdump := dump_mem_ok P E page_shift all_ok fuel w4 Hlen Hall).
  set (w5 := emits _ w4) in Hdump.
  set (w6 := emits [E_write I_virtio] (emits [E_write I_pci]
               (emits [E_write I_devs] w5))).
  eexists _, vmc. split.
  - unfold send_vm, dump_send_header, dump_devs, pci_dump, virtio_dump.
    rewrite (bind_eq _ _ _ _ _ (dump_record_ok _ _ _)).
    rewrite decide_False by (intros ?; done).
    fold w1. rewrite (bind_eq _ _ _ _ _ Hpause), all_ok. mstep.
    rewrite (bind_eq _ _ _ _ _ (write_fd_ok _ _ _)). cbn [negb].
    change (vm_vcp (w_vm w2)) with (vm_vcp (w_vm w)). fold id.
    rewrite Hn. cbn [for_loop]. mstep.
    rewrite (bind_eq _ _ _ _ _ (send_regs_body_ok id 0 regs w3 Hregs)). mstep.
    fold w4. rewrite (bind_eq _ _ _ _ _ Hdump).
    rewrite decide_False by (intros ?; done).
    rewrite (bind_eq _ _ _ _ _ (dump_record_ok _ _ _)).
    rewrite decide_False by (intros ?; done).
    rewrite (bind_eq _ _ _ _ _ (dump_record_ok _ _ _)).
    rewrite decide_False by (intros ?; done).
    rewrite (bind_eq _ _ _ _ _ (dump_record_ok _ _ _)).
    rewrite decide_False by (intros ?; done). mstep. fold w6.
    rewrite (bind_eq _ _ _ _ _ (send_vmparams_body_ok id 0 prm w6 Hprm)). mstep.
    rewrite all_ok. mstep.
    unfold send_vm_err. mstep. rewrite decide_True by done. mstep.
    reflexivity.
  - cbn [ret]. rewrite !trace_emits. unfold w6. rewrite !trace_emits.
    unfold w5. rewrite trace_emits. unfold w4. rewrite trace_emits.
    unfold w3. rewrite trace_emits. unfold w2. rewrite trace_emits.
    change (w_trace (with_state s w1)) with (w_trace w1).
    unfold w1. rewrite trace_emits.
    rewrite !sent_app, Hsent, sent_pages. cbn [sent omap fmap].
    rewrite <- !(assoc_L (++)). reflexivity.
Qed.

End SendOne.

Section RestoreOne.

Variable P : platform.
Variable E : environ.
Hypothesis page_shift : 0 <= PAGE_SHIFT P <= 64.
Hypothesis all_ok : forall s, fails E s = None.

Lemma vmm_create_vm_ok w :
  ~ invalid_config P (w_vm w) ->
  vmm_create_vm P E w
  = (Ret 0,
     w_with_vm (vm_with_vcp (vcp_with_id (created_id E) (vm_vcp (w_vm w))) (w_vm w))
               (emits [E_create (vm_vcp (w_vm w))] w)).
Proof.
  intros Hv. unfold vmm_create_vm. rewrite bind_get_vm.
  unfold invalid_config in Hv.
  repeat (case_decide; [exfalso; tauto|]).
  by rewrite bind_emit, all_ok.
Qed.

Lemma read_regs_ok r rest w :
  w_in w = I_regs r :: rest -> read_regs w = (Ret (Some r), w_with_in rest w).
Proof. intros H. unfold read_regs, read_fd, bind. by rewrite H. Qed.

Lemma restore_emulated_hw_ok rest w :
  w_in w = I_devs :: I_pci :: I_virtio :: rest ->
  restore_emulated_hw w = (Ret tt, w_with_in rest w).
Proof.
  intros H. unfold restore_emulated_hw. cbn [for_loop].
  unfold read_fd, bind. rewrite H. reflexivity.
Qed.

Lemma restore_vm_params_one q rest w :
  vcp_ncpus (vm_vcp (w_vm w)) = 1%nat ->
  w_in w = I_vmparams q :: rest ->
  exists w', restore_vm_params E w = (Ret 0, w')
    /\ k_vmparams (w_kern w') !! 0%nat = Some (vpp_params q)
    /\ k_regs (w_kern w') = k_regs (w_kern w)
    /\ w_in w' = rest /\ w_gmem w' = w_gmem w /\ w_vm w' = w_vm w.
Proof.
  intros Hn Hin. unfold restore_vm_params. rewrite bind_get_vcp, Hn.
  cbn [for_loop]. unfold restore_vm_params_body, read_vmparams, read_fd,
    ioctl_writevmparams.
  unfold bind. rewrite Hin. cbn. rewrite all_ok. cbn.
  eexists. split; [reflexivity|]. cbn. split; [apply lookup_insert_eq|done].
Qed.

(** run_vm for a received VM with one VCPU: the VCPU is reset and then
    given the registers [vrs]. *)
Lemma run_vm_one vrs w :
  vcp_ncpus (vm_vcp (w_vm w)) = 1%nat ->
  has_flag (VM_STATE_RECEIVED P) (w_vm w) = true ->
  ~ invalid_config P (w_vm w) ->
  exists w', run_vm P E vrs w = (Ret None, w')
    /\ k_regs (w_kern w') !! 0%nat = Some vrs
    /\ k_vmparams (w_kern w') = k_vmparams (w_kern w)
    /\ w_in w' = w_in w /\ w_gmem w' = w_gmem w.
Proof.
  intros Hn Hr Hv. unfold run_vm. rewrite bind_get_vm.
  unfold invalid_config in Hv.
  case_decide; [exfalso; tauto|].
  rewrite all_ok, Hn. cbn [for_loop]. unfold check, ioctl_writeregs, set_regs.
  rewrite !all_ok, Hr. unfold bind. cbn.
  eexists. split; [reflexivity|]. cbn. split; [apply lookup_insert_eq|done].
Qed.

Lemma same_vm_sym w0 w : same_vm w0 w -> same_vm w w0.
Proof. by intros [H1 H2]. Qed.

Lemma vm_spans_same_vm w0 w : same_vm w0 w -> vm_spans w = vm_spans w0.
Proof.
  intros [Hc Hl]. unfold vm_spans.
  assert (Hn : vcp_nmemranges (vm_vcp (w_vm w)) = vcp_nmemranges (vm_vcp (w_vm w0)))
    by (unfold config_of in Hc; congruence).
  rewrite Hn.
  assert (Hs : forall l : list vm_mem_range,
             span_of <$> l = (fun x : Z * Z * mem_type => (x.1.1, x.1.2))
                               <$> (layout_of <$> l)).
  { intros l. rewrite <- list_fmap_compose. by apply list_fmap_ext. }
  rewrite !Hs, !fmap_take. by rewrite Hl.
Qed.

(** start_vm for a received VM with one VCPU, when no call fails and the
    descriptor holds what send_vm writes after the creation parameters. *)
Lemma start_vm_received_one fuel w src r q :
  has_flag (VM_STATE_RECEIVED P) (w_vm w) = true ->
  Z.land (VM_STATE_RECEIVED P) (VM_STATE_PAUSED P) = 0 ->
  vcp_ncpus (vm_vcp (w_vm w)) = 1%nat ->
  ~ invalid_config P (w_vm w) ->
  (vcp_nmemranges (vm_vcp (w_vm w)) <= length (ranges w))%nat ->
  Forall (fun s => page_span P s /\ (span_pages P s <= fuel)%nat) (vm_spans w) ->
  w_in w = I_regs r :: (I_page <$> mem_pages P src (vm_spans w))
             ++ [I_devs; I_pci; I_virtio; I_vmparams q] ->
  exists w', start_vm P E fuel w = (Ret None, w')
    /\ k_regs (w_kern w') !! 0%nat = Some (vrwp_regs r)
    /\ k_vmparams (w_kern w') !! 0%nat = Some (vpp_params q)
    /\ w_gmem w' = restore_all P src (vm_spans w) (w_gmem w)
    /\ w_in w' = [].
Proof.
  intros Hrecv Hbits Hn Hv Hlen Hall Hin.
  (* guest memory *)
  destruct (alloc_guest_mem_ok E w Hlen (fun j _ => all_ok _))
    as (w1 & Ha & _ & Hs1 & _).
  pose proof (frame_alloc_guest_mem E w w (conj eq_refl (conj eq_refl eq_refl)))
    as Hf1. rewrite Ha in Hf1. destruct Hf1 as (Hin1 & Hg1 & Hk1).
  cbn [snd] in Hin1, Hg1, Hk1.
  assert (Hv1 : ~ invalid_config P (w_vm w1)).
  { intros H. apply Hv. by apply (invalid_config_same_vm P w1 w (same_vm_sym _ _ Hs1)). }
  (* the VM in vmm(4) *)
  pose proof (vmm_create_vm_ok w1 Hv1) as Hc. set (w2 := w_with_vm _ _) in Hc.
  set (w3 := emits [E_write_id (vcp_id (vm_vcp (w_vm w2)))] w2).
  assert (Hr3 : read_regs w3
                = (Ret (Some r),
                   w_with_in ((I_page <$> mem_pages P src (vm_spans w))
                              ++ [I_devs; I_pci; I_virtio; I_vmparams q]) w3)).
  { apply read_regs_ok. change (w_in w3) with (w_in w1). by rewrite Hin1. }
  set (w4 := w_with_in _ w3) in Hr3.
  set (w5 := emits [E_lock threadmutex] w4).
  assert (Hsp : vm_spans w5 = vm_spans w).
  { change (vm_spans w5) with (vm_spans w1). by apply vm_spans_same_vm. }
  assert (Hlen5 : (vcp_nmemranges (vm_vcp (w_vm w5)) <= length (ranges w5))%nat).
  { change (ranges w5) with (ranges w1).
    change (vcp_nmemranges (vm_vcp (w_vm w5)))
      with (vcp_nmemranges (vm_vcp (w_vm w1))).
    rewrite (same_vm_length _ _ Hs1).
    destruct Hs1 as [Hc1 _]. unfold config_of in Hc1.
    replace (vcp_nmemranges (vm_vcp (w_vm w1)))
      with (vcp_nmemranges (vm_vcp (w_vm w))) by congruence. done. }
  assert (Hm5 := restore_mem_ok P E page_shift all_ok fuel src w5
                   [I_devs; I_pci; I_virtio; I_vmparams q] Hlen5).
  fold (vm_spans w5) in Hm5. rewrite Hsp in Hm5. specialize (Hm5 Hall eq_refl).
  set (w6 := w_with_gmem _ _) in Hm5.
  assert (Hh6 := restore_emulated_hw_ok [I_vmparams q] w6 eq_refl).
  set (w7 := w_with_in _ w6) in Hh6.
  assert (Hn1 : vcp_ncpus (vm_vcp (w_vm w1)) = 1%nat).
  { destruct Hs1 as [Hc1 _]. unfold config_of in Hc1. congruence. }
  destruct (restore_vm_params_one q [] w7 Hn1 eq_refl)
    as (w8 & Hp8 & Hk8 & Hkr8 & Hin8 & Hg8 & Hvm8).
  destruct (unpause_vm_frame P E all_ok w8) as (evs & s & Hu & Hst).
  set (w9 := emits evs (with_state s w8)) in Hu.
  assert (Hrecv9 : has_flag (VM_STATE_RECEIVED P) (w_vm w9) = true).
  { change (w_vm w9) with (vm_with_state s (w_vm w8)).
    assert (Hr8 : has_flag (VM_STATE_RECEIVED P)
                    (vm_with_state (vm_state (w_vm w8)) (w_vm w8)) = true).
    { rewrite Hvm8. unfold has_flag in *.
      change (vm_state (vm_with_state (vm_state (w_vm w7)) (w_vm w7)))
        with (vm_state (w_vm w1)).
      destruct Hs1 as [Hc1 _]. unfold config_of in Hc1.
      replace (vm_state (w_vm w1)) with (vm_state (w_vm w)) by congruence.
      exact Hrecv. }
    destruct Hst as [-> | ->]; [done|by apply has_flag_received_kept]. }
  destruct (run_vm_one (vrwp_regs r) w9)
    as (w' & Hrun & Hkr & Hkp & Hin' & Hg'); [|done| |].
  { change (w_vm w9) with (vm_with_state s (w_vm w8)). rewrite Hvm8. exact Hn1. }
  { change (w_vm w9) with (vm_with_state s (w_vm w8)). rewrite Hvm8. exact Hv1. }
  exists w'. split.
  - unfold start_vm. rewrite bind_get_vm, Hrecv. mstep.
    rewrite (bind_eq _ _ _ _ _ Ha). rewrite decide_False by (intros ?; done).
    rewrite (bind_eq _ _ _ _ _ Hc). rewrite decide_False by (intros ?; done).
    rewrite !all_ok. mstep. fold w3.
    rewrite (bind_eq _ _ _ _ _ Hr3). unfold check. rewrite !all_ok. mstep.
    rewrite (bind_eq _ _ _ _ _ (mutex_lock_ok E _ _ (all_ok _))). fold w5.
    rewrite !bind_assoc.
    rewrite (bind_eq _ _ _ _ _ Hm5), !bind_assoc, (bind_eq _ _ _ _ _ Hh6).
    rewrite !bind_assoc, (bind_eq _ _ _ _ _ Hp8).
    rewrite decide_False by (intros ?; done).
    rewrite (bind_eq _ _ _ _ _ Hu). exact Hrun.
  - split; [done|]. split; [by rewrite Hkp|].
    split; [|by rewrite Hin'].
    rewrite Hg'. change (w_gmem w9) with (w_gmem w8). rewrite Hg8.
    unfold w7, w6. cbn [w_gmem w_with_in w_with_gmem].
    change (w_gmem w5) with (w_gmem w1). by rewrite Hg1.
Qed.

End RestoreOne.

(** With one VCPU the round trip holds.  A VM whose ranges are whole
    pages is sent without a failing call; a VM process with the same range
    layout that receives the stream ends up with the registers and the VM
    parameters of the sender's VCPU and with the sender's guest memory
    contents on every range. *)
Lemma send_restore_one_vcpu P Es Er fuel ws wr regs prm :
  0 <= PAGE_SHIFT P <= 64 ->
  (forall s, fails Es s = None) -> (forall s, fails Er s = None) ->
  (* the sending VM *)
  vcp_ncpus (vm_vcp (w_vm ws)) = 1%nat ->
  k_regs (w_kern ws) !! 0%nat = Some regs ->
  k_vmparams (w_kern ws) !! 0%nat = Some prm ->
  (vcp_nmemranges (vm_vcp (w_vm ws)) <= length (ranges ws))%nat ->
  Forall (fun s => page_span P s /\ (span_pages P s <= fuel)%nat) (vm_spans ws) ->
  sent (w_trace ws) = [] ->
  (* the receiving VM process *)
  has_flag (VM_STATE_RECEIVED P) (w_vm wr) = true ->
  Z.land (VM_STATE_RECEIVED P) (VM_STATE_PAUSED P) = 0 ->
  vcp_ncpus (vm_vcp (w_vm wr)) = 1%nat ->
  ~ invalid_config P (w_vm wr) ->
  (vcp_nmemranges (vm_vcp (w_vm wr)) <= length (ranges wr))%nat ->
  vm_spans wr = vm_spans ws ->
  exists ws' wr',
    send_vm P Es fuel ws = (Ret 0, ws')
    /\ start_vm P Er fuel (w_with_in (restore_input (w_trace ws')) wr)
       = (Ret None, wr')
    /\ k_regs (w_kern wr') !! 0%nat = Some regs
    /\ k_vmparams (w_kern wr') !! 0%nat = Some prm
    /\ (forall s a, s ∈ vm_spans ws -> s.1 <= a < s.1 + s.2 ->
          w_gmem wr' a = w_gmem ws a).
Proof.
  intros Hshift Hoks Hokr Hn Hregs Hprm Hlen Hall Hsent
         Hrecv Hbits Hnr Hv Hlenr Hspans.
  destruct (send_vm_one_vcpu P Es Hshift Hoks fuel ws regs prm Hn Hregs Hprm Hlen Hall)
    as (ws' & vmc & Hsend & Hstream).
  rewrite Hsent in Hstream. cbn [app] in Hstream.
  set (wr0 := w_with_in (restore_input (w_trace ws')) wr).
  assert (Hall' : Forall (fun s => page_span P s /\ (span_pages P s <= fuel)%nat)
                         (vm_spans wr0)).
  { change (vm_spans wr0) with (vm_spans wr). by rewrite Hspans. }
  destruct (start_vm_received_one P Er Hshift Hokr fuel wr0 (w_gmem ws)
              (mk_vrwp (vcp_id (vm_vcp (w_vm ws))) 0 (VM_RWREGS_ALL P) regs)
              (mk_vpp (vcp_id (vm_vcp (w_vm ws))) 0 (VM_RWVMPARAMS_ALL P) prm)
              Hrecv Hbits Hnr Hv Hlenr Hall')
    as (wr' & Hstart & Hkr & Hkp & Hg & _).
  { unfold wr0. cbn [w_in w_with_in]. unfold restore_input. rewrite Hstream.
    change (vm_spans (w_with_in _ wr)) with (vm_spans wr). by rewrite Hspans. }
  exists ws', wr'. repeat split; try done.
  intros s a Hs Ha. rewrite Hg.
  change (vm_spans wr0) with (vm_spans wr). rewrite Hspans.
  apply (restore_all_agree P Hshift (w_gmem ws) (vm_spans ws)
           (w_gmem wr0) (fun _ => False)).
  - eapply Forall_impl; [exact Hall|]. by intros x [Hx _].
  - by intros x [].
  - right. by exists s.
Qed.

(** The round trip of a VM with one VCPU and two ranges of one page. *)
Lemma send_restore_one_vcpu_example :
  exists ws' wr',
    send_vm amd64 env_ok 1 w_sender1 = (Ret 0, ws')
    /\ start_vm amd64 env_ok 1
         (w_with_in (restore_input (w_trace ws')) w_receiver1)
       = (Ret None, wr')
    /\ k_regs (w_kern wr') !! 0%nat = Some [11; 12]
    /\ k_vmparams (w_kern wr') !! 0%nat = Some [100]
    /\ w_gmem wr' 1048577 = 1048577 mod 251.
Proof.
  destruct (send_restore_one_vcpu amd64 env_ok env_ok 1 w_sender1 w_receiver1
              [11; 12] [100])
    as (ws' & wr' & Hs & Hr & Hregs & Hprm & Hmem).
  - cbn. lia.
  - intros s. reflexivity.
  - intros s. reflexivity.
  - reflexivity.
  - reflexivity.
  - reflexivity.
  - cbn. lia.
  - repeat constructor; cbn; try lia; reflexivity.
  - reflexivity.
  - reflexivity.
  - reflexivity.
  - reflexivity.
  - unfold invalid_config. cbn. lia.
  - cbn. lia.
  - reflexivity.
  - exists ws', wr'.
    split; [exact Hs|]. split; [exact Hr|]. split; [exact Hregs|].
    split; [exact Hprm|].
    apply (Hmem (1048576, 4096)); [|cbn; lia].
    apply list_elem_of_further, list_elem_of_here.
Qed.

(** ** Send followed by restore, two VCPUs *)


(** C2, at the failing input.  send_vm writes one register record for
    each of the two VCPUs.  The receiving side reads one record: after the
    read in start_vm the record of VCPU 1 is still the next item of the
    stream, and run_vm writes the registers of the record it was given, the
    one of VCPU 0, to VCPU 0 and to VCPU 1. *)
Theorem restore_reads_one_register_record :
  let input := restore_input (w_trace (send_vm amd64 env_ok 4 w_sender2).2) in
  let r0 := mk_vrwp 3 0 31 [11; 12] in
  let r1 := mk_vrwp 3 1 31 [21; 22] in
  take 2 input = [I_regs r0; I_regs r1]
  /\ (read_regs (w_receiver2 input)).1 = Ret (Some r0)
  /\ head (w_in (read_regs (w_receiver2 input)).2) = Some (I_regs r1)
  /\ (run_vm amd64 env_ok (vrwp_regs r0) (w_receiver2 [])).1 = Ret None
  /\ k_regs (w_kern (run_vm amd64 env_ok (vrwp_regs r0) (w_receiver2 [])).2)
       !! 0%nat = Some [11; 12]
  /\ k_regs (w_kern (run_vm amd64 env_ok (vrwp_regs r0) (w_receiver2 [])).2)
       !! 1%nat = Some [11; 12]
  /\ k_regs (w_kern w_sender2) !! 1%nat = Some [21; 22].
Proof. repeat split; vm_compute; reflexivity. Qed.

(** ** The statements at concrete inputs *)

(** Three ranges, the mapping of the second fails with ENOMEM and the data
    limit can be read: no mapping is left and start_vm ends in fatalx. *)
Lemma alloc_guest_mem_failure_leaves_no_mapping_witness :
  (exists w1,
      alloc_guest_mem (env_failing [s_alloc_mmap 1] ENOMEM) w_three
      = (Ret 12, w1) /\ w_maps w1 = [])
  /\ (exists w',
      start_vm amd64 (env_failing [s_alloc_mmap 1] ENOMEM) 0 w_three = (Fatal, w')
      /\ w_maps w' = []).
Proof.
  destruct (alloc_guest_mem_failure_leaves_no_mapping amd64
              (env_failing [s_alloc_mmap 1] ENOMEM) 0 w_three 1 ENOMEM)
    as [(w1 & H1 & _ & Hm1) (w' & H2 & Hm2 & _)].
  - vm_compute. lia.
  - vm_compute. lia.
  - intros j Hj. assert (j = 0)%nat as -> by lia. reflexivity.
  - reflexivity.
  - split; [exists w1|exists w']; split; assumption.
Defined.

(** The allocator maps the MMIO range as well. *)
Lemma alloc_guest_mem_backs_mmio_range :
  ~ (forall E w w',
       alloc_guest_mem E w = (Ret 0, w') ->
       forall i r, ranges w' !! i = Some r -> vmr_type r = VM_MEM_MMIO ->
                   vmr_va r = 0 /\ (forall size, (vmr_va r, size) ∉ w_maps w')).
Proof.
  intros H.
  destruct (H env_ok w_mmio (alloc_guest_mem env_ok w_mmio).2 eq_refl 1%nat
              (mk_vmr 4096 2097152 4096 VM_MEM_MMIO) eq_refl eq_refl) as [Hva _].
  discriminate Hva.
Qed.

Lemma alloc_maps_every_range_remap_unsets_mmio_witness :
  (exists w', alloc_guest_mem env_ok w_mmio = (Ret 0, w')
     /\ forall j r, (j < 2)%nat -> ranges w' !! j = Some r ->
          vmr_va r <> 0 /\ (vmr_va r, vmr_size r) ∈ w_maps w')
  /\ (exists r', ranges (remap_guest_mem amd64 env_ok false w_mmio).2 !! 1%nat
                 = Some r' /\ vmr_va r' = 0).
Proof.
  destruct (alloc_maps_every_range_remap_unsets_mmio amd64 env_ok w_mmio)
    as [Ha Hr].
  split.
  - apply Ha.
    + vm_compute. lia.
    + intros j Hj. reflexivity.
  - apply (Hr 1%nat (mk_vmr 4096 0 4096 VM_MEM_MMIO)).
    + vm_compute. lia.
    + vm_compute. lia.
    + reflexivity.
    + reflexivity.
    + intros j Hj. reflexivity.
Defined.

(** pause_vm on a running and on a paused VM with two VCPUs. *)
Lemma pause_vm_sequence_witness :
  pause_vm amd64 env_ok w_paused
  = (Ret tt, emits [E_lock vm_mtx; E_unlock vm_mtx] w_paused)
  /\ pause_vm amd64 env_ok w_sender2
     = (Ret tt,
        emits [E_lock vm_mtx; E_set_state 8; E_unlock vm_mtx; E_barrier_init 3;
               E_broadcast (vcpu_run_cond 0); E_broadcast (vcpu_run_cond 1);
               E_barrier_wait; E_barrier_destroy; E_pause_md]
              (with_state 8 w_sender2)).
Proof.
  split.
  - apply (pause_vm_sequence amd64 env_ok w_paused); reflexivity.
  - apply (pause_vm_sequence amd64 env_ok w_sender2); reflexivity.
Defined.

(** A configuration with 65 VCPUs is refused with EINVAL only after its
    guest memory has been mapped. *)
Lemma start_vm_validates_after_allocation :
  ~ (forall P E fuel w,
       invalid_config P (w_vm (start_world P E w)) ->
       forall size va, E_mmap size va ∉ w_trace (start_vm P E fuel w).2).
Proof.
  intros H.
  apply (H amd64 env_ok 0%nat w_too_many_cpus) with (size := 4096) (va := 1048576).
  - left. vm_compute. lia.
  - vm_compute. apply list_elem_of_here.
Qed.

Lemma start_vm_invalid_config_creates_no_vm_witness :
  no_create (w_trace (start_vm amd64 env_ok 0 w_too_many_cpus).2)
  /\ (start_vm amd64 env_ok 0 w_too_many_cpus).1 = Ret (Some 22).
Proof.
  destruct (start_vm_invalid_config_creates_no_vm amd64 env_ok 0 w_too_many_cpus)
    as (Hn & _ & _ & He).
  - left. vm_compute. lia.
  - intros c Hc. by apply elem_of_nil in Hc.
  - split; [exact Hn|]. apply (He (alloc_guest_mem env_ok w_too_many_cpus).2).
    reflexivity.
Defined.

Lemma send_vm_header_failure_reports_success_witness :
  (send_vm amd64 (env_failing [s_header] EIO) 1 w_sender2).1 = Ret 0
  /\ (dispatch_send_vm_request amd64 (env_failing [s_header] EIO) 1 w_sender2).1
     = Exit 0.
Proof.
  destruct (send_vm_header_failure_reports_success amd64
              (env_failing [s_header] EIO) 1 w_sender2 EIO eq_refl) as [H1 H2].
  by rewrite H1, H2.
Defined.

(** A paused VM stays paused when the header cannot be written. *)
Lemma send_vm_header_failure_skips_unpause_witness :
  exists w', send_vm amd64 (env_failing [s_header] EIO) 1 w_paused = (Ret 0, w')
             /\ has_flag 8 (w_vm w') = true.
Proof.
  destruct (send_vm_header_failure_skips_unpause amd64
              (env_failing [s_header] EIO) 1 w_paused EIO eq_refl)
    as [(w' & H1 & Hvm & _) _].
  exists w'. split; [exact H1|]. by rewrite Hvm.
Defined.

Lemma vcpu_run_loop_lock_failure_skips_done_witness :
  (vcpu_run_loop (env_failing [s_lock_run_mtx 0] EINVAL) 1 0 w_sender2).1 = Ret 22
  /\ w_done (vcpu_run_loop (env_failing [s_lock_run_mtx 0] EINVAL) 1 0 w_sender2).2
     = ∅.
Proof.
  destruct (vcpu_run_loop_lock_failure_skips_done
              (env_failing [s_lock_run_mtx 0] EINVAL) 0 0 w_sender2 EINVAL eq_refl)
    as [H1 H2].
  split; [by rewrite H1|exact H2].
Defined.


(** * Further properties of the VM process *)

(** ** Computations that have returned *)

Lemma bind_ret_inv {A B} (m : M A) (f : A -> M B) w b w' :
  bind m f w = (Ret b, w') ->
  exists a w1, m w = (Ret a, w1) /\ f a w1 = (Ret b, w').
Proof.
  unfold bind. destruct (m w) as [[a| | | | |] w1]; cbn; try discriminate.
  eauto.
Qed.

Lemma bind_not_ret {A B} (m : M A) (f : A -> M B) w :
  (forall a w1 b, (f a w1).1 <> Ret b) -> forall b, (bind m f w).1 <> Ret b.
Proof.
  intros Hf b. unfold bind.
  destruct (m w) as [[a| | | | |] w1]; cbn; [apply Hf|done..].
Qed.

(** The value with which a loop has left its function is one with which
    some iteration has left it. *)
Lemma for_loop_inr_inv {S R} (Q : R -> Prop) (body : nat -> S -> M (S + R)) :
  (forall i s w x w', body i s w = (Ret (inr x), w') -> Q x) ->
  forall c from s w x w', for_loop c from s body w = (Ret (inr x), w') -> Q x.
Proof.
  intros Hb c. induction c as [|c IH]; intros from s w x w' H; cbn in H.
  - discriminate.
  - apply bind_ret_inv in H as (r & w1 & Hr & Hk). destruct r as [s'|y].
    + eauto.
    + cbn in Hk. injection Hk as <- _. eauto.
Qed.

Lemma emit_inv e w (u : unit) w' : emit e w = (Ret u, w') -> w' = emits [e] w.
Proof. rewrite emit_eq. by intros [= <-]. Qed.

Lemma keeps_emit_trace I e :
  (forall w evs, I w -> I (emits evs w)) -> keeps I (emit e).
Proof. intros H w Hw. by apply H. Qed.

Lemma keeps_eq {A} I (m : M A) w o w' : keeps I m -> I w -> m w = (o, w') -> I w'.
Proof. intros H Hw Hm. specialize (H w Hw). by rewrite Hm in H. Qed.

Section Locks.

Variable E : environ.

Lemma mutex_lock_inv m w u w' :
  mutex_lock E m w = (Ret u, w') ->
  fails E (s_mutex_lock m) = None /\ w' = emits [E_lock m] w.
Proof.
  unfold mutex_lock. rewrite bind_emit.
  destruct (fails E (s_mutex_lock m)); [discriminate|]. by intros [= <-].
Qed.

Lemma mutex_unlock_inv m w u w' :
  mutex_unlock E m w = (Ret u, w') ->
  fails E (s_mutex_unlock m) = None /\ w' = emits [E_unlock m] w.
Proof.
  unfold mutex_unlock. rewrite bind_emit.
  destruct (fails E (s_mutex_unlock m)); [discriminate|]. by intros [= <-].
Qed.

(** The wrappers change nothing but the trace, whatever they end in. *)
Lemma keeps_mutex_lock I m :
  (forall w evs, I w -> I (emits evs w)) -> keeps I (mutex_lock E m).
Proof.
  intros H w Hw. unfold mutex_lock. rewrite bind_emit.
  destruct (fails E (s_mutex_lock m)); [rewrite bind_emit|];
    unfold halt_with, ret; cbn [snd]; repeat apply H; done.
Qed.

Lemma keeps_mutex_unlock I m :
  (forall w evs, I w -> I (emits evs w)) -> keeps I (mutex_unlock E m).
Proof.
  intros H w Hw. unfold mutex_unlock. rewrite bind_emit.
  destruct (fails E (s_mutex_unlock m)); [rewrite bind_emit|];
    unfold halt_with, ret; cbn [snd]; repeat apply H; done.
Qed.

Lemma keeps_broadcast_loop I c s msg :
  (forall w evs, I w -> I (emits evs w)) ->
  forall n from, keeps I (for_loop n from tt (broadcast_body E c s msg)).
Proof.
  intros H n from. apply keeps_for_loop. intros i []. unfold broadcast_body.
  apply keeps_bind; [by apply keeps_emit_trace|]. intros _.
  destruct (fails E (s i)); [|apply keeps_ret].
  apply keeps_bind; [by apply keeps_emit_trace|]. intros _. apply keeps_ret.
Qed.

End Locks.

(** The allocator records mmap and munmap events only: an invariant that
    these events, stores to the list of mappings and stores to the address
    of a range keep is kept by alloc_guest_mem, whatever happens in it. *)
Section AllocEvents.

Variable E : environ.
Variable I : world -> Prop.
Hypothesis I_maps : forall w m, I w -> I (w_with_maps m w).
Hypothesis I_emit : forall w e, is_mem_event e = true -> I w -> I (emits [e] w).
Hypothesis I_va : forall w i va r,
  I w -> ranges w !! i = Some r ->
  I (w_with_vm (vm_with_vcp
       (vcp_with_memranges (<[i := vmr_with_va va r]> (ranges w)) (vm_vcp (w_vm w)))
       (w_vm w)) w).

Lemma mem_keeps_emit e : is_mem_event e = true -> keeps I (emit e).
Proof. intros He w Hw. by apply I_emit. Qed.

Lemma mem_keeps_memrange i : keeps I (memrange i).
Proof. intros w H. unfold memrange. by destruct (_ !! i). Qed.

Lemma mem_keeps_set_va i va : keeps I (set_memrange_va i va).
Proof.
  intros w Hw. unfold set_memrange_va. fold (ranges w).
  destruct (ranges w !! i) as [r|] eqn:Hr; [|done]. by apply I_va.
Qed.

Lemma mem_keeps_mmap s size : keeps I (mmap E s size).
Proof.
  unfold mmap. destruct (fails E s).
  - apply keeps_bind; [by apply mem_keeps_emit|intros; apply keeps_ret].
  - apply keeps_bind; [by intros w Hw; apply I_maps|intros].
    apply keeps_bind; [by apply mem_keeps_emit|intros; apply keeps_ret].
Qed.

Lemma mem_keeps_munmap va size : keeps I (munmap va size).
Proof.
  unfold munmap. apply keeps_bind; [by intros w Hw; apply I_maps|intros].
  by apply mem_keeps_emit.
Qed.

Lemma mem_keeps_unmap_ranges i : keeps I (unmap_ranges i).
Proof.
  apply keeps_for_loop. intros j s. unfold unmap_body.
  apply keeps_bind; [apply mem_keeps_memrange|intros].
  apply keeps_bind; [apply mem_keeps_munmap|intros; apply keeps_ret].
Qed.

Lemma mem_keeps_alloc_guest_mem : keeps I (alloc_guest_mem E).
Proof.
  unfold alloc_guest_mem.
  apply keeps_bind; [by intros w|intros vcp].
  apply keeps_bind.
  - apply keeps_for_loop. intros i s. unfold alloc_body.
    apply keeps_bind; [apply mem_keeps_memrange|intros vmr].
    apply keeps_bind; [apply mem_keeps_mmap|intros [e|va]].
    + apply keeps_bind; [apply mem_keeps_unmap_ranges|intros; apply keeps_ret].
    + apply keeps_bind; [apply mem_keeps_set_va|intros; apply keeps_ret].
  - intros [?|?]; apply keeps_ret.
Qed.

End AllocEvents.

(** A projection of the trace that does not see mmap and munmap events is
    the same before and after alloc_guest_mem. *)
Lemma alloc_guest_mem_omap {A} E (f : event -> option A) w :
  (forall e, is_mem_event e = true -> f e = None) ->
  omap f (w_trace (alloc_guest_mem E w).2) = omap f (w_trace w).
Proof.
  intros Hf.
  apply (mem_keeps_alloc_guest_mem E
           (fun x => omap f (w_trace x) = omap f (w_trace w))); try done.
  intros w0 e He H0. rewrite trace_emits, omap_app, H0. cbn.
  rewrite (Hf e He). apply (right_id_L [] (++)).
Qed.


(** ** send_vm: what every return has in common *)

Section SendReturns.

Variable P : platform.
Variable E : environ.

(** pause_vm and unpause_vm touch [vm_state] and the trace only. *)
Lemma keeps_set_vm_state I s :
  (forall w evs, I w -> I (emits evs w)) ->
  (forall w z, I w -> I (with_state z w)) ->
  keeps I (set_vm_state s).
Proof.
  intros He Hs w Hw. unfold set_vm_state. rewrite bind_modify.
  apply He. by apply (Hs w s).
Qed.

Lemma keeps_unpause_vm I :
  (forall w evs, I w -> I (emits evs w)) ->
  (forall w z, I w -> I (with_state z w)) ->
  keeps I (unpause_vm P E).
Proof.
  intros He Hs. unfold unpause_vm.
  apply keeps_bind; [by apply keeps_mutex_lock|]. intros _.
  apply keeps_bind; [by intros w|]. intros vm.
  destruct (negb _); [by apply keeps_mutex_unlock|].
  apply keeps_bind; [by apply keeps_set_vm_state|]. intros _.
  apply keeps_bind; [by apply keeps_mutex_unlock|]. intros _.
  apply keeps_bind; [by apply keeps_broadcast_loop|]. intros [|].
  - by apply keeps_emit_trace.
  - apply keeps_ret.
Qed.

Lemma keeps_pause_vm I :
  (forall w evs, I w -> I (emits evs w)) ->
  (forall w z, I w -> I (with_state z w)) ->
  keeps I (pause_vm P E).
Proof.
  intros He Hs. unfold pause_vm.
  apply keeps_bind; [by apply keeps_mutex_lock|]. intros _.
  apply keeps_bind; [by intros w|]. intros vm.
  destruct (has_flag _ _); [by apply keeps_mutex_unlock|].
  apply keeps_bind; [by apply keeps_set_vm_state|]. intros _.
  apply keeps_bind; [by apply keeps_mutex_unlock|]. intros _.
  apply keeps_bind; [by apply keeps_emit_trace|]. intros _.
  destruct (fails E s_barrier_init); [by apply keeps_emit_trace|].
  apply keeps_bind; [by apply keeps_broadcast_loop|]. intros [|]; [|apply keeps_ret].
  apply keeps_bind; [by apply keeps_emit_trace|]. intros _.
  destruct (fails E s_barrier_wait); [by apply keeps_emit_trace|].
  apply keeps_bind; [by apply keeps_emit_trace|]. intros _.
  destruct (fails E s_barrier_destroy); by apply keeps_emit_trace.
Qed.

(** When unpause_vm returns, the VM is not marked paused. *)
Lemma unpause_vm_inv w u w' :
  unpause_vm P E w = (Ret u, w') ->
  has_flag (VM_STATE_PAUSED P) (w_vm w') = false.
Proof.
  unfold unpause_vm. intros H.
  apply bind_ret_inv in H as ([] & w1 & Hl & H).
  apply mutex_lock_inv in Hl as [_ ->].
  rewrite bind_get_vm in H. change (w_vm (emits _ w)) with (w_vm w) in H.
  destruct (has_flag (VM_STATE_PAUSED P) (w_vm w)) eqn:Hp; cbn [negb] in H.
  - apply bind_ret_inv in H as ([] & w2 & Hs & H).
    unfold set_vm_state in Hs. rewrite bind_modify in Hs.
    apply emit_inv in Hs. subst w2.
    apply bind_ret_inv in H as ([] & w3 & Hu & H).
    apply mutex_unlock_inv in Hu as [_ ->].
    apply bind_ret_inv in H as (r & w4 & Hloop & H).
    set (s := Z.land (vm_state (w_vm w)) (Z.lnot (VM_STATE_PAUSED P))) in *.
    assert (Hvm : w_vm w4 = vm_with_state s (w_vm w)).
    { refine (keeps_eq (fun x => w_vm x = vm_with_state s (w_vm w))
                       _ _ _ _ _ _ Hloop); [|reflexivity].
      by apply keeps_broadcast_loop. }
    assert (Hvm' : w_vm w' = w_vm w4).
    { destruct r; [apply emit_inv in H; by subst w'|].
      unfold ret in H. by injection H as _ <-. }
    rewrite Hvm', Hvm. apply has_flag_clear.
  - apply mutex_unlock_inv in H as [_ ->]. exact Hp.
Qed.

(** The code after the label err. *)
Lemma send_vm_err_inv x w r w' :
  send_vm_err P E x w = (Ret r, w') ->
  r = x /\ E_close ∈ w_trace w'
  /\ (x <> 0 -> has_flag (VM_STATE_PAUSED P) (w_vm w') = false).
Proof.
  unfold send_vm_err. rewrite bind_emit. intros H.
  apply bind_ret_inv in H as ([] & w1 & Hu & H). injection H as <- <-.
  assert (Hin : E_close ∈ w_trace (emits [E_close] w)).
  { rewrite trace_emits. apply elem_of_app. right. by apply list_elem_of_singleton. }
  split; [done|]. case_decide as Hx.
  - injection Hu as <-. split; [done|]. by intros ?.
  - split; [|by intros _; apply (unpause_vm_inv _ _ _ Hu)].
    assert (Hk : keeps (fun x => E_close ∈ w_trace x) (unpause_vm P E)).
    { apply keeps_unpause_vm; [|by intros].
      intros w0 evs H0. rewrite trace_emits. apply elem_of_app. by left. }
    apply (keeps_eq _ _ _ _ _ Hk Hin Hu).
Qed.

End SendReturns.

Section SendResult.

Variable P : platform.
Variable E : environ.

Lemma write_fd_inv s it w ok w' :
  write_fd E s it w = (Ret ok, w') ->
  (ok = true /\ fails E s = None /\ w' = emits [E_write it] w)
  \/ (ok = false /\ w' = w).
Proof.
  unfold write_fd. destruct (fails E s).
  - intros [= <- <-]. by right.
  - rewrite bind_emit. intros [= <- <-]. by left.
Qed.

Lemma dump_record_inv s it w r w' :
  dump_record E s it w = (Ret r, w') -> r = 0 \/ r = -1.
Proof.
  unfold dump_record. intros H.
  apply bind_ret_inv in H as ([|] & w1 & _ & H); injection H as <- _; auto.
Qed.

Lemma dump_vmr_loop_inv vmr fuel : forall rem read w r w',
  dump_vmr_loop P E fuel vmr rem read w = (Ret r, w') -> r = 0 \/ r = -1.
Proof.
  induction fuel as [|fuel IH]; intros rem read w r w'; cbn [dump_vmr_loop];
    case_decide; try (intros [= <- _]; by left).
  intros Hr. apply bind_ret_inv in Hr as ([buf|] & w1 & _ & Hr).
  - apply bind_ret_inv in Hr as ([|] & w2 & _ & Hr); [by eapply IH|].
    rewrite bind_emit in Hr. injection Hr as <- _. by right.
  - rewrite bind_emit in Hr. injection Hr as <- _. by right.
Qed.

Lemma dump_mem_inv fuel w r w' :
  dump_mem P E fuel w = (Ret r, w') -> r = 0 \/ r = -1.
Proof.
  unfold dump_mem. rewrite bind_get_vcp. intros H.
  apply bind_ret_inv in H as ([[]|e] & w1 & Hloop & H); injection H as <- _;
    [by left|right].
  revert Hloop. apply (for_loop_inr_inv (fun x => x = -1)).
  clear. intros i [] w x w' H.
  unfold dump_mem_body in H.
  apply bind_ret_inv in H as (vmr & w1 & _ & H).
  apply bind_ret_inv in H as (r & w2 & Hd & H).
  case_decide as Hr; [discriminate|]. injection H as <- _.
  destruct (dump_vmr_loop_inv _ _ _ _ _ _ _ Hd); done.
Qed.

Lemma send_regs_body_inr id i w x w' :
  send_regs_body P E id i tt w = (Ret (inr x), w') -> x = -1.
Proof.
  unfold send_regs_body. intros H.
  apply bind_ret_inv in H as ([regs|] & w1 & _ & H).
  - apply bind_ret_inv in H as ([|] & w2 & _ & H); [discriminate|].
    rewrite bind_emit in H. by injection H as <- _.
  - rewrite bind_emit in H. by injection H as <- _.
Qed.

Lemma send_vmparams_body_inr id i w x w' :
  send_vmparams_body P E id i tt w = (Ret (inr x), w') -> x = -1.
Proof.
  unfold send_vmparams_body. intros H.
  apply bind_ret_inv in H as ([prm|] & w1 & _ & H).
  - apply bind_ret_inv in H as ([|] & w2 & _ & H); [discriminate|].
    rewrite bind_emit in H. by injection H as <- _.
  - rewrite bind_emit in H. by injection H as <- _.
Qed.

(** Every return of send_vm goes through the label err, with 0 or -1. *)
Lemma send_vm_ends_in_err fuel w r w' :
  send_vm P E fuel w = (Ret r, w') ->
  exists x w1, send_vm_err P E x w1 = (Ret r, w') /\ (x = 0 \/ x = -1).
Proof.
  unfold send_vm, dump_send_header, dump_devs, pci_dump, virtio_dump. intros H.
  apply bind_ret_inv in H as (h & w1 & _ & H).
  case_decide; [rewrite bind_emit in H; eauto|].
  apply bind_ret_inv in H as ([] & w2 & _ & H).
  destruct (fails E s_calloc); [rewrite bind_emit in H; eauto|].
  rewrite bind_get_vm in H.
  apply bind_ret_inv in H as (ok & w3 & _ & H).
  destruct ok; cbn [negb] in H; [|eauto].
  apply bind_ret_inv in H as ([[]|e] & w4 & Hl & H).
  2:{ exists e, w4. split; [done|right].
      revert Hl. apply (for_loop_inr_inv (fun x => x = -1)).
      intros i [] ???. apply send_regs_body_inr. }
  apply bind_ret_inv in H as (r1 & w5 & Hd & H).
  case_decide; [exists r1, w5; split; [done|by eapply dump_mem_inv]|].
  apply bind_ret_inv in H as (r2 & w6 & Hd2 & H).
  case_decide; [exists r2, w6; split; [done|by eapply dump_record_inv]|].
  apply bind_ret_inv in H as (r3 & w7 & Hd3 & H).
  case_decide; [exists r3, w7; split; [done|by eapply dump_record_inv]|].
  apply bind_ret_inv in H as (r4 & w8 & Hd4 & H).
  case_decide; [exists r4, w8; split; [done|by eapply dump_record_inv]|].
  apply bind_ret_inv in H as ([[]|e] & w9 & Hl2 & H).
  2:{ exists e, w9. split; [done|right].
      revert Hl2. apply (for_loop_inr_inv (fun x => x = -1)).
      intros i [] ???. apply send_vmparams_body_inr. }
  rewrite bind_emit in H.
  apply bind_ret_inv in H as ([] & w10 & _ & H). eauto.
Qed.

End SendResult.

(** send_vm returns 0 or -1.  Whenever it returns -1, whichever step has
    failed, it has closed the descriptor and has gone through unpause_vm:
    the VM is not marked paused, also when it was paused before the request
    arrived. *)
Theorem send_vm_failure_leaves_vm_unpaused P E fuel w r w' :
  send_vm P E fuel w = (Ret r, w') -> r <> 0 ->
  r = -1
  /\ has_flag (VM_STATE_PAUSED P) (w_vm w') = false
  /\ E_close ∈ w_trace w'.
Proof.
  intros H Hr.
  apply send_vm_ends_in_err in H as (x & w1 & H & Hx).
  apply send_vm_err_inv in H as (-> & Hc & Hp).
  destruct Hx as [->| ->]; [done|]. auto.
Qed.

(** A failed calloc in send_vm on a VM that was paused before. *)
Lemma send_vm_failure_leaves_vm_unpaused_witness :
  (send_vm amd64 (env_failing [s_calloc] ENOMEM) 1 w_paused).1 = Ret (-1)
  /\ has_flag 8 (w_vm w_paused) = true
  /\ has_flag 8 (w_vm (send_vm amd64 (env_failing [s_calloc] ENOMEM) 1 w_paused).2)
     = false.
Proof.
  destruct (send_vm_failure_leaves_vm_unpaused amd64
              (env_failing [s_calloc] ENOMEM) 1 w_paused (-1)
              (send_vm amd64 (env_failing [s_calloc] ENOMEM) 1 w_paused).2)
    as (_ & Hp & _).
  - vm_compute. reflexivity.
  - discriminate.
  - split; [vm_compute; reflexivity|]. split; [reflexivity|exact Hp].
Defined.

(** ** send_vm: the layout of the stream *)

Section SendMany.

Variable P : platform.
Variable E : environ.
Hypothesis page_shift : 0 <= PAGE_SHIFT P <= 64.
Hypothesis all_ok : forall s, fails E s = None.





End SendMany.


(** ** restore_vm_params: the records of the stream, in order *)

Section RestoreParams.

Variable E : environ.

Lemma vmparams_written_app a b :
  vmparams_written (a ++ b) = vmparams_written a ++ vmparams_written b.
Proof. apply omap_app. Qed.

Lemma read_vmparams_ok q rest w :
  w_in w = I_vmparams q :: rest ->
  read_vmparams w = (Ret (Some q), w_with_in rest w).
Proof. intros H. unfold read_vmparams, read_fd, bind. by rewrite H. Qed.

Lemma read_vmparams_end w :
  w_in w = [] -> read_vmparams w = (Ret None, w).
Proof. intros H. unfold read_vmparams, read_fd, bind. by rewrite H. Qed.

Lemma restore_vm_params_body_ok id i q rest w :
  fails E (s_writevmparams i) = None ->
  w_in w = I_vmparams q :: rest ->
  restore_vm_params_body E id i tt w
  = (Ret (inl tt),
     w_with_kern (mk_kernel (k_regs (w_kern w))
                            (<[i := vpp_params q]> (k_vmparams (w_kern w))))
       (emits [E_writevmparams (mk_vpp id i (vpp_mask q) (vpp_params q))]
              (w_with_in rest w))).
Proof.
  intros Hok Hin. unfold restore_vm_params_body.
  rewrite (bind_eq _ _ _ _ _ (read_vmparams_ok q _ w Hin)).
  unfold ioctl_writevmparams. mstep. cbn [vpp_vcpu_id]. rewrite Hok. mstep.
  reflexivity.
Qed.

Lemma restore_vm_params_loop_ok id qs : forall from w rest,
  (forall i, (from <= i < from + length qs)%nat ->
             fails E (s_writevmparams i) = None) ->
  w_in w = (I_vmparams <$> qs) ++ rest ->
  exists w',
    for_loop (length qs) from tt (restore_vm_params_body E id) w
    = (Ret (inl tt), w')
    /\ w_in w' = rest
    /\ (forall k q, qs !! k = Some q ->
          k_vmparams (w_kern w') !! (from + k)%nat = Some (vpp_params q))
    /\ (forall j, ~ (from <= j < from + length qs)%nat ->
          k_vmparams (w_kern w') !! j = k_vmparams (w_kern w) !! j)
    /\ vmparams_written (w_trace w')
       = vmparams_written (w_trace w)
         ++ imap (fun k q => mk_vpp id (from + k) (vpp_mask q) (vpp_params q)) qs
    /\ k_regs (w_kern w') = k_regs (w_kern w)
    /\ w_gmem w' = w_gmem w /\ w_vm w' = w_vm w /\ w_maps w' = w_maps w
    /\ (forall A (f : event -> option A),
          (forall p, f (E_writevmparams p) = None) ->
          omap f (w_trace w') = omap f (w_trace w)).
Proof.
  induction qs as [|q qs IH]; intros from w rest Hok Hin.
  - exists w. cbn. rewrite (right_id_L [] (++)). repeat split; try done.
  - cbn [length for_loop].
    rewrite (bind_eq _ _ _ _ _
               (restore_vm_params_body_ok id from q _ w
                  (Hok from ltac:(cbn; lia)) Hin)).
    set (w1 := w_with_kern _ _).
    destruct (IH (S from) w1 rest)
      as (w' & Hl & Hin' & Hk & Hfr & Hev & Hr & Hg & Hv & Hm & Hf).
    { intros i Hi. apply Hok. cbn. lia. }
    { reflexivity. }
    exists w'. split; [exact Hl|]. split; [exact Hin'|].
    split; [|split; [|split; [|split; [done|split; [done|split; [done|split;
      [done|]]]]]]].
    4:{ intros A f Hfp. rewrite (Hf A f Hfp). unfold w1.
        change (w_trace (w_with_kern _ _)) with
          (w_trace w ++ [E_writevmparams (mk_vpp id from (vpp_mask q) (vpp_params q))]).
        rewrite omap_app. cbn. rewrite Hfp. apply (right_id_L [] (++)). }
    + intros [|k] q' Hq'.
      * injection Hq' as <-. rewrite Nat.add_0_r, Hfr by lia.
        apply lookup_insert_eq.
      * replace (from + S k)%nat with (S from + k)%nat by lia. by apply Hk.
    + intros j Hj. cbn [length] in Hj. rewrite Hfr by lia.
      apply lookup_insert_ne. lia.
    + rewrite Hev. unfold w1. cbn [imap].
      change (w_trace (w_with_kern _ _)) with
        (w_trace w ++ [E_writevmparams (mk_vpp id from (vpp_mask q) (vpp_params q))]).
      rewrite vmparams_written_app, Nat.add_0_r. cbn [vmparams_written omap].
      rewrite <- (assoc_L (++)). f_equal. cbn. f_equal.
      apply imap_ext. intros k q' _. cbn. f_equal. lia.
Qed.

End RestoreParams.

Lemma restore_vm_params_ok E w qs rest :
  length qs = vcp_ncpus (vm_vcp (w_vm w)) ->
  (forall i, (i < length qs)%nat -> fails E (s_writevmparams i) = None) ->
  w_in w = (I_vmparams <$> qs) ++ rest ->
  exists w',
    restore_vm_params E w = (Ret 0, w')
    /\ w_in w' = rest
    /\ (forall k q, qs !! k = Some q ->
          k_vmparams (w_kern w') !! k = Some (vpp_params q))
    /\ vmparams_written (w_trace w')
       = vmparams_written (w_trace w)
         ++ imap (fun k q => mk_vpp (vcp_id (vm_vcp (w_vm w))) k
                                    (vpp_mask q) (vpp_params q)) qs
    /\ k_regs (w_kern w') = k_regs (w_kern w)
    /\ w_gmem w' = w_gmem w
    /\ w_vm w' = w_vm w
    /\ (forall A (f : event -> option A),
          (forall p, f (E_writevmparams p) = None) ->
          omap f (w_trace w') = omap f (w_trace w)).
Proof.
  intros Hn Hok Hin.
  destruct (restore_vm_params_loop_ok E (vcp_id (vm_vcp (w_vm w))) qs 0%nat w rest)
    as (w' & Hl & Hin' & Hk & _ & Hev & Hr & Hg & Hvm & _ & Hf); [|done|].
  { intros i Hi. apply Hok. lia. }
  exists w'. unfold restore_vm_params. rewrite bind_get_vcp, <- Hn.
  rewrite (bind_eq _ _ _ _ _ Hl). repeat split; done.
Qed.

(** restore_vm_params reads one VM-parameter record for each VCPU and
    writes it to vmm(4) under the id of the receiving VM and under the
    index of its position in the stream; the ids that the sender had put
    in the record are not used.  Afterwards VCPU [k] has the parameters of
    the [k]-th record, and the registers and guest memory are as before. *)
Theorem restore_vm_params_applies_records_in_order E w qs rest :
  length qs = vcp_ncpus (vm_vcp (w_vm w)) ->
  (forall i, (i < length qs)%nat -> fails E (s_writevmparams i) = None) ->
  w_in w = (I_vmparams <$> qs) ++ rest ->
  exists w',
    restore_vm_params E w = (Ret 0, w')
    /\ w_in w' = rest
    /\ (forall k q, qs !! k = Some q ->
          k_vmparams (w_kern w') !! k = Some (vpp_params q))
    /\ vmparams_written (w_trace w')
       = vmparams_written (w_trace w)
         ++ imap (fun k q => mk_vpp (vcp_id (vm_vcp (w_vm w))) k
                                    (vpp_mask q) (vpp_params q)) qs
    /\ k_regs (w_kern w') = k_regs (w_kern w)
    /\ w_gmem w' = w_gmem w.
Proof.
  intros Hn Hok Hin.
  destruct (restore_vm_params_ok E w qs rest Hn Hok Hin)
    as (w' & H1 & H2 & H3 & H4 & H5 & H6 & _).
  by exists w'.
Qed.

Lemma restore_vm_params_applies_records_in_order_witness :
  exists w',
    restore_vm_params env_ok
      (w_receiver2 [I_vmparams (mk_vpp 99 5 3 [100]);
                    I_vmparams (mk_vpp 99 5 3 [200]); I_devs])
    = (Ret 0, w')
    /\ w_in w' = [I_devs]
    /\ k_vmparams (w_kern w') !! 0%nat = Some [100]
    /\ k_vmparams (w_kern w') !! 1%nat = Some [200]
    /\ vmparams_written (w_trace w') = [mk_vpp 3 0 3 [100]; mk_vpp 3 1 3 [200]].
Proof.
  destruct (restore_vm_params_applies_records_in_order env_ok
              (w_receiver2 [I_vmparams (mk_vpp 99 5 3 [100]);
                            I_vmparams (mk_vpp 99 5 3 [200]); I_devs])
              [mk_vpp 99 5 3 [100]; mk_vpp 99 5 3 [200]] [I_devs])
    as (w' & Hr & Hin & Hk & Hev & _).
  - reflexivity.
  - intros i Hi. reflexivity.
  - reflexivity.
  - exists w'. split; [exact Hr|]. split; [exact Hin|].
    split; [exact (Hk 0%nat _ eq_refl)|]. split; [exact (Hk 1%nat _ eq_refl)|].
    exact Hev.
Defined.

(** When the stream ends before every VCPU has had its record,
    restore_vm_params returns -1.  The records that were there have been
    applied by then: the VCPUs in front have the new parameters, the others
    keep theirs. *)
Theorem restore_vm_params_short_stream E w qs :
  (length qs < vcp_ncpus (vm_vcp (w_vm w)))%nat ->
  (forall i, (i < length qs)%nat -> fails E (s_writevmparams i) = None) ->
  w_in w = I_vmparams <$> qs ->
  exists w',
    restore_vm_params E w = (Ret (-1), w')
    /\ (forall k q, qs !! k = Some q ->
          k_vmparams (w_kern w') !! k = Some (vpp_params q))
    /\ (forall j, (length qs <= j)%nat ->
          k_vmparams (w_kern w') !! j = k_vmparams (w_kern w) !! j).
Proof.
  intros Hn Hok Hin.
  destruct (restore_vm_params_loop_ok E (vcp_id (vm_vcp (w_vm w))) qs 0%nat w [])
    as (w' & Hl & Hin' & Hk & Hfr & _).
  { intros i Hi. apply Hok. lia. }
  { by rewrite (right_id_L [] (++)). }
  exists (emits [E_log "restore_vm_params: error restoring vm params"] w').
  split; [|split].
  - unfold restore_vm_params. rewrite bind_get_vcp.
    assert (Hloop :
      for_loop (vcp_ncpus (vm_vcp (w_vm w))) 0 tt
        (restore_vm_params_body E (vcp_id (vm_vcp (w_vm w)))) w
      = (Ret (inr (-1)),
         emits [E_log "restore_vm_params: error restoring vm params"] w')).
    { replace (vcp_ncpus (vm_vcp (w_vm w)))
        with (length qs + S (vcp_ncpus (vm_vcp (w_vm w)) - length qs - 1))%nat
        by lia.
      rewrite for_loop_add, (bind_eq _ _ _ _ _ Hl).
      cbn [for_loop]. unfold restore_vm_params_body at 1.
      rewrite !bind_assoc, (bind_eq _ _ _ _ _ (read_vmparams_end w' Hin')).
      mstep. reflexivity. }
    by rewrite (bind_eq _ _ _ _ _ Hloop).
  - intros k q Hq. by apply (Hk k q).
  - intros j Hj. apply Hfr. lia.
Qed.

Lemma restore_vm_params_short_stream_witness :
  exists w',
    restore_vm_params env_ok (w_receiver2 [I_vmparams (mk_vpp 3 0 3 [100])])
    = (Ret (-1), w')
    /\ k_vmparams (w_kern w') !! 0%nat = Some [100]
    /\ k_vmparams (w_kern w') !! 1%nat = None.
Proof.
  destruct (restore_vm_params_short_stream env_ok
              (w_receiver2 [I_vmparams (mk_vpp 3 0 3 [100])])
              [mk_vpp 3 0 3 [100]])
    as (w' & Hr & Hk & Hfr).
  - cbn. lia.
  - intros i Hi. reflexivity.
  - reflexivity.
  - exists w'. split; [exact Hr|]. split; [exact (Hk 0%nat _ eq_refl)|].
    rewrite (Hfr 1%nat) by (cbn; lia). reflexivity.
Defined.

(** ** run_vm: one thread for each VCPU *)

Lemma vcpus_reset_app a b : vcpus_reset (a ++ b) = vcpus_reset a ++ vcpus_reset b.
Proof. apply omap_app. Qed.

Lemma regs_written_app a b :
  regs_written (a ++ b) = regs_written a ++ regs_written b.
Proof. apply omap_app. Qed.

Lemma threads_created_app a b :
  threads_created (a ++ b) = threads_created a ++ threads_created b.
Proof. apply omap_app. Qed.

Section RunVm.

Variable P : platform.
Variable E : environ.
Hypothesis all_ok : forall s, fails E s = None.

(** run_vm up to its wait loop, when no call fails. *)
Lemma run_vm_all_ok vrs w :
  ~ (vcp_nmemranges (vm_vcp (w_vm w)) = 0%nat
     \/ (VMM_MAX_MEM_RANGES P < vcp_nmemranges (vm_vcp (w_vm w)))%nat) ->
  let n := vcp_ncpus (vm_vcp (w_vm w)) in
  let id := vcp_id (vm_vcp (w_vm w)) in
  let recv := has_flag (VM_STATE_RECEIVED P) (w_vm w) in
  exists w',
    run_vm P E vrs w = (Ret None, w')
    /\ (forall i, (i < n)%nat ->
          k_regs (w_kern w') !! i = Some (if recv then vrs else reset_regs E vrs))
    /\ (forall j, (n <= j)%nat -> k_regs (w_kern w') !! j = k_regs (w_kern w) !! j)
    /\ k_vmparams (w_kern w') = k_vmparams (w_kern w)
    /\ vcpus_reset (w_trace w')
       = vcpus_reset (w_trace w) ++ ((fun i => (i, vrs)) <$> seq 0 n)
    /\ regs_written (w_trace w')
       = regs_written (w_trace w)
         ++ (if recv then (fun i => mk_vrwp id i (VM_RWREGS_ALL P) vrs) <$> seq 0 n
             else [])
    /\ threads_created (w_trace w') = threads_created (w_trace w) ++ seq 0 n
    /\ (forall i, (i < n)%nat -> w_hlt w' !! i = Some false)
    /\ w_in w' = w_in w /\ w_gmem w' = w_gmem w /\ w_vm w' = w_vm w
    /\ w_maps w' = w_maps w.
Proof.
  intros Hv n id recv. unfold run_vm. rewrite bind_get_vm.
  rewrite decide_False by exact Hv. rewrite all_ok.
  fold n id recv.
  match goal with |- context [for_loop n 0 tt ?b] => set (body := b) end.
  assert (Hloop : forall c from w0,
    exists w',
      for_loop c from tt body w0 = (Ret (inl tt), w')
      /\ (forall i, (from <= i < from + c)%nat ->
            k_regs (w_kern w') !! i = Some (if recv then vrs else reset_regs E vrs))
      /\ (forall j, ~ (from <= j < from + c)%nat ->
            k_regs (w_kern w') !! j = k_regs (w_kern w0) !! j)
      /\ k_vmparams (w_kern w') = k_vmparams (w_kern w0)
      /\ vcpus_reset (w_trace w')
         = vcpus_reset (w_trace w0) ++ ((fun i => (i, vrs)) <$> seq from c)
      /\ regs_written (w_trace w')
         = regs_written (w_trace w0)
           ++ (if recv
               then (fun i => mk_vrwp id i (VM_RWREGS_ALL P) vrs) <$> seq from c
               else [])
      /\ threads_created (w_trace w') = threads_created (w_trace w0) ++ seq from c
      /\ (forall i, (from <= i < from + c)%nat -> w_hlt w' !! i = Some false)
      /\ (forall j, ~ (from <= j < from + c)%nat -> w_hlt w' !! j = w_hlt w0 !! j)
      /\ w_in w' = w_in w0 /\ w_gmem w' = w_gmem w0 /\ w_vm w' = w_vm w0
      /\ w_maps w' = w_maps w0).
  { induction c as [|c IH]; intros from w0.
    - exists w0. cbn. rewrite !(right_id_L [] (++)).
      destruct recv; rewrite ?(right_id_L [] (++)); repeat split; try done; lia.
    - cbn [for_loop]. unfold body at 1. unfold check, ioctl_writeregs, set_regs.
      rewrite !all_ok.
      destruct recv eqn:Hrecv; mstep; cbn [vrwp_vcpu_id vrwp_regs]; rewrite ?all_ok;
        mstep;
        match goal with
        | |- context [for_loop c (S from) tt body ?W] => set (w1 := W)
        end;
        destruct (IH (S from) w1)
          as (w' & Hl & Hr & Hfr & Hp & Hcr & Hwr & Hth & Hh & Hfh & Hin & Hg
              & Hvm & Hm);
        exists w'; (split; [exact Hl|]);
        (split; [intros i Hi; destruct (decide (i = from)) as [->|Hne];
                 [rewrite Hfr by lia; apply lookup_insert_eq|apply Hr; lia]|]);
        (split; [intros j Hj; rewrite Hfr by lia; unfold w1; cbn;
                 rewrite ?lookup_insert_ne by lia; reflexivity|]);
        (split; [by rewrite Hp|]);
        (split; [rewrite Hcr; unfold w1; cbn [w_trace emits w_with_trace w_with_hlt
                   w_with_kern]; rewrite !vcpus_reset_app, <- !(assoc_L (++));
                 reflexivity|]);
        (split; [rewrite Hwr; unfold w1; cbn [w_trace emits w_with_trace w_with_hlt
                   w_with_kern]; rewrite !regs_written_app, <- !(assoc_L (++));
                 reflexivity|]);
        (split; [rewrite Hth; unfold w1; cbn [w_trace emits w_with_trace w_with_hlt
                   w_with_kern]; rewrite !threads_created_app, <- !(assoc_L (++));
                 reflexivity|]);
        (split; [intros i Hi; destruct (decide (i = from)) as [->|Hne];
                 [rewrite Hfh by lia; apply lookup_insert_eq|apply Hh; lia]|]);
        (split; [intros j Hj; rewrite Hfh by lia; apply lookup_insert_ne; lia|]);
        rewrite Hin, Hg, Hvm, Hm; done. }
  destruct (Hloop n 0%nat w)
    as (w' & Hl & Hr & Hfr & Hp & Hcr & Hwr & Hth & Hh & _ & Hin & Hg & Hvm & Hm).
  exists w'. rewrite (bind_eq _ _ _ _ _ Hl), all_ok.
  split; [done|]. split; [intros i Hi; apply Hr; lia|].
  split; [intros j Hj; apply Hfr; lia|].
  split; [done|]. split; [done|]. split; [done|]. split; [done|].
  split; [intros i Hi; apply Hh; lia|]. done.
Qed.

End RunVm.

(** ** start_vm for a received VM *)

Section StartReceived.

Variable P : platform.
Variable E : environ.
Hypothesis all_ok : forall s, fails E s = None.

(** start_vm for a received VM up to the restore of guest memory: memory
    has been allocated, the VM has been created and its id reported, and
    one register record has been read from the descriptor. *)
Lemma start_vm_received_prefix fuel w r rest :
  has_flag (VM_STATE_RECEIVED P) (w_vm w) = true ->
  ~ invalid_config P (w_vm w) ->
  (vcp_nmemranges (vm_vcp (w_vm w)) <= length (ranges w))%nat ->
  w_in w = I_regs r :: rest ->
  exists w5,
    start_vm P E fuel w
    = (restore_mem P E fuel;;;
       restore_emulated_hw;;;
       rp <- restore_vm_params E;;
       (if decide (rp <> 0) then
          emit (E_log "restore vm params failed");;; halt_with Fatal
        else unpause_vm P E);;;
       run_vm P E (vrwp_regs r)) w5
    /\ w_in w5 = rest /\ w_gmem w5 = w_gmem w /\ w_kern w5 = w_kern w
    /\ vm_state (w_vm w5) = vm_state (w_vm w)
    /\ vcp_ncpus (vm_vcp (w_vm w5)) = vcp_ncpus (vm_vcp (w_vm w))
    /\ vcp_nmemranges (vm_vcp (w_vm w5)) = vcp_nmemranges (vm_vcp (w_vm w))
    /\ vcp_id (vm_vcp (w_vm w5)) = created_id E
    /\ layout_of <$> ranges w5 = layout_of <$> ranges w
    /\ vmparams_written (w_trace w5) = vmparams_written (w_trace w)
    /\ regs_written (w_trace w5) = regs_written (w_trace w)
    /\ vcpus_reset (w_trace w5) = vcpus_reset (w_trace w)
    /\ threads_created (w_trace w5) = threads_created (w_trace w).
Proof.
  intros Hrecv Hv Hlen Hin.
  destruct (alloc_guest_mem_ok E w Hlen (fun j _ => all_ok _))
    as (w1 & Ha & _ & Hs1 & _).
  pose proof (frame_alloc_guest_mem E w w (conj eq_refl (conj eq_refl eq_refl)))
    as Hf1. rewrite Ha in Hf1. destruct Hf1 as (Hin1 & Hg1 & Hk1).
  cbn [snd] in Hin1, Hg1, Hk1.
  assert (Hv1 : ~ invalid_config P (w_vm w1)).
  { intros H. apply Hv. by apply (invalid_config_same_vm P w1 w (same_vm_sym _ _ Hs1)). }
  assert (Hc : vmm_create_vm P E w1
               = (Ret 0,
                  w_with_vm (vm_with_vcp (vcp_with_id (created_id E) (vm_vcp (w_vm w1)))
                                         (w_vm w1))
                            (emits [E_create (vm_vcp (w_vm w1))] w1))).
  { unfold vmm_create_vm. rewrite bind_get_vm. unfold invalid_config in Hv1.
    rewrite !decide_False by tauto. mstep. rewrite all_ok. mstep. reflexivity. }
  set (w2 := w_with_vm _ _) in Hc.
  set (w3 := emits [E_write_id (vcp_id (vm_vcp (w_vm w2)))] w2).
  assert (Hr3 : read_regs w3 = (Ret (Some r), w_with_in rest w3)).
  { apply read_regs_ok. change (w_in w3) with (w_in w1). by rewrite Hin1. }
  set (w4 := w_with_in _ w3) in Hr3.
  exists (emits [E_lock threadmutex] w4).
  destruct Hs1 as [Hc1 Hl1]. unfold config_of in Hc1.
  injection Hc1 as Hst Hcpu Hnm _ _ _.
  assert (Htr : forall A (f : event -> option A),
             f (E_create (vm_vcp (w_vm w1))) = None ->
             f (E_write_id (vcp_id (vm_vcp (w_vm w2)))) = None ->
             f (E_lock threadmutex) = None ->
             (forall w0 : world, omap f (w_trace (alloc_guest_mem E w0).2)
                                 = omap f (w_trace w0)) ->
             omap f (w_trace (emits [E_lock threadmutex] w4)) = omap f (w_trace w)).
  { intros A f H1 H2 H3 H4. cbn [w_trace emits w_with_trace w4 w3 w2 w_with_in w_with_vm].
    rewrite !omap_app. cbn [omap list_omap]. rewrite H1, H2, H3.
    rewrite !(right_id_L [] (++)). specialize (H4 w). by rewrite Ha in H4. }
  split.
  - unfold start_vm. rewrite bind_get_vm, Hrecv. mstep.
    rewrite (bind_eq _ _ _ _ _ Ha). rewrite decide_False by (intros ?; done).
    rewrite (bind_eq _ _ _ _ _ Hc). rewrite decide_False by (intros ?; done).
    rewrite !all_ok. mstep. fold w3.
    rewrite (bind_eq _ _ _ _ _ Hr3). unfold check. rewrite !all_ok. mstep.
    rewrite (bind_eq _ _ _ _ _ (mutex_lock_ok E _ _ (all_ok _))).
    rewrite bind_assoc. apply bind_ext. intros [] w6.
    rewrite bind_assoc. apply bind_ext. intros [] w7.
    rewrite bind_assoc. reflexivity.
  - split; [done|]. split; [done|]. split; [done|]. split; [done|].
    split; [done|]. split; [done|]. split; [done|]. split; [done|].
    split; [|split; [|split]]; apply Htr; try done; intros w0;
      apply alloc_guest_mem_omap; by intros [].
Qed.

End StartReceived.

Lemma vm_spans_layout w0 w :
  vcp_nmemranges (vm_vcp (w_vm w)) = vcp_nmemranges (vm_vcp (w_vm w0)) ->
  layout_of <$> ranges w = layout_of <$> ranges w0 ->
  vm_spans w = vm_spans w0.
Proof.
  intros Hn Hl. unfold vm_spans. rewrite Hn.
  assert (Hs : forall l : list vm_mem_range,
             span_of <$> l = (fun x : Z * Z * mem_type => (x.1.1, x.1.2))
                               <$> (layout_of <$> l)).
  { intros l. rewrite <- list_fmap_compose. by apply list_fmap_ext. }
  rewrite !Hs, !fmap_take. by rewrite Hl.
Qed.

Lemma omap_fmap_none {A B C} (f : B -> option C) (g : A -> B) (l : list A) :
  (forall x, f (g x) = None) -> omap f (g <$> l) = [].
Proof. intros H. induction l as [|x l IH]; [done|]. cbn. by rewrite H. Qed.

(** unpause_vm, when no call fails, records no request to vmm(4) and
    creates no thread. *)
Lemma unpause_vm_all_ok P E w :
  (forall s, fails E s = None) ->
  exists evs s,
    unpause_vm P E w = (Ret tt, emits evs (with_state s w))
    /\ threads_created evs = [] /\ vmparams_written evs = []
    /\ regs_written evs = [] /\ vcpus_reset evs = [].
Proof.
  intros all_ok.
  destruct (has_flag (VM_STATE_PAUSED P) (w_vm w)) eqn:Hp.
  - eexists _, _. split; [by apply unpause_vm_paused|].
    unfold threads_created, vmparams_written, regs_written, vcpus_reset.
    rewrite !omap_app, !omap_fmap_none by done. done.
  - exists [E_lock vm_mtx; E_unlock vm_mtx], (vm_state (w_vm w)).
    rewrite with_state_same. split; [|done].
    unfold unpause_vm.
    rewrite (bind_eq _ _ _ _ _ (mutex_lock_ok E _ w (all_ok _))), bind_get_vm.
    change (w_vm (emits [E_lock vm_mtx] w)) with (w_vm w).
    rewrite Hp. cbn [negb]. rewrite mutex_unlock_ok by done.
    by rewrite emits_emits.
Qed.

Section StartReceivedAll.

Variable P : platform.
Variable E : environ.
Hypothesis page_shift : 0 <= PAGE_SHIFT P <= 64.
Hypothesis all_ok : forall s, fails E s = None.

(** start_vm for a received VM, when no call fails and the descriptor
    holds one register record, the pages of the ranges, the device state
    and one VM-parameter record for each VCPU. *)
Lemma start_vm_received_ok fuel w src r qs :
  has_flag (VM_STATE_RECEIVED P) (w_vm w) = true ->
  Z.land (VM_STATE_RECEIVED P) (VM_STATE_PAUSED P) = 0 ->
  ~ invalid_config P (w_vm w) ->
  (vcp_nmemranges (vm_vcp (w_vm w)) <= length (ranges w))%nat ->
  Forall (fun s => page_span P s /\ (span_pages P s <= fuel)%nat) (vm_spans w) ->
  length qs = vcp_ncpus (vm_vcp (w_vm w)) ->
  w_in w = I_regs r :: (I_page <$> mem_pages P src (vm_spans w))
             ++ [I_devs; I_pci; I_virtio] ++ (I_vmparams <$> qs) ->
  exists w',
    start_vm P E fuel w = (Ret None, w')
    /\ (forall i, (i < vcp_ncpus (vm_vcp (w_vm w)))%nat ->
          k_regs (w_kern w') !! i = Some (vrwp_regs r))
    /\ (forall k q, qs !! k = Some q ->
          k_vmparams (w_kern w') !! k = Some (vpp_params q))
    /\ (forall s a, s ∈ vm_spans w -> s.1 <= a < s.1 + s.2 -> w_gmem w' a = src a)
    /\ w_in w' = []
    /\ threads_created (w_trace w')
       = threads_created (w_trace w) ++ seq 0 (vcp_ncpus (vm_vcp (w_vm w)))
    /\ has_flag (VM_STATE_PAUSED P) (w_vm w') = false.
Proof.
  intros Hrecv Hbits Hv Hlen Hall Hqs Hin.
  destruct (start_vm_received_prefix P E all_ok fuel w r _ Hrecv Hv Hlen Hin)
    as (w5 & Hstart & Hin5 & Hg5 & Hk5 & Hst5 & Hcpu5 & Hnm5 & Hid5 & Hl5
        & _ & _ & _ & Hth5).
  assert (Hsp : vm_spans w5 = vm_spans w) by (by apply vm_spans_layout).
  assert (Hlen5 : (vcp_nmemranges (vm_vcp (w_vm w5)) <= length (ranges w5))%nat).
  { rewrite Hnm5. rewrite <- (length_fmap layout_of (ranges w5)), Hl5, length_fmap.
    exact Hlen. }
  assert (Hm5 := restore_mem_ok P E page_shift all_ok fuel src w5
                   ([I_devs; I_pci; I_virtio] ++ (I_vmparams <$> qs)) Hlen5).
  fold (vm_spans w5) in Hm5. rewrite Hsp in Hm5. specialize (Hm5 Hall Hin5).
  set (w6 := w_with_gmem _ _) in Hm5.
  assert (Hh6 := restore_emulated_hw_ok (I_vmparams <$> qs) w6 eq_refl).
  set (w7 := w_with_in _ w6) in Hh6.
  destruct (restore_vm_params_ok E w7 qs [])
    as (w8 & Hp8 & Hin8 & Hk8 & _ & Hkr8 & Hg8 & Hvm8 & Hf8).
  { by rewrite Hqs, <- Hcpu5. }
  { intros i _. apply all_ok. }
  { cbn. by rewrite (right_id_L [] (++)). }
  assert (Hu := unpause_vm_inv P E w8).
  destruct (unpause_vm_all_ok P E w8 all_ok) as (evs & s & Hu8 & Hth8 & _).
  assert (Hs8 : s = vm_state (w_vm w8)
                \/ s = Z.land (vm_state (w_vm w8)) (Z.lnot (VM_STATE_PAUSED P))).
  { destruct (unpause_vm_frame P E all_ok w8) as (evs' & s' & Hu' & Hs').
    rewrite Hu8 in Hu'.
    apply (f_equal (fun x => vm_state (w_vm x.2))) in Hu'. cbn in Hu'.
    by subst s'. }
  set (w9 := emits evs (with_state s w8)) in Hu8.
  specialize (Hu tt w9 Hu8).
  assert (Hvm9 : vm_params (w_vm w9) = vm_params (w_vm w5)).
  { change (w_vm w9) with (vm_with_state s (w_vm w8)). by rewrite Hvm8. }
  assert (Hrecv9 : has_flag (VM_STATE_RECEIVED P) (w_vm w9) = true).
  { change (w_vm w9) with (vm_with_state s (w_vm w8)).
    assert (Hr8 : has_flag (VM_STATE_RECEIVED P)
                    (vm_with_state (vm_state (w_vm w8)) (w_vm w8)) = true).
    { rewrite Hvm8. unfold has_flag in *.
      change (vm_state (vm_with_state (vm_state (w_vm w7)) (w_vm w7)))
        with (vm_state (w_vm w5)). by rewrite Hst5. }
    destruct Hs8 as [-> | ->]; [done|by apply has_flag_received_kept]. }
  destruct (run_vm_all_ok P E all_ok (vrwp_regs r) w9)
    as (w' & Hrun & Hr & _ & Hp & _ & _ & Hth & _ & Hin' & Hg' & Hvm' & _).
  { unfold vm_vcp. rewrite Hvm9. fold (vm_vcp (w_vm w5)). rewrite Hnm5.
    unfold invalid_config in Hv. tauto. }
  rewrite Hrecv9 in Hr.
  assert (Hn9 : vcp_ncpus (vm_vcp (w_vm w9)) = vcp_ncpus (vm_vcp (w_vm w))).
  { unfold vm_vcp. rewrite Hvm9. exact Hcpu5. }
  rewrite Hn9 in Hr, Hth.
  exists w'. split; [|split; [exact Hr|split; [|split; [|split; [|split]]]]].
  - rewrite Hstart, (bind_eq _ _ _ _ _ Hm5), (bind_eq _ _ _ _ _ Hh6).
    rewrite (bind_eq _ _ _ _ _ Hp8). rewrite decide_False by (intros ?; done).
    rewrite (bind_eq _ _ _ _ _ Hu8). exact Hrun.
  - intros k q Hq. rewrite Hp. by apply Hk8.
  - intros s0 a Hs0 Ha. rewrite Hg'. change (w_gmem w9) with (w_gmem w8).
    rewrite Hg8. unfold w7, w6. cbn [w_gmem w_with_in w_with_gmem].
    assert (Hag := restore_all_agree P page_shift src (vm_spans w) (w_gmem w5)
                     (fun _ => False)).
    apply Hag.
    + eapply Forall_impl; [exact Hall|]. by intros ? [? _].
    + by intros ? [].
    + right. by exists s0.
  - rewrite Hin'. change (w_in w9) with (w_in w8). exact Hin8.
  - rewrite Hth. f_equal. unfold threads_created.
    change (w_trace w9) with (w_trace w8 ++ evs). rewrite omap_app.
    fold (threads_created evs). rewrite Hth8, (right_id_L [] (++)).
    rewrite Hf8 by done. exact Hth5.
  - by rewrite Hvm'.
Qed.

End StartReceivedAll.

(** ** A register record where a page is expected *)


Section RegsFirst.

Variable P : platform.
Variable E : environ.




End RegsFirst.


(** ** The restore path as a whole *)

(** run_vm, when no call fails, resets every VCPU with the one register
    state it was given and creates one thread per VCPU, in index order,
    before it waits.  For a received VM it then writes that same register
    state to every VCPU, so that all VCPUs of a restored VM start from the
    registers of one record; otherwise each VCPU has the registers that the
    reset left.  VM parameters, guest memory and the descriptor are not
    touched. *)
Theorem run_vm_gives_every_vcpu_the_same_registers P E vrs w :
  (forall s, fails E s = None) ->
  ~ (vcp_nmemranges (vm_vcp (w_vm w)) = 0%nat
     \/ (VMM_MAX_MEM_RANGES P < vcp_nmemranges (vm_vcp (w_vm w)))%nat) ->
  let n := vcp_ncpus (vm_vcp (w_vm w)) in
  let id := vcp_id (vm_vcp (w_vm w)) in
  let recv := has_flag (VM_STATE_RECEIVED P) (w_vm w) in
  exists w',
    run_vm P E vrs w = (Ret None, w')
    /\ (forall i, (i < n)%nat ->
          k_regs (w_kern w') !! i = Some (if recv then vrs else reset_regs E vrs))
    /\ (forall j, (n <= j)%nat -> k_regs (w_kern w') !! j = k_regs (w_kern w) !! j)
    /\ k_vmparams (w_kern w') = k_vmparams (w_kern w)
    /\ vcpus_reset (w_trace w')
       = vcpus_reset (w_trace w) ++ ((fun i => (i, vrs)) <$> seq 0 n)
    /\ regs_written (w_trace w')
       = regs_written (w_trace w)
         ++ (if recv then (fun i => mk_vrwp id i (VM_RWREGS_ALL P) vrs) <$> seq 0 n
             else [])
    /\ threads_created (w_trace w') = threads_created (w_trace w) ++ seq 0 n
    /\ (forall i, (i < n)%nat -> w_hlt w' !! i = Some false)
    /\ w_in w' = w_in w /\ w_gmem w' = w_gmem w /\ w_vm w' = w_vm w
    /\ w_maps w' = w_maps w.
Proof. intros all_ok Hv. by apply run_vm_all_ok. Qed.

Lemma run_vm_gives_every_vcpu_the_same_registers_witness :
  exists w',
    run_vm amd64 env_ok [11; 12] (w_receiver2 []) = (Ret None, w')
    /\ k_regs (w_kern w') !! 0%nat = Some [11; 12]
    /\ k_regs (w_kern w') !! 1%nat = Some [11; 12]
    /\ threads_created (w_trace w') = [0; 1]%nat.
Proof.
  destruct (run_vm_gives_every_vcpu_the_same_registers amd64 env_ok [11; 12]
              (w_receiver2 []))
    as (w' & Hrun & Hr & _ & _ & _ & _ & Hth & _).
  - intros s. reflexivity.
  - cbn. lia.
  - exists w'. split; [exact Hrun|].
    split; [apply (Hr 0%nat); cbn; lia|].
    split; [apply (Hr 1%nat); cbn; lia|exact Hth].
Defined.

(** The stream that start_vm accepts for a received VM with any number of
    VCPUs: one register record, the pages of every range in order, the
    device state, and one VM-parameter record per VCPU.  When no call
    fails, start_vm consumes it entirely and reaches the wait loop of
    run_vm with one thread per VCPU; every VCPU has the registers of the
    one record and the VM parameters of its own record, guest memory holds
    the pages on every range, and the VM is not marked paused. *)
Theorem start_vm_restores_received_vm P E fuel w src r qs :
  0 <= PAGE_SHIFT P <= 64 ->
  (forall s, fails E s = None) ->
  has_flag (VM_STATE_RECEIVED P) (w_vm w) = true ->
  Z.land (VM_STATE_RECEIVED P) (VM_STATE_PAUSED P) = 0 ->
  ~ invalid_config P (w_vm w) ->
  (vcp_nmemranges (vm_vcp (w_vm w)) <= length (ranges w))%nat ->
  Forall (fun s => page_span P s /\ (span_pages P s <= fuel)%nat) (vm_spans w) ->
  length qs = vcp_ncpus (vm_vcp (w_vm w)) ->
  w_in w = I_regs r :: (I_page <$> mem_pages P src (vm_spans w))
             ++ [I_devs; I_pci; I_virtio] ++ (I_vmparams <$> qs) ->
  exists w',
    start_vm P E fuel w = (Ret None, w')
    /\ (forall i, (i < vcp_ncpus (vm_vcp (w_vm w)))%nat ->
          k_regs (w_kern w') !! i = Some (vrwp_regs r))
    /\ (forall k q, qs !! k = Some q ->
          k_vmparams (w_kern w') !! k = Some (vpp_params q))
    /\ (forall s a, s ∈ vm_spans w -> s.1 <= a < s.1 + s.2 -> w_gmem w' a = src a)
    /\ w_in w' = []
    /\ threads_created (w_trace w')
       = threads_created (w_trace w) ++ seq 0 (vcp_ncpus (vm_vcp (w_vm w)))
    /\ has_flag (VM_STATE_PAUSED P) (w_vm w') = false.
Proof. intros Hps Hok. by apply start_vm_received_ok. Qed.

Lemma start_vm_restores_received_vm_witness :
  exists w',
    start_vm amd64 env_ok 1
      (w_receiver2
         (I_regs (mk_vrwp 3 0 31 [11; 12])
          :: (I_page <$> mem_pages amd64 (fun a => a mod 251) [(0, 4096)])
          ++ [I_devs; I_pci; I_virtio]
          ++ [I_vmparams (mk_vpp 3 0 3 [100]); I_vmparams (mk_vpp 3 1 3 [200])]))
    = (Ret None, w')
    /\ k_regs (w_kern w') !! 1%nat = Some [11; 12]
    /\ k_vmparams (w_kern w') !! 1%nat = Some [200]
    /\ w_gmem w' 300 = 300 mod 251
    /\ w_in w' = [].
Proof.
  destruct (start_vm_restores_received_vm amd64 env_ok 1
              (w_receiver2
                 (I_regs (mk_vrwp 3 0 31 [11; 12])
                  :: (I_page <$> mem_pages amd64 (fun a => a mod 251) [(0, 4096)])
                  ++ [I_devs; I_pci; I_virtio]
                  ++ [I_vmparams (mk_vpp 3 0 3 [100]);
                      I_vmparams (mk_vpp 3 1 3 [200])]))
              (fun a => a mod 251) (mk_vrwp 3 0 31 [11; 12])
              [mk_vpp 3 0 3 [100]; mk_vpp 3 1 3 [200]])
    as (w' & Hs & Hr & Hp & Hg & Hin & _).
  - cbn. lia.
  - intros s. reflexivity.
  - reflexivity.
  - reflexivity.
  - unfold invalid_config. cbn. lia.
  - cbn. lia.
  - repeat constructor; cbn; lia.
  - reflexivity.
  - reflexivity.
  - exists w'. split; [exact Hs|]. split; [apply (Hr 1%nat); cbn; lia|].
    split; [exact (Hp 1%nat _ eq_refl)|]. split; [|exact Hin].
    apply (Hg (0, 4096)); [|cbn; lia]. apply list_elem_of_singleton. reflexivity.
Defined.



(** ** The send path as a whole *)



(** ** Round trips *)

(** Guest memory alone makes the round trip, whatever the number of
    VCPUs: restore_mem, run on the pages that dump_mem has written for the
    same ranges, consumes them all and leaves on every range the contents
    that the sender had.  dump_mem does not change the memory it reads. *)
Theorem dump_mem_restore_mem_round_trip P Es Er fuel ws wr :
  0 <= PAGE_SHIFT P <= 64 ->
  (forall s, fails Es s = None) -> (forall s, fails Er s = None) ->
  (vcp_nmemranges (vm_vcp (w_vm ws)) <= length (ranges ws))%nat ->
  (vcp_nmemranges (vm_vcp (w_vm wr)) <= length (ranges wr))%nat ->
  Forall (fun s => page_span P s /\ (span_pages P s <= fuel)%nat) (vm_spans ws) ->
  vm_spans wr = vm_spans ws ->
  sent (w_trace ws) = [] ->
  exists ws' wr',
    dump_mem P Es fuel ws = (Ret 0, ws')
    /\ w_gmem ws' = w_gmem ws
    /\ restore_mem P Er fuel (w_with_in (sent (w_trace ws')) wr) = (Ret tt, wr')
    /\ w_in wr' = []
    /\ (forall s a, s ∈ vm_spans ws -> s.1 <= a < s.1 + s.2 ->
          w_gmem wr' a = w_gmem ws a).
Proof.
  intros Hps Hoks Hokr Hlens Hlenr Hall Hsp Hsent.
  assert (Hd := dump_mem_ok P Es Hps Hoks fuel ws Hlens Hall).
  fold (vm_spans ws) in Hd.
  assert (Hin : sent (w_trace
                  (emits ((fun p => E_write (I_page p))
                            <$> mem_pages P (w_gmem ws) (vm_spans ws)) ws))
                = (I_page <$> mem_pages P (w_gmem ws) (vm_spans ws)) ++ []).
  { rewrite trace_emits, sent_app, Hsent, sent_pages.
    by rewrite (right_id_L [] (++)). }
  set (W := w_with_in (sent (w_trace
                  (emits ((fun p => E_write (I_page p))
                            <$> mem_pages P (w_gmem ws) (vm_spans ws)) ws))) wr).
  assert (Hr : restore_mem P Er fuel W
               = (Ret tt,
                  w_with_gmem (restore_all P (w_gmem ws) (vm_spans ws) (w_gmem W))
                              (w_with_in [] W))).
  { rewrite <- Hsp.
    apply (restore_mem_ok P Er Hps Hokr fuel (w_gmem ws) W [] Hlenr).
    - change (Forall (fun s => page_span P s /\ (span_pages P s <= fuel)%nat)
                     (vm_spans wr)).
      rewrite Hsp. exact Hall.
    - change (w_in W = (I_page <$> mem_pages P (w_gmem ws) (vm_spans wr)) ++ []).
      rewrite Hsp. exact Hin. }
  eexists _, _. split; [exact Hd|]. split; [reflexivity|].
  split; [exact Hr|]. split; [reflexivity|].
  intros s a Hs Ha. cbn [w_gmem w_with_gmem].
  apply (restore_all_agree P Hps (w_gmem ws) (vm_spans ws) _ (fun _ => False)).
  - eapply Forall_impl; [exact Hall|]. by intros ? [? _].
  - by intros ? [].
  - right. by exists s.
Qed.

Lemma dump_mem_restore_mem_round_trip_witness :
  exists ws' wr',
    dump_mem amd64 env_ok 1 w_sender1 = (Ret 0, ws')
    /\ restore_mem amd64 env_ok 1 (w_with_in (sent (w_trace ws')) w_receiver1)
       = (Ret tt, wr')
    /\ w_in wr' = []
    /\ w_gmem wr' 1048577 = 1048577 mod 251.
Proof.
  destruct (dump_mem_restore_mem_round_trip amd64 env_ok env_ok 1
              w_sender1 w_receiver1)
    as (ws' & wr' & Hd & _ & Hr & Hin & Hg).
  - cbn. lia.
  - intros s. reflexivity.
  - intros s. reflexivity.
  - cbn. lia.
  - cbn. lia.
  - repeat constructor; cbn; try lia; reflexivity.
  - reflexivity.
  - reflexivity.
  - exists ws', wr'. split; [exact Hd|]. split; [exact Hr|]. split; [exact Hin|].
    apply (Hg (1048576, 4096)); [|cbn; lia].
    apply list_elem_of_further, list_elem_of_here.
Defined.

(** A VM with one VCPU makes the round trip.  When no call fails on either
    side, send_vm followed by start_vm in a receiving VM process with one
    VCPU and the same ranges reproduces the registers and the VM parameters
    of the VCPU and the contents of guest memory on every range. *)
Theorem send_restore_round_trip_one_vcpu P Es Er fuel ws wr regs prm :
  0 <= PAGE_SHIFT P <= 64 ->
  (forall s, fails Es s = None) -> (forall s, fails Er s = None) ->
  vcp_ncpus (vm_vcp (w_vm ws)) = 1%nat ->
  k_regs (w_kern ws) !! 0%nat = Some regs ->
  k_vmparams (w_kern ws) !! 0%nat = Some prm ->
  (vcp_nmemranges (vm_vcp (w_vm ws)) <= length (ranges ws))%nat ->
  Forall (fun s => page_span P s /\ (span_pages P s <= fuel)%nat) (vm_spans ws) ->
  sent (w_trace ws) = [] ->
  has_flag (VM_STATE_RECEIVED P) (w_vm wr) = true ->
  Z.land (VM_STATE_RECEIVED P) (VM_STATE_PAUSED P) = 0 ->
  vcp_ncpus (vm_vcp (w_vm wr)) = 1%nat ->
  ~ invalid_config P (w_vm wr) ->
  (vcp_nmemranges (vm_vcp (w_vm wr)) <= length (ranges wr))%nat ->
  vm_spans wr = vm_spans ws ->
  exists ws' wr',
    send_vm P Es fuel ws = (Ret 0, ws')
    /\ start_vm P Er fuel (w_with_in (restore_input (w_trace ws')) wr)
       = (Ret None, wr')
    /\ k_regs (w_kern wr') !! 0%nat = Some regs
    /\ k_vmparams (w_kern wr') !! 0%nat = Some prm
    /\ (forall s a, s ∈ vm_spans ws -> s.1 <= a < s.1 + s.2 ->
          w_gmem wr' a = w_gmem ws a).
Proof. apply send_restore_one_vcpu. Qed.

Lemma send_restore_round_trip_one_vcpu_witness :
  exists ws' wr',
    send_vm amd64 env_ok 1 w_sender1 = (Ret 0, ws')
    /\ start_vm amd64 env_ok 1
         (w_with_in (restore_input (w_trace ws')) w_receiver1)
       = (Ret None, wr')
    /\ k_regs (w_kern wr') !! 0%nat = Some [11; 12]
    /\ k_vmparams (w_kern wr') !! 0%nat = Some [100]
    /\ w_gmem wr' 1048577 = 1048577 mod 251.
Proof.
  destruct (send_restore_round_trip_one_vcpu amd64 env_ok env_ok 1
              w_sender1 w_receiver1 [11; 12] [100])
    as (ws' & wr' & Hs & Hr & Hregs & Hprm & Hmem).
  - cbn. lia.
  - intros s. reflexivity.
  - intros s. reflexivity.
  - reflexivity.
  - reflexivity.
  - reflexivity.
  - cbn. lia.
  - repeat constructor; cbn; try lia; reflexivity.
  - reflexivity.
  - reflexivity.
  - reflexivity.
  - reflexivity.
  - unfold invalid_config. cbn. lia.
  - cbn. lia.
  - reflexivity.
  - exists ws', wr'.
    split; [exact Hs|]. split; [exact Hr|]. split; [exact Hregs|].
    split; [exact Hprm|].
    apply (Hmem (1048576, 4096)); [|cbn; lia].
    apply list_elem_of_further, list_elem_of_here.
Defined.


(** ** pause_vm and unpause_vm *)

Lemma has_flag_false_land flag vm :
  has_flag flag vm = false -> Z.land (vm_state vm) flag = 0.
Proof.
  unfold has_flag. intros H. apply negb_false_iff in H. by apply Z.eqb_eq.
Qed.

(** Setting and then clearing a flag that was not set gives the state back. *)
Lemma set_clear_flag s p : Z.land s p = 0 -> Z.land (Z.lor s p) (Z.lnot p) = s.
Proof.
  intros H. apply Z.bits_inj'. intros k Hk.
  rewrite Z.land_spec, Z.lor_spec, Z.lnot_spec by done.
  apply (f_equal (fun z => Z.testbit z k)) in H.
  rewrite Z.land_spec, Z.bits_0 in H.
  destruct (Z.testbit s k), (Z.testbit p k); done.
Qed.

(** Clearing a flag leaves the bits outside the flag alone. *)
Lemma clear_flag_other_bits s p k :
  0 <= k -> Z.testbit p k = false ->
  Z.testbit (Z.land s (Z.lnot p)) k = Z.testbit s k.
Proof.
  intros Hk Hp. rewrite Z.land_spec, Z.lnot_spec, Hp by done.
  apply andb_true_r.
Qed.

Lemma with_state_with_state s1 s2 w :
  with_state s2 (with_state s1 w) = with_state s2 w.
Proof. reflexivity. Qed.

Lemma with_state_emits s evs w :
  with_state s (emits evs w) = emits evs (with_state s w).
Proof. reflexivity. Qed.

Section PauseMore.

Variable P : platform.
Variable E : environ.

(** The broadcast loop always returns; it has gone through every VCPU
    exactly when no broadcast failed. *)
Lemma broadcast_loop_total c s msg n : forall from w,
  exists r evs,
    for_loop n from tt (broadcast_body E c s msg) w = (Ret r, emits evs w)
    /\ (forall e, e ∈ evs -> (exists i, e = E_broadcast (c i)) \/ e = E_log msg)
    /\ (r = inl tt ->
        (forall i, (from <= i < from + n)%nat -> fails E (s i) = None)
        /\ evs = (fun i => E_broadcast (c i)) <$> seq from n).
Proof.
  induction n as [|n IH]; intros from w.
  - exists (inl tt), []. rewrite emits_nil. split; [done|].
    split; [by intros e ?%elem_of_nil|]. intros _. split; [lia|done].
  - cbn [for_loop]. unfold broadcast_body at 1. mstep.
    destruct (fails E (s from)) as [e|] eqn:Hf.
    + mstep. exists (inr tt), [E_broadcast (c from); E_log msg].
      rewrite emits_emits. split; [done|]. split; [|done].
      intros e' He'. apply elem_of_cons in He' as [->|He']; [left; eauto|].
      apply list_elem_of_singleton in He'. by right.
    + mstep. destruct (IH (S from) (emits [E_broadcast (c from)] w))
        as (r & evs & Hl & Hev & Hr).
      exists r, (E_broadcast (c from) :: evs). rewrite Hl, emits_emits.
      split; [done|]. split.
      * intros e' He'. apply elem_of_cons in He' as [->|He']; [left; eauto|auto].
      * intros ->. destruct (Hr eq_refl) as [Hok ->]. split; [|done].
        intros i Hi. destruct (decide (i = from)) as [->|]; [done|]. apply Hok. lia.
Qed.

End PauseMore.

(** pause_vm marks the VM paused before it does anything that can fail,
    and no failure path takes the mark back: whenever the two operations on
    vm_mtx succeed, pause_vm returns with the VM marked paused, also when
    the barrier could not be set up, a broadcast failed or the wait failed
    and the VCPUs were therefore never stopped.  The machine-dependent
    pause hook has run only if every one of these calls succeeded. *)
Theorem pause_vm_marks_paused_whatever_fails P E w :
  fails E (s_mutex_lock vm_mtx) = None ->
  fails E (s_mutex_unlock vm_mtx) = None ->
  VM_STATE_PAUSED P <> 0 ->
  exists evs s,
    pause_vm P E w = (Ret tt, emits evs (with_state s w))
    /\ has_flag (VM_STATE_PAUSED P) (vm_with_state s (w_vm w)) = true
    /\ (E_pause_md ∈ evs ->
        fails E s_barrier_init = None
        /\ (forall i, (i < vcp_ncpus (vm_vcp (w_vm w)))%nat ->
                      fails E (s_run_broadcast i) = None)
        /\ fails E s_barrier_wait = None
        /\ fails E s_barrier_destroy = None).
Proof.
  intros Hl Hu Hne.
  destruct (has_flag (VM_STATE_PAUSED P) (w_vm w)) eqn:Hp.
  { exists [E_lock vm_mtx; E_unlock vm_mtx], (vm_state (w_vm w)).
    rewrite with_state_same. split; [by apply pause_vm_paused|].
    split; [by destruct (w_vm w)|].
    intros H. repeat (apply elem_of_cons in H as [H|H]; [discriminate|]).
    by apply elem_of_nil in H. }
  set (s := Z.lor (vm_state (w_vm w)) (VM_STATE_PAUSED P)).
  assert (Hflag : has_flag (VM_STATE_PAUSED P) (vm_with_state s (w_vm w)) = true)
    by (by apply has_flag_set).
  unfold pause_vm.
  rewrite (bind_eq _ _ _ _ _ (mutex_lock_ok E _ w Hl)), bind_get_vm.
  change (w_vm (emits [E_lock vm_mtx] w)) with (w_vm w). rewrite Hp.
  unfold set_vm_state. mstep.
  rewrite (bind_eq _ _ _ _ _ (mutex_unlock_ok E _ _ Hu)). mstep. fold s.
  set (pre := [E_lock vm_mtx; E_set_state s; E_unlock vm_mtx;
               E_barrier_init (vcp_ncpus (vm_vcp (w_vm w)) + 1)]).
  assert (Hpre : emits [E_barrier_init (vcp_ncpus (vm_vcp (w_vm w)) + 1)]
                   (emits [E_unlock vm_mtx]
                      (emits [E_set_state s]
                         (w_with_vm (vm_with_state s (w_vm (emits [E_lock vm_mtx] w)))
                                    (emits [E_lock vm_mtx] w))))
                 = emits pre (with_state s w)).
  { change (w_with_vm (vm_with_state s (w_vm (emits [E_lock vm_mtx] w)))
                      (emits [E_lock vm_mtx] w))
      with (emits [E_lock vm_mtx] (with_state s w)).
    by rewrite !emits_emits. }
  rewrite Hpre. clear Hpre.
  assert (Hnopre : E_pause_md ∉ pre).
  { intros H. repeat (apply elem_of_cons in H as [H|H]; [discriminate|]).
    by apply elem_of_nil in H. }
  destruct (fails E s_barrier_init) as [e|] eqn:Hbi.
  { exists (pre ++ [E_log "cannot initialize pause barrier"]), s.
    rewrite emit_eq, emits_emits. split; [done|]. split; [done|].
    intros H. apply elem_of_app in H as [H|H]; [done|].
    apply list_elem_of_singleton in H. discriminate. }
  destruct (broadcast_loop_total E vcpu_run_cond s_run_broadcast
              "pause_vm: can't broadcast vcpu run cond"
              (vcp_ncpus (vm_vcp (w_vm w))) 0%nat (emits pre (with_state s w)))
    as (r & evs & Hloop & Hev & Hr).
  rewrite (bind_eq _ _ _ _ _ Hloop), emits_emits.
  assert (Hnoevs : E_pause_md ∉ evs).
  { intros H. destruct (Hev _ H) as [[i Hi]|Hi]; discriminate. }
  destruct r as [[]|[]].
  2:{ exists (pre ++ evs), s. split; [done|]. split; [done|].
      intros H. apply elem_of_app in H as [H|H]; done. }
  destruct (Hr eq_refl) as [Hok _]. mstep.
  destruct (fails E s_barrier_wait) as [e|] eqn:Hbw.
  { eexists _, s. rewrite emit_eq, !emits_emits. split; [reflexivity|].
    split; [done|]. intros H.
    repeat (apply elem_of_app in H as [H|H]); try done;
      apply list_elem_of_singleton in H; discriminate. }
  mstep.
  destruct (fails E s_barrier_destroy) as [e|] eqn:Hbd.
  { eexists _, s. rewrite emit_eq, !emits_emits. split; [reflexivity|].
    split; [done|]. intros H.
    repeat (apply elem_of_app in H as [H|H]); try done;
      apply list_elem_of_singleton in H; discriminate. }
  eexists _, s. rewrite emit_eq, !emits_emits. split; [reflexivity|].
  split; [done|]. intros _. split; [done|]. split; [|done].
  intros i Hi. apply Hok. lia.
Qed.

(** The barrier cannot be initialised: the VM is marked paused, no VCPU has
    been told, and the hook has not run. *)
Lemma pause_vm_marks_paused_whatever_fails_witness :
  exists evs,
    pause_vm amd64 (env_failing [s_barrier_init] EAGAIN) w_sender2
    = (Ret tt, emits evs (with_state 8 w_sender2))
    /\ has_flag 8 (vm_with_state 8 (w_vm w_sender2)) = true
    /\ E_pause_md ∉ evs.
Proof.
  destruct (pause_vm_marks_paused_whatever_fails amd64
              (env_failing [s_barrier_init] EAGAIN) w_sender2)
    as (evs & s & Hp & Hf & Hmd).
  - reflexivity.
  - reflexivity.
  - discriminate.
  - assert (Hs : s = 8).
    { pose proof (f_equal (fun x => vm_state (w_vm x.2)) Hp) as Hs.
      vm_compute in Hs. by symmetry. }
    subst s. exists evs. split; [exact Hp|]. split; [exact Hf|].
    intros H. destruct (Hmd H) as [Hbi _]. discriminate Hbi.
Defined.

(** pause_vm followed by unpause_vm, on a VM that is not paused and when
    no call fails: the two run their full sequences one after the other,
    and the VM structure is the one from before, [vm_state] included. *)
Theorem pause_unpause_round_trip P E w :
  (forall s, fails E s = None) ->
  VM_STATE_PAUSED P <> 0 ->
  has_flag (VM_STATE_PAUSED P) (w_vm w) = false ->
  let n := vcp_ncpus (vm_vcp (w_vm w)) in
  let s := vm_state (w_vm w) in
  (pause_vm P E;;; unpause_vm P E) w
  = (Ret tt,
     emits ([E_lock vm_mtx; E_set_state (Z.lor s (VM_STATE_PAUSED P));
             E_unlock vm_mtx; E_barrier_init (n + 1)]
            ++ ((fun i => E_broadcast (vcpu_run_cond i)) <$> seq 0 n)
            ++ [E_barrier_wait; E_barrier_destroy; E_pause_md]
            ++ [E_lock vm_mtx; E_set_state s; E_unlock vm_mtx]
            ++ ((fun i => E_broadcast (vcpu_unpause_cond i)) <$> seq 0 n)
            ++ [E_unpause_md])
           w).
Proof.
  intros all_ok Hne Hp n s.
  assert (Hpause := pause_vm_running P E w (all_ok _) (all_ok _) (all_ok _)
                      (fun i _ => all_ok _) (all_ok _) (all_ok _) Hp).
  cbn zeta in Hpause. fold n s in Hpause.
  rewrite (bind_eq _ _ _ _ _ Hpause).
  set (evp := _ ++ _ ++ _) in *.
  set (s1 := Z.lor s (VM_STATE_PAUSED P)) in *.
  assert (Hp1 : has_flag (VM_STATE_PAUSED P) (w_vm (emits evp (with_state s1 w)))
                = true) by (by apply has_flag_set).
  assert (Hun := unpause_vm_paused P E (emits evp (with_state s1 w))
                   (all_ok _) (all_ok _) (fun i _ => all_ok _) Hp1).
  cbn zeta in Hun. rewrite Hun.
  change (vm_state (w_vm (emits evp (with_state s1 w)))) with s1.
  change (vcp_ncpus (vm_vcp (w_vm (emits evp (with_state s1 w))))) with n.
  unfold s1 at 1 2. rewrite (set_clear_flag s _ (has_flag_false_land _ _ Hp)).
  rewrite with_state_emits, with_state_with_state.
  replace (with_state s w) with w by (symmetry; apply with_state_same).
  rewrite emits_emits. unfold evp.
  by rewrite <- !(assoc_L (++)).
Qed.

Lemma pause_unpause_round_trip_witness :
  (pause_vm amd64 env_ok;;; unpause_vm amd64 env_ok) w_sender2
  = (Ret tt,
     emits [E_lock vm_mtx; E_set_state 8; E_unlock vm_mtx; E_barrier_init 3;
            E_broadcast (vcpu_run_cond 0); E_broadcast (vcpu_run_cond 1);
            E_barrier_wait; E_barrier_destroy; E_pause_md;
            E_lock vm_mtx; E_set_state 0; E_unlock vm_mtx;
            E_broadcast (vcpu_unpause_cond 0); E_broadcast (vcpu_unpause_cond 1);
            E_unpause_md]
           w_sender2).
Proof.
  apply (pause_unpause_round_trip amd64 env_ok w_sender2).
  - intros s. reflexivity.
  - discriminate.
  - reflexivity.
Defined.

(** unpause_vm is a no-op on a VM that is not paused.  On a paused VM it
    clears the bits of VM_STATE_PAUSED in [vm_state], and no other bit,
    under vm_mtx, wakes the unpause condition of every VCPU in index order
    and then calls the machine-dependent hook. *)
Theorem unpause_vm_sequence P E w :
  fails E (s_mutex_lock vm_mtx) = None ->
  fails E (s_mutex_unlock vm_mtx) = None ->
  (forall n, (n < vcp_ncpus (vm_vcp (w_vm w)))%nat ->
             fails E (s_unpause_broadcast n) = None) ->
  let n := vcp_ncpus (vm_vcp (w_vm w)) in
  let s := Z.land (vm_state (w_vm w)) (Z.lnot (VM_STATE_PAUSED P)) in
  (has_flag (VM_STATE_PAUSED P) (w_vm w) = false ->
     unpause_vm P E w = (Ret tt, emits [E_lock vm_mtx; E_unlock vm_mtx] w))
  /\ (has_flag (VM_STATE_PAUSED P) (w_vm w) = true ->
     unpause_vm P E w
     = (Ret tt,
        emits ([E_lock vm_mtx; E_set_state s; E_unlock vm_mtx]
               ++ ((fun i => E_broadcast (vcpu_unpause_cond i)) <$> seq 0 n)
               ++ [E_unpause_md])
              (with_state s w))
     /\ has_flag (VM_STATE_PAUSED P) (w_vm (with_state s w)) = false
     /\ (forall k, 0 <= k -> Z.testbit (VM_STATE_PAUSED P) k = false ->
           Z.testbit s k = Z.testbit (vm_state (w_vm w)) k)).
Proof.
  intros Hl Hu Hb n s. split.
  - intros Hp. unfold unpause_vm.
    rewrite (bind_eq _ _ _ _ _ (mutex_lock_ok E _ w Hl)), bind_get_vm.
    change (w_vm (emits [E_lock vm_mtx] w)) with (w_vm w).
    rewrite Hp. cbn [negb]. rewrite mutex_unlock_ok by done.
    by rewrite emits_emits.
  - intros Hp. split; [by apply unpause_vm_paused|]. split.
    + apply has_flag_clear.
    + intros k Hk Hbit. by apply clear_flag_other_bits.
Qed.

Lemma unpause_vm_sequence_witness :
  unpause_vm amd64 env_ok w_sender2
  = (Ret tt, emits [E_lock vm_mtx; E_unlock vm_mtx] w_sender2)
  /\ unpause_vm amd64 env_ok w_paused
     = (Ret tt,
        emits [E_lock vm_mtx; E_set_state 0; E_unlock vm_mtx;
               E_broadcast (vcpu_unpause_cond 0); E_broadcast (vcpu_unpause_cond 1);
               E_unpause_md]
              (with_state 0 w_paused)).
Proof.
  split.
  - apply (unpause_vm_sequence amd64 env_ok w_sender2); reflexivity.
  - apply (unpause_vm_sequence amd64 env_ok w_paused); reflexivity.
Defined.


(** ** vcpu_run_loop: how it ends *)

Section VcpuMore.

Variable E : environ.

(** The way an iteration ends: with a non-zero value, unless vmm(4) has
    reported that the VM terminated.  The iteration does not write
    vcpu_done. *)
Lemma vcpu_run_body_flow n k w c w1 :
  vcpu_run_body E n k w = (Ret c, w1) ->
  w_done w1 = w_done w
  /\ match c with
     | Continue => True
     | Return r => r <> 0
     | Break r =>
         r <> 0 \/ (fails E (s_run k) = None /\ run_exit E k = VM_EXIT_TERMINATED)
     end.
Proof.
  intros H.
  unfold vcpu_run_body, pthread_step, mutex_lock, mutex_unlock, bind, emit, modify,
    ret, halt_with in H.
  destruct (seen_halted E k), (seen_paused E k); cbn in H;
    repeat match type of H with
           | context [fails E ?s] => destruct (fails E s) eqn:?; cbn in H
           end;
    try discriminate;
    try (injection H as <- <-; cbn; split; [done|];
         first [done | apply errno_val_nonzero | left; apply errno_val_nonzero]).
  all: destruct (run_exit E k) eqn:Hex; cbn in H;
    try case_decide; cbn in H;
    injection H as <- <-; cbn; split; try done; auto.
Qed.

Lemma vcpu_run_done_inv n r w x w' :
  vcpu_run_done E n r w = (Ret x, w') ->
  x = r /\ w_done w' !! n = Some true /\ E_signal threadcond ∈ w_trace w'.
Proof.
  unfold vcpu_run_done. intros H.
  apply bind_ret_inv in H as ([] & w1 & H1 & H). apply mutex_lock_inv in H1 as [_ ->].
  rewrite bind_modify, bind_emit in H.
  apply bind_ret_inv in H as ([] & w2 & H2 & H). apply mutex_unlock_inv in H2 as [_ ->].
  apply bind_ret_inv in H as ([] & w3 & H3 & H). apply mutex_lock_inv in H3 as [_ ->].
  rewrite bind_emit in H.
  apply bind_ret_inv in H as ([] & w4 & H4 & H). apply mutex_unlock_inv in H4 as [_ ->].
  injection H as <- <-. split; [done|]. split.
  - cbn. apply lookup_insert_eq.
  - rewrite !trace_emits. apply elem_of_app. left. apply elem_of_app. right.
    by apply list_elem_of_singleton.
Qed.

Lemma vcpu_run_from_zero n fuel : forall k w w',
  vcpu_run_from E fuel n k w = (Ret 0, w') ->
  exists j, (k <= j < k + fuel)%nat
    /\ run_exit E j = VM_EXIT_TERMINATED /\ fails E (s_run j) = None
    /\ w_done w' !! n = Some true /\ E_signal threadcond ∈ w_trace w'.
Proof.
  induction fuel as [|fuel IH]; intros k w w' H; cbn [vcpu_run_from] in H;
    [discriminate|].
  apply bind_ret_inv in H as (c & w1 & Hb & H).
  apply vcpu_run_body_flow in Hb as [_ Hc].
  destruct c as [|r|r].
  - apply IH in H as (j & Hj & H). exists j. split; [lia|done].
  - apply vcpu_run_done_inv in H as (Hr0 & Hd & Hs). subst r.
    destruct Hc as [Hc|[Hr Ht]]; [done|]. exists k. split; [lia|done].
  - injection H as -> _. done.
Qed.

End VcpuMore.

(** vcpu_run_loop returns 0 only for a VM that has terminated: some
    VMM_IOC_RUN of the thread has succeeded with the exit reason
    VM_EXIT_TERMINATED.  Every other way out of the loop gives a non-zero
    value.  A thread that returns 0 has set its vcpu_done flag and has
    signalled threadcond. *)
Theorem vcpu_run_loop_returns_zero_only_on_termination E fuel n w w' :
  vcpu_run_loop E fuel n w = (Ret 0, w') ->
  exists k, (k < fuel)%nat
    /\ run_exit E k = VM_EXIT_TERMINATED /\ fails E (s_run k) = None
    /\ w_done w' !! n = Some true /\ E_signal threadcond ∈ w_trace w'.
Proof.
  intros H. apply vcpu_run_from_zero in H as (j & Hj & H).
  exists j. split; [lia|done].
Qed.

Lemma vcpu_run_loop_returns_zero_only_on_termination_witness :
  (vcpu_run_loop env_ok 1 0 w_sender2).1 = Ret 0
  /\ run_exit env_ok 0 = VM_EXIT_TERMINATED
  /\ w_done (vcpu_run_loop env_ok 1 0 w_sender2).2 !! 0%nat = Some true.
Proof.
  destruct (vcpu_run_loop_returns_zero_only_on_termination env_ok 1 0 w_sender2
              (vcpu_run_loop env_ok 1 0 w_sender2).2)
    as (k & Hk & Ht & _ & Hd & _).
  - vm_compute. reflexivity.
  - assert (k = 0)%nat as -> by lia.
    split; [vm_compute; reflexivity|]. split; [exact Ht|exact Hd].
Defined.

Section VcpuRuns.

Variable E : environ.
Hypothesis lock_ok : forall m, fails E (s_mutex_lock m) = None.
Hypothesis unlock_ok : forall m, fails E (s_mutex_unlock m) = None.

Lemma vcpu_runs_app a b : vcpu_runs (a ++ b) = vcpu_runs a ++ vcpu_runs b.
Proof. apply omap_app. Qed.

(** An iteration of a VCPU that is not halted, up to the result of
    VMM_IOC_RUN. *)
Lemma vcpu_run_body_running n k w :
  fails E (s_lock_run_mtx k) = None ->
  fails E (s_unlock_run_mtx k) = None ->
  fails E (s_run k) = None ->
  seen_halted E k = false ->
  run_exit E k <> VM_EXIT_OTHER ->
  vcpu_run_body E n k w
  = (Ret (match run_exit E k with VM_EXIT_TERMINATED => Break 0 | _ => Continue end),
     emits [E_lock (vcpu_run_mtx n); E_lock vm_mtx; E_unlock vm_mtx;
            E_unlock (vcpu_run_mtx n);
            E_run n (if irqready E k && intr_pending E k
                     then Some (intr_ack E k) else None)
                  (intr_pending' E k)] w).
Proof.
  intros Hl Hu Hr Hh Hx.
  unfold vcpu_run_body, pthread_step, mutex_lock, mutex_unlock.
  rewrite Hl, Hu, Hr, Hh, !lock_ok, !unlock_ok. cbn [andb].
  unfold bind, emit, modify, ret. cbn.
  destruct (run_exit E k); [| |done]; cbn; unfold emits; cbn;
    by rewrite <- !(assoc_L (++)).
Qed.

Lemma vcpu_run_from_terminated n k : forall fuel from w,
  (forall j, (from <= j <= from + k)%nat ->
     fails E (s_lock_run_mtx j) = None /\ fails E (s_unlock_run_mtx j) = None
     /\ fails E (s_run j) = None /\ seen_halted E j = false) ->
  (forall j, (from <= j < from + k)%nat -> run_exit E j = VM_EXIT_NONE) ->
  run_exit E (from + k)%nat = VM_EXIT_TERMINATED ->
  (k < fuel)%nat ->
  exists evs,
    vcpu_run_from E fuel n from w
    = (Ret 0,
       emits (evs ++ [E_lock vm_mtx; E_set_done n; E_unlock vm_mtx;
                      E_lock threadmutex; E_signal threadcond;
                      E_unlock threadmutex])
             (w_with_done (<[n := true]> (w_done w)) w))
    /\ vcpu_runs evs = replicate (S k) n.
Proof.
  induction k as [|k IH]; intros fuel from w Hok Hnone Hterm Hfuel;
    (destruct fuel as [|fuel]; [lia|]); cbn [vcpu_run_from];
    destruct (Hok from ltac:(lia)) as (Hl & Hu & Hr & Hh).
  - rewrite Nat.add_0_r in Hterm.
    rewrite (bind_eq _ _ _ _ _
               (vcpu_run_body_running n from w Hl Hu Hr Hh ltac:(congruence))).
    rewrite Hterm.
    rewrite (vcpu_run_done_ok E n 0 _ lock_ok unlock_ok).
    eexists. rewrite with_done_emits, emits_emits. split; [reflexivity|].
    reflexivity.
  - pose proof (Hnone from ltac:(lia)) as Hn.
    rewrite (bind_eq _ _ _ _ _
               (vcpu_run_body_running n from w Hl Hu Hr Hh ltac:(congruence))).
    rewrite Hn.
    destruct (IH fuel (S from)
                (emits [E_lock (vcpu_run_mtx n); E_lock vm_mtx; E_unlock vm_mtx;
                        E_unlock (vcpu_run_mtx n);
                        E_run n (if irqready E from && intr_pending E from
                                 then Some (intr_ack E from) else None)
                              (intr_pending' E from)] w))
      as (evs & Hrun & Hruns).
    + intros j Hj. apply Hok. lia.
    + intros j Hj. apply Hnone. lia.
    + by replace (S from + k)%nat with (from + S k)%nat by lia.
    + lia.
    + rewrite Hrun. eexists. rewrite with_done_emits, emits_emits, (assoc_L (++)).
      split; [reflexivity|]. rewrite vcpu_runs_app, Hruns. reflexivity.
Qed.

End VcpuRuns.

(** A VCPU that is never halted and whose VMM_IOC_RUN requests return
    without an exit to handle keeps running; when the request of iteration
    [k] reports VM_EXIT_TERMINATED the thread has issued exactly [k + 1]
    requests, leaves the loop, sets its vcpu_done flag under vm_mtx, signals
    threadcond under threadmutex and returns 0. *)
Theorem vcpu_run_loop_runs_until_terminated E fuel n k w :
  (forall m, fails E (s_mutex_lock m) = None) ->
  (forall m, fails E (s_mutex_unlock m) = None) ->
  (forall j, (j <= k)%nat ->
     fails E (s_lock_run_mtx j) = None /\ fails E (s_unlock_run_mtx j) = None
     /\ fails E (s_run j) = None /\ seen_halted E j = false) ->
  (forall j, (j < k)%nat -> run_exit E j = VM_EXIT_NONE) ->
  run_exit E k = VM_EXIT_TERMINATED ->
  (k < fuel)%nat ->
  exists evs,
    vcpu_run_loop E fuel n w
    = (Ret 0,
       emits (evs ++ [E_lock vm_mtx; E_set_done n; E_unlock vm_mtx;
                      E_lock threadmutex; E_signal threadcond;
                      E_unlock threadmutex])
             (w_with_done (<[n := true]> (w_done w)) w))
    /\ vcpu_runs evs = replicate (S k) n.
Proof.
  intros Hl Hu Hok Hnone Hterm Hfuel.
  apply (vcpu_run_from_terminated E Hl Hu n k fuel 0%nat w); try done.
  - intros j Hj. apply Hok. lia.
  - intros j Hj. apply Hnone. lia.
Qed.

Lemma vcpu_run_loop_runs_until_terminated_witness :
  exists evs,
    vcpu_run_loop (env_terminated_at 2) 3 1 w_sender2
    = (Ret 0,
       emits (evs ++ [E_lock vm_mtx; E_set_done 1; E_unlock vm_mtx;
                      E_lock threadmutex; E_signal threadcond;
                      E_unlock threadmutex])
             (w_with_done (<[1%nat := true]> (w_done w_sender2)) w_sender2))
    /\ vcpu_runs evs = [1; 1; 1]%nat.
Proof.
  apply (vcpu_run_loop_runs_until_terminated (env_terminated_at 2) 3 1 2 w_sender2).
  - intros m. reflexivity.
  - intros m. reflexivity.
  - intros j Hj. repeat split; reflexivity.
  - intros [|[|j]] Hj; [reflexivity|reflexivity|lia].
  - reflexivity.
  - lia.
Defined.


(** ** Guest memory: counts and arrays *)

Lemma bind_fault {A B} (m : M A) (f : A -> M B) w w' :
  m w = (Fault, w') -> bind m f w = (Fault, w').
Proof. unfold bind. by intros ->. Qed.

(** alloc_guest_mem takes the number of ranges from vcp_nmemranges and
    does not compare it with the size of the array: with a count that is
    larger, it maps every range of the array and then reads behind it.
    start_vm calls alloc_guest_mem before vmm_create_vm has checked the
    count, so for a received VM with such a count start_vm gets there
    as well, with no VM created. *)
Theorem alloc_guest_mem_count_beyond_array P E fuel w :
  (length (ranges w) < vcp_nmemranges (vm_vcp (w_vm w)))%nat ->
  (forall j, (j < length (ranges w))%nat -> fails E (s_alloc_mmap j) = None) ->
  exists w',
    alloc_guest_mem E w = (Fault, w')
    /\ w_maps w' = reverse (mapping_of <$> ranges w') ++ w_maps w
    /\ (has_flag (VM_STATE_RECEIVED P) (w_vm w) = true ->
        start_vm P E fuel w = (Fault, w')).
Proof.
  intros Hlen Hok.
  assert (Hinv0 : alloc_inv E w 0 w).
  { split; [done|]. split; [apply same_vm_refl|]. intros; lia. }
  destruct (alloc_loop_ok E w (length (ranges w)) 0 w)
    as (w1 & H1 & Hm1 & Hs1 & _); [done|lia|intros; apply Hok; lia|].
  cbn [Nat.add] in Hm1.
  assert (Hl1 : length (ranges w1) = length (ranges w)) by (by apply same_vm_length).
  assert (Ha : alloc_guest_mem E w = (Fault, w1)).
  { unfold alloc_guest_mem. rewrite bind_get_vcp.
    set (n := vcp_nmemranges (vm_vcp (w_vm w))) in *.
    apply bind_fault.
    replace n with (length (ranges w) + S (n - length (ranges w) - 1))%nat by lia.
    rewrite for_loop_add, (bind_eq _ _ _ _ _ H1). cbn [for_loop Nat.add].
    apply bind_fault. unfold alloc_body. apply bind_fault.
    unfold memrange. fold (ranges w1).
    by rewrite lookup_ge_None_2 by lia. }
  exists w1. split; [exact Ha|]. split.
  - rewrite Hm1. by rewrite <- Hl1, firstn_all.
  - intros Hrecv. destruct (start_vm_pre P E fuel w) as (k & Hk & _).
    rewrite Hk. unfold start_world. rewrite Hrecv. by apply bind_fault.
Qed.

Lemma alloc_guest_mem_count_beyond_array_witness :
  exists w',
    start_vm amd64 env_ok 1 w_count_beyond_array = (Fault, w')
    /\ length (w_maps w') = 2%nat.
Proof.
  destruct (alloc_guest_mem_count_beyond_array amd64 env_ok 1 w_count_beyond_array)
    as (w' & Ha & Hm & Hs).
  - cbn. lia.
  - intros j Hj. reflexivity.
  - exists w'. split; [by apply Hs|].
    rewrite Hm, length_app, length_reverse, length_fmap.
    pose proof (f_equal (fun x => length (ranges x.2)) Ha) as Hl.
    cbn [snd] in Hl. rewrite <- Hl. vm_compute. reflexivity.
Defined.

(** ** remap_guest_mem when no reservation fails *)

Section RemapOk.

Variable P : platform.
Variable E : environ.







End RemapOk.


